(** * Transcription scripts: timestamps, subtitle writers and the GPU guard

    A shallow embedding of the Python scripts [transcribe.py],
    [transcribe_mp4.py], [transcript_fw_mp4.py],
    [transcript_fw_mp4_opt.py] and [gpu_monitor.py].

    - Python [int] is [Z]; Python [str] is [string], one [ascii] per code
      point (code points above U+00FF are not represented).
    - Python [float] is IEEE binary64.  A finite binary64 value is an
      integer multiple of [2^-1074]; it is represented by that integer, so
      exact arithmetic on floats is arithmetic on [Z] and only rounding to
      53 significant bits has to be written out.
    - Exceptions are values of [exn]; fallible code returns [result].
    - A text file holds the text written to it and remembers the codec it
      was opened with; its bytes on disk are that text encoded.
    - A script is a function of the world (file system and trace of what
      has been done so far); a [while True] loop takes fuel. *)

From Stdlib Require Import ZArith Lia List String Ascii Bool.
From Stdlib Require Import DecimalString DecimalN.
From stdpp Require Import base strings gmap.

Local Open Scope Z_scope.

(* ================================================================== *)
(** * Python runtime: exceptions *)
(* ================================================================== *)

Inductive exn : Type :=
| ValueError
| OverflowError
| ZeroDivisionError
| UnicodeEncodeError
| FileExistsError
| OSError
| NVMLError
| RuntimeError
| SystemExit (status : Z).

Inductive result (A : Type) : Type :=
| Ok (a : A)
| Raise (e : exn).

Arguments Ok {A} a.
Arguments Raise {A} e.

Definition bind {A B : Type} (r : result A) (k : A -> result B) : result B :=
  match r with
  | Ok a => k a
  | Raise e => Raise e
  end.

Notation "'let*' x ':=' e 'in' k" :=
  (bind e (fun x => k))
  (at level 10, x name, e at level 100, k at level 200).

(* ================================================================== *)
(** * Python runtime: integers as text *)
(* ================================================================== *)

Module PyInt.

(** Decimal digits of a natural number, no sign, ["0"] for zero. *)
Definition digits (n : Z) : string :=
  NilZero.string_of_uint (N.to_uint (Z.to_N n)).

(** [str(n)], also what an f-string prints for [{n}]. *)
Definition str (n : Z) : string :=
  if n <? 0 then "-" +:+ digits (- n) else digits n.

Fixpoint zeros (k : nat) : string :=
  match k with
  | O => ""
  | S k' => String "0" (zeros k')
  end.

(** [f"{n:0Wd}"]: sign first, then zeros up to a total width of [w]. *)
Definition format_0d (w : nat) (n : Z) : string :=
  let sign := if n <? 0 then "-" else "" in
  let ds := digits (Z.abs n) in
  sign +:+ zeros (w - String.length sign - String.length ds) +:+ ds.

End PyInt.

(* ================================================================== *)
(** * Python runtime: binary64 floats *)
(* ================================================================== *)

Module Float64.

(** The float [1.0], in units of [2^-1074]. *)
Definition one : Z := 2 ^ 1074.

(** [2^1024] in the same units: the first magnitude that is no longer a
    finite binary64 value. *)
Definition huge : Z := 2 ^ 2098.

(** A Python float.  [Fin n] is the finite value [n * 2^-1074]; the two
    zeros are identified (no operation of the scripts tells them
    apart). *)
Inductive pyfloat : Type :=
| Fin (n : Z)
| Inf (negative : bool)
| NaN.

(** Nearest integer to [p / q], ties to even ([0 <= p], [0 < q]). *)
Definition rne (p q : Z) : Z :=
  let d := p / q in
  let r := p mod q in
  if 2 * r <? q then d
  else if q <? 2 * r then d + 1
  else if Z.even d then d else d + 1.

(** Binary exponent of the spacing of floats around [n] units: the
    spacing is one unit up to [2^53] units (subnormals and the first
    binade) and doubles with every further binade. *)
Definition ulp_exp (n : Z) : Z := Z.max 0 (Z.log2 n - 52).

(** Round the non-negative rational [p / q] (in units) to 53 bits. *)
Definition round_pos (p q : Z) : Z :=
  let e := ulp_exp (p / q) in
  rne p (q * 2 ^ e) * 2 ^ e.

(** Round the rational [p / q], [q > 0], to the nearest float, ties to
    even.  The result may reach [huge]: that is an overflow. *)
Definition round (p q : Z) : Z :=
  if p <? 0 then - round_pos (- p) q else round_pos p q.

Definition classify (n : Z) : pyfloat :=
  if huge <=? Z.abs n then Inf (n <? 0) else Fin n.

(** [float(n)] for an int operand of a mixed operation. *)
Definition of_int (n : Z) : result Z :=
  let r := round (n * one) 1 in
  if huge <=? Z.abs r then Raise OverflowError else Ok r.

(** [a / b] on two ints: the correctly rounded quotient. *)
Definition int_truediv (a b : Z) : result Z :=
  if b =? 0 then Raise ZeroDivisionError
  else
    let r := round (Z.sgn b * a * one) (Z.abs b) in
    if huge <=? Z.abs r then Raise OverflowError else Ok r.

Definition fadd (a b : Z) : Z := round (a + b) 1.
Definition fsub (a b : Z) : Z := round (a - b) 1.

(** C [fmod]: exact, with the sign of the dividend. *)
Definition fmod (v w : Z) : Z := Z.rem v w.

(** [v % w] on floats (CPython [float_rem]). *)
Definition float_rem (v w : Z) : result Z :=
  if w =? 0 then Raise ZeroDivisionError
  else
    let md := fmod v w in
    if md =? 0 then Ok 0
    else if xorb (w <? 0) (md <? 0) then Ok (fadd md w)
    else Ok md.

(** [v // w] on floats (CPython [_float_div_mod], quotient part). *)
Definition float_floordiv (v w : Z) : result pyfloat :=
  if w =? 0 then Raise ZeroDivisionError
  else
    let md := fmod v w in
    let dv := round (Z.sgn w * fsub v md * one) (Z.abs w) in
    if huge <=? Z.abs dv then Ok (Inf (dv <? 0))
    else
      let dv := if negb (md =? 0) && xorb (w <? 0) (md <? 0)
                then fsub dv one else dv in
      if dv =? 0 then Ok (Fin 0)
      else
        let fl := (dv / one) * one in
        if one / 2 <? fsub dv fl then Ok (Fin (fadd fl one))
        else Ok (Fin fl).

(** [a * b] on floats. *)
Definition float_mul (a b : pyfloat) : pyfloat :=
  match a, b with
  | NaN, _ | _, NaN => NaN
  | Inf s, Inf t => Inf (xorb s t)
  | Inf s, Fin n | Fin n, Inf s =>
      if n =? 0 then NaN else Inf (xorb s (n <? 0))
  | Fin n, Fin k => classify (round (n * k) one)
  end.

(** [int(x)]: truncation towards zero. *)
Definition int_of_float (x : pyfloat) : result Z :=
  match x with
  | Fin n => Ok (Z.quot n one)
  | Inf _ => Raise OverflowError
  | NaN => Raise ValueError
  end.

(** The float nearest to the decimal literal [p / q]. *)
Definition literal (p q : Z) : pyfloat := classify (round (p * one) q).

End Float64.

(* ================================================================== *)
(** * Timestamps ([ms_to_srt_time], [ms_to_vtt_time]) *)
(* ================================================================== *)

(** The four transcription scripts each carry the same text of these two
    functions. *)

Import Float64.

(** The four fields both formatters compute before printing. *)
Record clock : Type := Clock {
  hours : Z;
  minutes : Z;
  secs : Z;
  millis : Z
}.

Definition split_ms (milliseconds : Z) : result clock :=
  let* seconds := int_truediv milliseconds 1000 in
  let* c3600 := of_int 3600 in
  let* c60 := of_int 60 in
  let* h := float_floordiv seconds c3600 in
  let* hours := int_of_float h in
  let* r := float_rem seconds c3600 in
  let* mn := float_floordiv r c60 in
  let* minutes := int_of_float mn in
  let* s := float_rem seconds c60 in
  let* secs := int_of_float (Fin s) in
  let millis := milliseconds mod 1000 in
  Ok (Clock hours minutes secs millis).

Definition ms_to_srt_time (milliseconds : Z) : result string :=
  let* c := split_ms milliseconds in
  Ok (PyInt.format_0d 2 (hours c) +:+ ":" +:+ PyInt.format_0d 2 (minutes c)
      +:+ ":" +:+ PyInt.format_0d 2 (secs c)
      +:+ "," +:+ PyInt.format_0d 3 (millis c)).

Definition ms_to_vtt_time (milliseconds : Z) : result string :=
  let* c := split_ms milliseconds in
  if 0 <? hours c
  then Ok (PyInt.format_0d 2 (hours c) +:+ ":" +:+ PyInt.format_0d 2 (minutes c)
           +:+ "." +:+ PyInt.format_0d 3 (millis c))
  else Ok (PyInt.format_0d 2 (minutes c) +:+ ":" +:+ PyInt.format_0d 2 (secs c)
           +:+ "." +:+ PyInt.format_0d 3 (millis c)).

(* ================================================================== *)
(** * Python runtime: text *)
(* ================================================================== *)

Module PyStr.

(** [str.isspace] on the code points below U+0100. *)
Definition isspace (c : ascii) : bool :=
  let n := Z.of_N (N_of_ascii c) in
  ((9 <=? n) && (n <=? 13)) || ((28 <=? n) && (n <=? 32))
  || (n =? 133) || (n =? 160).

Fixpoint lstrip (s : string) : string :=
  match s with
  | EmptyString => EmptyString
  | String c s' => if isspace c then lstrip s' else s
  end.

Fixpoint rstrip (s : string) : string :=
  match s with
  | EmptyString => EmptyString
  | String c s' =>
      match rstrip s' with
      | EmptyString => if isspace c then EmptyString else String c EmptyString
      | r => String c r
      end
  end.

(** [s.strip()]. *)
Definition strip (s : string) : string := rstrip (lstrip s).

Definition LF : ascii := ascii_of_nat 10.
Definition TAB : ascii := ascii_of_nat 9.
Definition nl : string := String LF EmptyString.
Definition tab : string := String TAB EmptyString.

(** The lines of a text: the pieces that end in a line feed, and what
    follows the last line feed when that is not empty. *)
Fixpoint lines_from (cur : string) (s : string) : list string :=
  match s with
  | EmptyString => match cur with EmptyString => [] | _ => [cur] end
  | String c s' =>
      if Ascii.eqb c LF then cur :: lines_from EmptyString s'
      else lines_from (cur +:+ String c EmptyString) s'
  end.

Definition lines (s : string) : list string := lines_from EmptyString s.

Fixpoint contains (c : ascii) (s : string) : bool :=
  match s with
  | EmptyString => false
  | String d s' => Ascii.eqb c d || contains c s'
  end.

(** The fields of a line: the pieces between tab characters. *)
Fixpoint fields_from (cur : string) (s : string) : list string :=
  match s with
  | EmptyString => [cur]
  | String c s' =>
      if Ascii.eqb c TAB then cur :: fields_from EmptyString s'
      else fields_from (cur +:+ String c EmptyString) s'
  end.

Definition fields (s : string) : list string := fields_from EmptyString s.

End PyStr.

(** Text encodings a file can be opened with. *)
Inductive encoding : Type := UTF8 | Latin1 | ASCII.

Module Codec.

Definition byte_of_Z (n : Z) : Byte.byte :=
  byte_of_ascii (ascii_of_N (Z.to_N n)).

(** The bytes of one code point, [None] where the codec has none
    ([UnicodeEncodeError]). *)
Definition encode_char (enc : encoding) (c : ascii) : option (list Byte.byte) :=
  let n := Z.of_N (N_of_ascii c) in
  match enc with
  | UTF8 =>
      if n <? 128 then Some [byte_of_ascii c]
      else Some [byte_of_Z (192 + n / 64); byte_of_Z (128 + n mod 64)]
  | Latin1 => Some [byte_of_ascii c]
  | ASCII => if n <? 128 then Some [byte_of_ascii c] else None
  end.

Fixpoint encode (enc : encoding) (s : string) : option (list Byte.byte) :=
  match s with
  | EmptyString => Some []
  | String c s' =>
      match encode_char enc c, encode enc s' with
      | Some b, Some bs => Some (b ++ bs)
      | _, _ => None
      end
  end.

Definition encodable (enc : encoding) (s : string) : bool :=
  match encode enc s with Some _ => true | None => false end.

End Codec.

(* ================================================================== *)
(** * The world the scripts run in *)
(* ================================================================== *)

Inductive nvml_call : Type :=
| NvmlInit
| NvmlDeviceGetHandleByIndex
| NvmlDeviceGetTemperature
| NvmlDeviceGetUtilizationRates
| NvmlShutdown.

Inductive log_level : Type := INFO | WARNING.

(** What a run does that can be observed from outside, in order. *)
Inductive event : Type :=
| EvPrint (line : string)
| EvLog (level : log_level) (message : string)
| EvReport
| EvMkdir (path : string)
| EvOpen (path : string) (enc : encoding)
| EvWrite (path : string) (chunk : string)
| EvLoadModel (name device : string)
| EvTranscribe (path : string)
| EvCheckGpu (temp_threshold load_threshold pause_time : Z)
| EvNvml (call : nvml_call) (ok : bool)
| EvSleep (seconds : Z).

(** A directory entry.  A text file remembers the codec it was opened
    with; [Other] is a file whose content is not modelled (the media
    input, the log file). *)
Inductive node : Type :=
| Dir
| TextFile (enc : encoding) (content : string)
| Other.

Record world : Type := World {
  fs : gmap string node;
  trace : list event
}.

(** The bytes of a text file on disk. *)
Definition disk_bytes (w : world) (path : string) : option (list Byte.byte) :=
  match fs w !! path with
  | Some (TextFile enc content) => Codec.encode enc content
  | _ => None
  end.

(** A piece of script: it may not return ([None]: the fuel of a loop ran
    out), and otherwise leaves a world and returns or raises. *)
Definition prog (A : Type) : Type := world -> option (world * result A).

Definition ret {A : Type} (a : A) : prog A := fun w => Some (w, Ok a).
Definition raise {A : Type} (e : exn) : prog A := fun w => Some (w, Raise e).
Definition lift {A : Type} (r : result A) : prog A := fun w => Some (w, r).
Definition diverge {A : Type} : prog A := fun _ => None.

Definition pbind {A B : Type} (m : prog A) (k : A -> prog B) : prog B :=
  fun w =>
    match m w with
    | None => None
    | Some (w', Ok a) => k a w'
    | Some (w', Raise e) => Some (w', Raise e)
    end.

Notation "x <- m ;; k" := (pbind m (fun x => k))
  (at level 100, m at next level, right associativity).
Notation "m ;; k" := (pbind m (fun _ => k))
  (at level 100, right associativity).

Definition emit (e : event) : prog unit :=
  fun w => Some (World (fs w) (trace w ++ [e]), Ok tt).

(** [try: m  except E: pass] for the exceptions selected by [handles]. *)
Definition try_except_pass (handles : exn -> bool) (m : prog unit) : prog unit :=
  fun w =>
    match m w with
    | None => None
    | Some (w', Ok a) => Some (w', Ok a)
    | Some (w', Raise e) => if handles e then Some (w', Ok tt) else Some (w', Raise e)
    end.

(** [try: m  finally: f]. *)
Definition try_finally {A : Type} (m : prog A) (f : prog unit) : prog A :=
  fun w =>
    match m w with
    | None => None
    | Some (w', r) =>
        match f w' with
        | None => None
        | Some (w'', Ok _) => Some (w'', r)
        | Some (w'', Raise e) => Some (w'', Raise e)
        end
    end.

Fixpoint for_each {A : Type} (l : list A) (body : A -> prog unit) : prog unit :=
  match l with
  | [] => ret tt
  | x :: l' => body x ;; for_each l' body
  end.

(** [for i, x in enumerate(l, i0)]. *)
Fixpoint for_each_enumerate {A : Type} (i0 : Z) (l : list A)
    (body : Z -> A -> prog unit) : prog unit :=
  match l with
  | [] => ret tt
  | x :: l' => body i0 x ;; for_each_enumerate (i0 + 1) l' body
  end.

(** ** Built-ins and library calls *)

Definition print (line : string) : prog unit := emit (EvPrint line).

Definition sys_exit {A : Type} (status : Z) : prog A := raise (SystemExit status).

(** [os.path.exists] / [Path.exists]. *)
Definition path_exists (path : string) : prog bool :=
  fun w => Some (w, Ok (bool_decide (is_Some (fs w !! path)))).

(** [Path.mkdir(exist_ok=True)]. *)
Definition mkdir_exist_ok (path : string) : prog unit :=
  fun w =>
    match fs w !! path with
    | Some Dir => Some (w, Ok tt)
    | Some _ => Some (w, Raise FileExistsError)
    | None => Some (World (<[path := Dir]> (fs w)) (trace w ++ [EvMkdir path]), Ok tt)
    end.

(** [open(path, 'w', encoding=enc)]: the file is created or truncated.
    The handle is the path itself.  Failures of [open] are not modelled. *)
Definition open_w (path : string) (enc : encoding) : prog string :=
  fun w =>
    Some (World (<[path := TextFile enc ""]> (fs w)) (trace w ++ [EvOpen path enc]),
          Ok path).

(** [f.write(chunk)]: the chunk goes through the codec of the file as a
    whole, so an unencodable chunk leaves the file as it was. *)
Definition write (f : string) (chunk : string) : prog unit :=
  fun w =>
    match fs w !! f with
    | Some (TextFile enc content) =>
        if Codec.encodable enc chunk
        then Some (World (<[f := TextFile enc (content +:+ chunk)]> (fs w))
                         (trace w ++ [EvWrite f chunk]), Ok tt)
        else Some (w, Raise UnicodeEncodeError)
    | _ => Some (w, Raise ValueError)
    end.

(** The largest number of whole seconds whose nanoseconds fit a signed
    64-bit integer, and the largest such integer. *)
Definition sleep_max : Z := 9223372036.
Definition int64_max : Z := 2 ^ 63 - 1.

(** [time.sleep(seconds)] for an int (CPython 3.11 on Linux), called when
    the monotonic clock reads [monotonic] nanoseconds.  The length is
    turned into nanoseconds in a signed 64-bit integer: beyond [sleep_max]
    seconds either way that is an [OverflowError]; a negative length is a
    [ValueError]; the sleep is until the instant clock plus length, and an
    instant beyond the 64 bits is refused by the kernel ([OSError]).
    Signals that arrive during the sleep are not modelled. *)
Definition sleep (monotonic seconds : Z) : prog unit :=
  if (seconds <? - sleep_max) || (sleep_max <? seconds) then raise OverflowError
  else if seconds <? 0 then raise ValueError
  else if int64_max <? monotonic + seconds * 10 ^ 9 then raise OSError
  else emit (EvSleep seconds).

Definition log (level : log_level) (message : string) : prog unit :=
  emit (EvLog level message).

(** ** What the libraries answer *)

Record segment : Type := Segment {
  start : pyfloat;
  end_ : pyfloat;
  text : string
}.

(** The outcome of [model.transcribe]: the segments, and for openai-whisper
    the whole text ([result["text"]]). *)
Record transcript : Type := Transcript {
  segments : list segment;
  whole_text : string
}.

(** The answers of NVML during one call of [check_gpu_and_pause]: [None]
    stands for a call that raises [NVMLError]; the [i]-th pass through the
    polling loop reads [nv_temperature i] and [nv_utilization i].  With
    them comes the monotonic clock of the machine, in nanoseconds, as it
    reads when the [i]-th pass goes to sleep. *)
Record nvml : Type := Nvml {
  nv_init : bool;
  nv_handle : bool;
  nv_temperature : nat -> option Z;
  nv_utilization : nat -> option Z;
  nv_shutdown : bool;
  nv_monotonic : nat -> Z
}.

Record environment : Type := Environment {
  (** codec of [open(path, 'w')] without [encoding=] *)
  default_encoding : encoding;
  (** [whisper.load_model] / [WhisperModel(...)] *)
  model_loads : result unit;
  (** [model.transcribe(path)] *)
  transcription : result transcript;
  (** NVML during the [k]-th call of [check_gpu_and_pause] *)
  gpu : nat -> nvml
}.

Definition load_model (env : environment) (name device : string) : prog unit :=
  emit (EvLoadModel name device) ;; lift (model_loads env).

Definition transcribe (env : environment) (path : string) : prog transcript :=
  emit (EvTranscribe path) ;; lift (transcription env).

Definition nvml_call_ (c : nvml_call) (ok : bool) : prog unit :=
  emit (EvNvml c ok) ;; if ok then ret tt else raise NVMLError.

Definition nvml_read (c : nvml_call) (v : option Z) : prog Z :=
  match v with
  | Some x => emit (EvNvml c true) ;; ret x
  | None => emit (EvNvml c false) ;; raise NVMLError
  end.

(* ================================================================== *)
(** * Code shared by the four scripts *)
(* ================================================================== *)

Import PyStr.

(** [int(t * 1000)]. *)
Definition to_ms (t : pyfloat) : result Z :=
  let* k := of_int 1000 in
  int_of_float (float_mul t (Fin k)).

(** The f-strings of the writers, on values already computed. *)
Definition tsv_header : string := "start" +:+ tab +:+ "end" +:+ tab +:+ "text" +:+ nl.
Definition vtt_header : string := "WEBVTT" +:+ nl +:+ nl.

Definition tsv_row (start_ms end_ms : Z) (text : string) : string :=
  PyInt.str start_ms +:+ tab +:+ PyInt.str end_ms +:+ tab +:+ text +:+ nl.

Definition srt_cue (i : Z) (start_time end_time text : string) : string :=
  PyInt.str i +:+ nl +:+ start_time +:+ " --> " +:+ end_time +:+ nl
  +:+ text +:+ nl +:+ nl.

Definition vtt_cue (start_time end_time text : string) : string :=
  start_time +:+ " --> " +:+ end_time +:+ nl +:+ text +:+ nl +:+ nl.

(** A path as [pathlib] has split it: [parent] is ["."] for a bare file
    name. *)
Record pypath : Type := PyPath {
  parent : string;
  stem : string;
  suffix : string
}.

Definition joinpath (dir name : string) : string :=
  if String.eqb dir "." then name else dir +:+ "/" +:+ name.

Definition path_str (p : pypath) : string :=
  joinpath (parent p) (stem p +:+ suffix p).

(** [input_path.parent / f"{input_path.stem}_transcribed"]. *)
Definition output_dir_of (p : pypath) : string :=
  joinpath (parent p) (stem p +:+ "_transcribed").

Definition not_found_message (path : string) : string :=
  "Error: File '" +:+ path +:+ "' not found!".

(** Exit status of the interpreter for the outcome of a script. *)
Definition exit_status (r : result ()) : Z :=
  match r with
  | Ok _ => 0
  | Raise (SystemExit status) => status
  | Raise _ => 1
  end.

(* ================================================================== *)
(** * [transcript_fw_mp4.py]: the batch writers *)
(* ================================================================== *)

Module FwMp4.

Record arguments : Type := Args {
  input : pypath;
  model : string;
  device : string;
  compute_type : string
}.

(** [enc] is the codec [open(filename, 'w')] picks: the platform
    default. *)
Definition save_txt (enc : encoding) (segments : list segment)
    (filename : string) : prog () :=
  f <- open_w filename enc ;;
  for_each segments (fun segment =>
    write f (strip (text segment) +:+ " ")) ;;
  print ("Saved " +:+ filename).

Definition save_tsv (enc : encoding) (segments : list segment)
    (filename : string) : prog () :=
  f <- open_w filename enc ;;
  write f tsv_header ;;
  for_each segments (fun segment =>
    start_ms <- lift (to_ms (start segment)) ;;
    end_ms <- lift (to_ms (end_ segment)) ;;
    let text := strip (text segment) in
    write f (tsv_row start_ms end_ms text)) ;;
  print ("Saved " +:+ filename).

Definition save_srt (enc : encoding) (segments : list segment)
    (filename : string) : prog () :=
  f <- open_w filename enc ;;
  for_each_enumerate 1 segments (fun i segment =>
    start_ms <- lift (to_ms (start segment)) ;;
    start_time <- lift (ms_to_srt_time start_ms) ;;
    end_ms <- lift (to_ms (end_ segment)) ;;
    end_time <- lift (ms_to_srt_time end_ms) ;;
    let text := strip (text segment) in
    write f (srt_cue i start_time end_time text)) ;;
  print ("Saved " +:+ filename).

Definition save_vtt (enc : encoding) (segments : list segment)
    (filename : string) : prog () :=
  f <- open_w filename enc ;;
  write f vtt_header ;;
  for_each segments (fun segment =>
    start_ms <- lift (to_ms (start segment)) ;;
    start_time <- lift (ms_to_vtt_time start_ms) ;;
    end_ms <- lift (to_ms (end_ segment)) ;;
    end_time <- lift (ms_to_vtt_time end_ms) ;;
    let text := strip (text segment) in
    write f (vtt_cue start_time end_time text)) ;;
  print ("Saved " +:+ filename).

(** The four calls at the end of [main]. *)
Definition save_all (enc : encoding) (all_segments : list segment)
    (output_dir base_name : string) : prog () :=
  save_txt enc all_segments (joinpath output_dir (base_name +:+ ".txt")) ;;
  save_tsv enc all_segments (joinpath output_dir (base_name +:+ ".tsv")) ;;
  save_srt enc all_segments (joinpath output_dir (base_name +:+ ".srt")) ;;
  save_vtt enc all_segments (joinpath output_dir (base_name +:+ ".vtt")).

(** [main], after [argparse].  The progress bar is not modelled; the
    lines that print durations are recorded as [EvReport]. *)
Definition main (env : environment) (args : arguments) : prog () :=
  let input_path := input args in
  found <- path_exists (path_str input_path) ;;
  if negb found
  then print (not_found_message (path_str input_path)) ;; sys_exit 1
  else
    let output_dir := output_dir_of input_path in
    mkdir_exist_ok output_dir ;;
    let base_name := stem input_path in
    print ("Loading model " +:+ model args +:+ " on " +:+ device args
           +:+ " (" +:+ compute_type args +:+ ")...") ;;
    load_model env (model args) (device args) ;;
    print ("Transcribing " +:+ path_str input_path +:+ "...") ;;
    tr <- transcribe env (path_str input_path) ;;
    let all_segments := segments tr in
    save_all (default_encoding env) all_segments output_dir base_name ;;
    print (nl +:+ "Transcription complete! Files saved in " +:+ output_dir) ;;
    emit EvReport ;; emit EvReport ;; emit EvReport.

End FwMp4.

(* ================================================================== *)
(** * [transcript_fw_mp4_opt.py]: thermal guard and incremental writes *)
(* ================================================================== *)

Module FwMp4Opt.

Record arguments : Type := Args {
  input : pypath;
  model : string;
  device : string;
  compute_type : string;
  temp_limit : Z;
  load_limit : Z;
  pause_time : Z
}.

Definition degree : string := String (ascii_of_nat 176) "".

Definition gpu_alert (temp util pause_time : Z) : string :=
  "[GPU ALERT] Temp: " +:+ PyInt.str temp +:+ degree +:+ "C, Load: "
  +:+ PyInt.str util +:+ "%. Pausing for " +:+ PyInt.str pause_time
  +:+ "s to cool down...".

(** The [while True] loop, entered for the [i]-th time; [fuel] bounds
    the number of passes. *)
Fixpoint poll (fuel : nat) (nv : nvml) (temp_threshold load_threshold pause_time : Z)
    (i : nat) : prog () :=
  match fuel with
  | O => diverge
  | S fuel' =>
      temp <- nvml_read NvmlDeviceGetTemperature (nv_temperature nv i) ;;
      util <- nvml_read NvmlDeviceGetUtilizationRates (nv_utilization nv i) ;;
      if (temp >? temp_threshold) && (util >? load_threshold)
      then
        log WARNING (gpu_alert temp util pause_time) ;;
        sleep (nv_monotonic nv i) pause_time ;;
        poll fuel' nv temp_threshold load_threshold pause_time (S i)
      else ret tt
  end.

Definition is_nvml_error (e : exn) : bool :=
  match e with NVMLError => true | _ => false end.

Definition check_gpu_and_pause (fuel : nat) (nv : nvml)
    (temp_threshold load_threshold pause_time : Z) : prog () :=
  emit (EvCheckGpu temp_threshold load_threshold pause_time) ;;
  try_finally
    (try_except_pass is_nvml_error
       (nvml_call_ NvmlInit (nv_init nv) ;;
        nvml_call_ NvmlDeviceGetHandleByIndex (nv_handle nv) ;;
        poll fuel nv temp_threshold load_threshold pause_time 0))
    (try_except_pass (fun _ => true)
       (nvml_call_ NvmlShutdown (nv_shutdown nv))).

(** One pass of [for i, segment in enumerate(segments, 1)]. *)
Definition process_segment (fuel : nat) (env : environment) (args : arguments)
    (txt_f tsv_f srt_f vtt_f : string) (i : Z) (segment : segment) : prog () :=
  (if String.eqb (device args) "cuda"
   then check_gpu_and_pause fuel (gpu env (Z.to_nat (i - 1)))
          (temp_limit args) (load_limit args) (pause_time args)
   else ret tt) ;;
  let text := strip (text segment) in
  start_ms <- lift (to_ms (start segment)) ;;
  end_ms <- lift (to_ms (end_ segment)) ;;
  write txt_f (text +:+ " ") ;;
  write tsv_f (tsv_row start_ms end_ms text) ;;
  start_srt <- lift (ms_to_srt_time start_ms) ;;
  end_srt <- lift (ms_to_srt_time end_ms) ;;
  write srt_f (srt_cue i start_srt end_srt text) ;;
  start_vtt <- lift (ms_to_vtt_time start_ms) ;;
  end_vtt <- lift (ms_to_vtt_time end_ms) ;;
  write vtt_f (vtt_cue start_vtt end_vtt text).

(** The [with open(...) ...] block of [main]. *)
Definition write_incrementally (fuel : nat) (env : environment) (args : arguments)
    (segments : list segment) (output_dir base_name : string) : prog () :=
  txt_f <- open_w (joinpath output_dir (base_name +:+ ".txt")) UTF8 ;;
  tsv_f <- open_w (joinpath output_dir (base_name +:+ ".tsv")) UTF8 ;;
  srt_f <- open_w (joinpath output_dir (base_name +:+ ".srt")) UTF8 ;;
  vtt_f <- open_w (joinpath output_dir (base_name +:+ ".vtt")) UTF8 ;;
  write tsv_f tsv_header ;;
  write vtt_f vtt_header ;;
  for_each_enumerate 1 segments
    (process_segment fuel env args txt_f tsv_f srt_f vtt_f).

(** [logging.basicConfig] with a [FileHandler]: the log file comes into
    being; what is logged to it is kept in the trace only. *)
Definition logging_basicConfig (log_file : string) : prog () :=
  fun w => Some (World (<[log_file := Other]> (fs w)) (trace w), Ok tt).

(** [main], after [argparse].  The progress bar is not modelled; the
    log lines that give durations are recorded as [EvReport]. *)
Definition main (fuel : nat) (env : environment) (args : arguments) : prog () :=
  let input_path := input args in
  found <- path_exists (path_str input_path) ;;
  if negb found
  then print (not_found_message (path_str input_path)) ;; sys_exit 1
  else
    let output_dir := output_dir_of input_path in
    mkdir_exist_ok output_dir ;;
    let base_name := stem input_path in
    logging_basicConfig (joinpath output_dir (base_name +:+ ".log")) ;;
    log INFO ("Loading model " +:+ model args +:+ " on " +:+ device args
              +:+ " (" +:+ compute_type args +:+ ")...") ;;
    load_model env (model args) (device args) ;;
    log INFO ("Transcribing " +:+ path_str input_path +:+ "...") ;;
    tr <- transcribe env (path_str input_path) ;;
    emit EvReport ;;
    write_incrementally fuel env args (segments tr) output_dir base_name ;;
    emit EvReport ;; emit EvReport ;; emit EvReport ;;
    log INFO ("Outputs saved in: " +:+ output_dir).

End FwMp4Opt.

(* ================================================================== *)
(** * [transcribe.py] and [transcribe_mp4.py]: openai-whisper *)
(* ================================================================== *)

Module OsPath.

(** [s.rfind(c)] for a single character: the last index, or [-1]. *)
Fixpoint rfind_from (c : ascii) (s : string) (i last : Z) : Z :=
  match s with
  | EmptyString => last
  | String d s' => rfind_from c s' (i + 1) (if Ascii.eqb c d then i else last)
  end.

Definition rfind (c : ascii) (s : string) : Z := rfind_from c s 0 (-1).

(** Is some character of [s] at an index in [[lo, hi)] not [c]? *)
Fixpoint other_between (c : ascii) (s : string) (i lo hi : Z) : bool :=
  match s with
  | EmptyString => false
  | String d s' =>
      ((lo <=? i) && (i <? hi) && negb (Ascii.eqb c d))
      || other_between c s' (i + 1) lo hi
  end.

(** [os.path.splitext(p)[0]] on POSIX. *)
Definition splitext_root (p : string) : string :=
  let sepIndex := rfind "/" p in
  let dotIndex := rfind "." p in
  if (sepIndex <? dotIndex) && other_between "." p 0 (sepIndex + 1) dotIndex
  then String.substring 0 (Z.to_nat dotIndex) p
  else p.

End OsPath.

Module Transcribe.

Definition save_txt (enc : encoding) (result : transcript)
    (filename : string) : prog () :=
  f <- open_w filename enc ;;
  write f (whole_text result) ;;
  print ("Saved " +:+ filename).

(** [save_tsv], [save_srt] and [save_vtt] read [result["segments"]] and
    are otherwise the functions of [transcript_fw_mp4.py], line for
    line. *)
Definition save_tsv (enc : encoding) (result : transcript)
    (filename : string) : prog () :=
  FwMp4.save_tsv enc (segments result) filename.

Definition save_srt (enc : encoding) (result : transcript)
    (filename : string) : prog () :=
  FwMp4.save_srt enc (segments result) filename.

Definition save_vtt (enc : encoding) (result : transcript)
    (filename : string) : prog () :=
  FwMp4.save_vtt enc (segments result) filename.

(** [sys.argv[1]] if there is one, else the default. *)
Definition input_file_of (argv : list string) : string :=
  match argv with
  | _ :: a :: _ => a
  | _ => "audio.mp3"
  end.

(** The module body; [argv] is [sys.argv]. *)
Definition script (env : environment) (argv : list string) : prog () :=
  load_model env "large-v3" "cuda" ;;
  let input_file := input_file_of argv in
  found <- path_exists input_file ;;
  if negb found
  then print (not_found_message input_file) ;; sys_exit 1
  else
    let base_filename := OsPath.splitext_root input_file in
    print ("Transcribing " +:+ input_file +:+ "...") ;;
    result <- transcribe env input_file ;;
    let enc := default_encoding env in
    save_txt enc result (base_filename +:+ ".txt") ;;
    save_tsv enc result (base_filename +:+ ".tsv") ;;
    save_srt enc result (base_filename +:+ ".srt") ;;
    save_vtt enc result (base_filename +:+ ".vtt") ;;
    print (nl +:+ "Transcription complete!") ;;
    emit EvReport.

End Transcribe.

Module TranscribeMp4.

Record arguments : Type := Args {
  input : pypath;
  model : string
}.

Definition main (env : environment) (args : arguments) : prog () :=
  let input_path := input args in
  found <- path_exists (path_str input_path) ;;
  if negb found
  then print (not_found_message (path_str input_path)) ;; sys_exit 1
  else
    let output_dir := output_dir_of input_path in
    mkdir_exist_ok output_dir ;;
    let base_name := stem input_path in
    print ("Loading model " +:+ model args +:+ "...") ;;
    load_model env (model args) "cuda" ;;
    print ("Transcribing " +:+ path_str input_path +:+ "...") ;;
    result <- transcribe env (path_str input_path) ;;
    let enc := default_encoding env in
    Transcribe.save_txt enc result (joinpath output_dir (base_name +:+ ".txt")) ;;
    Transcribe.save_tsv enc result (joinpath output_dir (base_name +:+ ".tsv")) ;;
    Transcribe.save_srt enc result (joinpath output_dir (base_name +:+ ".srt")) ;;
    Transcribe.save_vtt enc result (joinpath output_dir (base_name +:+ ".vtt")) ;;
    print (nl +:+ "Transcription complete! Files saved in " +:+ output_dir) ;;
    emit EvReport.

End TranscribeMp4.

(* ================================================================== *)
(** * Vocabulary of the statements *)
(* ================================================================== *)

(** ** Timestamps as the specification words them *)

(** [HH:MM:SS,mmm] computed with integer arithmetic. *)
Definition srt_timestamp (m : Z) : string :=
  PyInt.format_0d 2 (m / 3600000) +:+ ":"
  +:+ PyInt.format_0d 2 (m / 60000 mod 60) +:+ ":"
  +:+ PyInt.format_0d 2 (m / 1000 mod 60) +:+ ","
  +:+ PyInt.format_0d 3 (m mod 1000).

(** Reading a printed timestamp back. *)
Module ReadBack.

(** The pieces of [s] before and after the first [c]. *)
Fixpoint split_at (c : ascii) (s : string) : option (string * string) :=
  match s with
  | EmptyString => None
  | String d s' =>
      if Ascii.eqb c d then Some (EmptyString, s')
      else
        match split_at c s' with
        | Some (a, b) => Some (String d a, b)
        | None => None
        end
  end.

Definition is_digit (c : ascii) : bool :=
  match NilEmpty.uint_of_string (String c EmptyString) with
  | Some _ => true
  | None => false
  end.

(** A run of decimal digits as a number. *)
Definition number (s : string) : option Z :=
  match NilEmpty.uint_of_string s with
  | Some d => Some (Z.of_N (N.of_uint d))
  | None => None
  end.

(** The milliseconds an [HH:MM:SS,mmm] timestamp stands for. *)
Definition srt_time (s : string) : option Z :=
  match split_at ":" s with
  | Some (hh, rest) =>
      match split_at ":" rest with
      | Some (mm, rest') =>
          match split_at "," rest' with
          | Some (ss, mmm) =>
              match number hh, number mm, number ss, number mmm with
              | Some h, Some m, Some s, Some ms =>
                  Some (3600000 * h + 60000 * m + 1000 * s + ms)
              | _, _, _, _ => None
              end
          | None => None
          end
      | None => None
      end
  | None => None
  end.

End ReadBack.

(** The duration a set of printed fields stands for. *)
Definition recombine (c : clock) : Z :=
  3600000 * hours c + 60000 * minutes c + 1000 * secs c + millis c.

(** The largest number of milliseconds up to which [m / 1000] is rounded
    to a float with the right integer part: [2^44] seconds. *)
Definition srt_exact_below : Z := 2 ^ 44 * 1000.

(** ** The thermal guard *)

Module Guard.

(** A reading of the polling loop: temperature and utilisation. *)
Definition reading : Type := Z * Z.

(** NVML without errors, answering the [i]-th poll with [readings i],
    on a machine whose clock reads [clock i] then. *)
Definition healthy (clock : nat -> Z) (readings : nat -> reading) : nvml :=
  Nvml true true
    (fun i => Some (fst (readings i)))
    (fun i => Some (snd (readings i)))
    true
    clock.

(** [time.sleep] takes the length [pause_time] when the clock reads
    [monotonic]: it is not negative, its nanoseconds fit 64 bits, and so
    does the instant the sleep ends. *)
Definition accepted (monotonic pause_time : Z) : Prop :=
  0 <= pause_time <= sleep_max
  /\ monotonic + pause_time * 10 ^ 9 <= int64_max.

(** [time.sleep] refuses the length [pause_time] with the exception [e]
    when the clock reads [monotonic]. *)
Definition refused (monotonic pause_time : Z) (e : exn) : Prop :=
  (e = OverflowError /\ sleep_max < Z.abs pause_time)
  \/ (e = ValueError /\ - sleep_max <= pause_time < 0)
  \/ (e = OSError /\ 0 <= pause_time <= sleep_max
      /\ int64_max < monotonic + pause_time * 10 ^ 9).

(** An int that the f-string of the warning renders: CPython from 3.11
    on refuses to turn an int of more than 4300 digits into text
    ([ValueError]), and [int] refuses to read one, so that every
    [--pause_time] that argparse lets through renders.  [PyInt.str] has
    no such limit; what is said of a [pause_time] beyond the range of
    [time.sleep] is said of one that renders. *)
Definition renders (n : Z) : Prop := Z.abs n < 10 ^ 4300.

Definition hot (temp_threshold load_threshold : Z) (r : reading) : Prop :=
  fst r > temp_threshold /\ snd r > load_threshold.

Definition cool (temp_threshold load_threshold : Z) (r : reading) : Prop :=
  fst r <= temp_threshold \/ snd r <= load_threshold.

(** The [i]-th poll answers, and with a hot reading. *)
Definition hot_at (nv : nvml) (temp_threshold load_threshold : Z) (i : nat) : Prop :=
  exists t u, nv_temperature nv i = Some t /\ nv_utilization nv i = Some u
              /\ hot temp_threshold load_threshold (t, u).

Definition read_ok : list event :=
  [EvNvml NvmlDeviceGetTemperature true; EvNvml NvmlDeviceGetUtilizationRates true].

(** What one pass over a hot reading leaves in the trace. *)
Definition pause_events (nv : nvml) (pause_time : Z) (i : nat) : list event :=
  match nv_temperature nv i, nv_utilization nv i with
  | Some t, Some u =>
      read_ok ++ [EvLog WARNING (FwMp4Opt.gpu_alert t u pause_time); EvSleep pause_time]
  | _, _ => []
  end.

(** The passes [i], [i+1], ..., [i+n-1]. *)
Fixpoint pauses (nv : nvml) (pause_time : Z) (i n : nat) : list event :=
  match n with
  | O => []
  | S n' => pause_events nv pause_time i ++ pauses nv pause_time (S i) n'
  end.

Definition prologue (temp_threshold load_threshold pause_time : Z) : list event :=
  [EvCheckGpu temp_threshold load_threshold pause_time;
   EvNvml NvmlInit true; EvNvml NvmlDeviceGetHandleByIndex true].

(** Where the first NVML error of a call strikes. *)
Inductive failure : Type :=
| AtInit
| AtHandle
| AtTemperature (i : nat)
| AtUtilization (i : nat).

Definition polls_before (f : failure) : nat :=
  match f with
  | AtInit | AtHandle => O
  | AtTemperature i | AtUtilization i => i
  end.

(** The first NVML call that raises is the one named by [f]; the polls
    before it answered with hot readings (otherwise the loop would have
    been left before). *)
Definition fails_at (nv : nvml) (temp_threshold load_threshold : Z)
    (f : failure) : Prop :=
  match f with
  | AtInit => nv_init nv = false
  | AtHandle => nv_init nv = true /\ nv_handle nv = false
  | AtTemperature n =>
      nv_init nv = true /\ nv_handle nv = true
      /\ (forall i, (i < n)%nat -> hot_at nv temp_threshold load_threshold i)
      /\ nv_temperature nv n = None
  | AtUtilization n =>
      nv_init nv = true /\ nv_handle nv = true
      /\ (forall i, (i < n)%nat -> hot_at nv temp_threshold load_threshold i)
      /\ (exists t, nv_temperature nv n = Some t)
      /\ nv_utilization nv n = None
  end.

(** The trace of a call up to and including the call that raises. *)
Definition trace_to_failure (nv : nvml) (temp_threshold load_threshold pause_time : Z)
    (f : failure) : list event :=
  let entry := EvCheckGpu temp_threshold load_threshold pause_time in
  match f with
  | AtInit => [entry; EvNvml NvmlInit false]
  | AtHandle =>
      [entry; EvNvml NvmlInit true; EvNvml NvmlDeviceGetHandleByIndex false]
  | AtTemperature n =>
      prologue temp_threshold load_threshold pause_time
      ++ pauses nv pause_time 0 n
      ++ [EvNvml NvmlDeviceGetTemperature false]
  | AtUtilization n =>
      prologue temp_threshold load_threshold pause_time
      ++ pauses nv pause_time 0 n
      ++ [EvNvml NvmlDeviceGetTemperature true;
          EvNvml NvmlDeviceGetUtilizationRates false]
  end.

Definition is_sleep (e : event) : bool :=
  match e with EvSleep _ => true | _ => false end.

End Guard.

(** ** What the writers put into a file, segment by segment *)

Module Render.

Definition join (chunks : list string) : string :=
  fold_right String.append "" chunks.

Definition txt_chunk (s : segment) : string := strip (text s) +:+ " ".

Definition tsv_line (s : segment) : result string :=
  let* start_ms := to_ms (start s) in
  let* end_ms := to_ms (end_ s) in
  Ok (tsv_row start_ms end_ms (strip (text s))).

Definition srt_line (i : Z) (s : segment) : result string :=
  let* start_ms := to_ms (start s) in
  let* start_time := ms_to_srt_time start_ms in
  let* end_ms := to_ms (end_ s) in
  let* end_time := ms_to_srt_time end_ms in
  Ok (srt_cue i start_time end_time (strip (text s))).

Definition vtt_line (s : segment) : result string :=
  let* start_ms := to_ms (start s) in
  let* start_time := ms_to_vtt_time start_ms in
  let* end_ms := to_ms (end_ s) in
  let* end_time := ms_to_vtt_time end_ms in
  Ok (vtt_cue start_time end_time (strip (text s))).

Fixpoint collect {A : Type} (f : A -> result string) (l : list A)
    : result (list string) :=
  match l with
  | [] => Ok []
  | x :: l' =>
      let* r := f x in
      let* rs := collect f l' in
      Ok (r :: rs)
  end.

Fixpoint collect_enumerate {A : Type} (i0 : Z) (f : Z -> A -> result string)
    (l : list A) : result (list string) :=
  match l with
  | [] => Ok []
  | x :: l' =>
      let* r := f i0 x in
      let* rs := collect_enumerate (i0 + 1) f l' in
      Ok (r :: rs)
  end.

(** A TSV row without its line feed. *)
Definition tsv_fields (start_ms end_ms : Z) (text : string) : string :=
  PyInt.str start_ms +:+ tab +:+ PyInt.str end_ms +:+ tab +:+ text.

Definition tsv_record (s : segment) : result string :=
  let* start_ms := to_ms (start s) in
  let* end_ms := to_ms (end_ s) in
  Ok (tsv_fields start_ms end_ms (strip (text s))).

Definition tsv_header_line : string := "start" +:+ tab +:+ "end" +:+ tab +:+ "text".

Definition single_line (s : segment) : Prop :=
  contains LF (strip (text s)) = false.

End Render.

(** ** The loop of the incremental script, seen as checks and writes *)

Module Steps.

Inductive step : Type :=
| GuardCall
| WriteTo (path : string).

Definition step_of (e : event) : list step :=
  match e with
  | EvCheckGpu _ _ _ => [GuardCall]
  | EvWrite path _ => [WriteTo path]
  | _ => []
  end.

Definition steps (tr : list event) : list step := flat_map step_of tr.

Definition is_check (e : event) : bool :=
  match e with EvCheckGpu _ _ _ => true | _ => false end.

(** Checks and writes of one pass of the loop. *)
Definition pass (cuda : bool) (txt_f tsv_f srt_f vtt_f : string) : list step :=
  (if cuda then [GuardCall] else [])
  ++ [WriteTo txt_f; WriteTo tsv_f; WriteTo srt_f; WriteTo vtt_f].

End Steps.

Module Tsv.

(** A line together with its line feed. *)
Definition terminate (line : string) : string := line +:+ nl.

(** The text of a TSV file with the given records. *)
Definition file_text (records : list string) : string :=
  Render.join (map terminate (Render.tsv_header_line :: records)).

End Tsv.

(** ** Properties of a piece of script *)

Module Effects.

(** Every event the piece adds to the trace satisfies [Q]. *)
Definition only {A : Type} (Q : event -> Prop) (m : prog A) : Prop :=
  forall w w' r, m w = Some (w', r) ->
    exists tr, trace w' = trace w ++ tr /\ Forall Q tr.

(** The piece leaves the file system alone. *)
Definition keeps_fs {A : Type} (m : prog A) : Prop :=
  forall w w' r, m w = Some (w', r) -> fs w' = fs w.

(** The piece always comes to an end. *)
Definition terminates {A : Type} (m : prog A) : Prop :=
  forall w, exists w' r, m w = Some (w', r).

(** Events that are neither a check nor a write. *)
Definition silent (e : event) : Prop := Steps.step_of e = [].

Definition not_check (e : event) : Prop := Steps.is_check e = false.

End Effects.

(** The four output files, written with the codec [enc], on top of a
    file system [base]. *)
Definition four_files (enc : encoding) (txt_f tsv_f srt_f vtt_f : string)
    (base : gmap string node) (txt tsv srt vtt : string) : gmap string node :=
  <[vtt_f := TextFile enc vtt]>
    (<[srt_f := TextFile enc srt]>
       (<[tsv_f := TextFile enc tsv]>
          (<[txt_f := TextFile enc txt]> base))).

(** The bytes [path] holds after the piece of script [m] has returned
    normally from the world [w]. *)
Definition bytes_after (m : prog ()) (w : world) (path : string)
    : option (list Byte.byte) :=
  match m w with
  | Some (w', Ok _) => disk_bytes w' path
  | _ => None
  end.

(** The text [path] holds after the piece of script [m] has returned
    normally from the world [w]. *)
Definition text_after (m : prog ()) (w : world) (path : string) : option string :=
  match m w with
  | Some (w', Ok _) =>
      match fs w' !! path with
      | Some (TextFile _ content) => Some content
      | _ => None
      end
  | _ => None
  end.

(** The world before a run: nothing on disk, nothing done. *)
Definition empty_world : world := World ∅ [].

(** ** Concrete runs used as examples *)

Module Sample.

(** Two hot readings, then a cool one. *)
Definition readings (i : nat) : Guard.reading :=
  if (i <? 2)%nat then (80, 99) else (50, 99).

(** A machine that has been up for an hour; a minute goes by from one
    poll to the next. *)
Definition clock (i : nat) : Z := (3600 + 60 * Z.of_nat i) * 10 ^ 9.

(** A stream in which every reading exceeds both thresholds. *)
Definition always_hot (i : nat) : Guard.reading := (80, 99).

(** NVML answers one hot poll, then the temperature query raises. *)
Definition failing : nvml :=
  Nvml true true
    (fun i => if (i <? 1)%nat then Some 80 else None)
    (fun _ => Some 99)
    true
    clock.

Definition e_acute : string := String (ascii_of_nat 233) "".

(** One second of speech. *)
Definition hello : list segment := [Segment (Fin 0) (Fin one) " hello "].

(** A text with an accented letter. *)
Definition cafe : list segment :=
  [Segment (Fin 0) (Fin one) ("caf" +:+ e_acute)].

(** A text that spans two lines. *)
Definition two_lines : list segment :=
  [Segment (Fin 0) (Fin one) ("a" +:+ nl +:+ "b")].

(** A platform whose default text encoding is Latin-1, and on which the
    model loads and hears [segs]. *)
Definition latin1_platform (segs : list segment) : environment :=
  Environment Latin1 (Ok tt) (Ok (Transcript segs ""))
    (fun _ => Guard.healthy clock readings).

(** A machine on which the Whisper model cannot be loaded. *)
Definition no_gpu : environment :=
  Environment UTF8 (Raise RuntimeError) (Raise RuntimeError)
    (fun _ => Guard.healthy clock readings).

Definition talk : pypath := PyPath "." "talk" ".mp4".

Definition fw_args : FwMp4.arguments := FwMp4.Args talk "large-v3" "cpu" "int8".

Definition opt_args (device : string) : FwMp4Opt.arguments :=
  FwMp4Opt.Args talk "large-v3" device "int8" 55 70 90.

Definition mp4_args : TranscribeMp4.arguments := TranscribeMp4.Args talk "large-v3".

(** The media file is there, nothing else. *)
Definition with_talk : world := World {[ "talk.mp4" := Other ]} [].

End Sample.

(* ================================================================== *)
(** * Further vocabulary *)
(* ================================================================== *)

(** ** Reading a WebVTT timestamp back *)

Module ReadVtt.

(** The milliseconds an [MM:SS.mmm] timestamp stands for. *)
Definition short_time (s : string) : option Z :=
  match ReadBack.split_at ":" s with
  | Some (mm, rest) =>
      match ReadBack.split_at "." rest with
      | Some (ss, mmm) =>
          match ReadBack.number mm, ReadBack.number ss, ReadBack.number mmm with
          | Some m, Some s, Some ms => Some (60000 * m + 1000 * s + ms)
          | _, _, _ => None
          end
      | None => None
      end
  | None => None
  end.

End ReadVtt.

(** ** The NVML session of the guard *)

Module Session.

Definition is_shutdown (e : event) : bool :=
  match e with EvNvml NvmlShutdown _ => true | _ => false end.

End Session.

(** ** The incremental loop *)

Module Incremental.

(** The world in which the loop of the [with] block starts: four empty
    files, two of them with their header. *)
Definition opened (dir base : string) (w : world) : world :=
  let txt_f := joinpath dir (base +:+ ".txt") in
  let tsv_f := joinpath dir (base +:+ ".tsv") in
  let srt_f := joinpath dir (base +:+ ".srt") in
  let vtt_f := joinpath dir (base +:+ ".vtt") in
  World (four_files UTF8 txt_f tsv_f srt_f vtt_f (fs w) "" tsv_header "" vtt_header)
        (trace w ++ [EvOpen txt_f UTF8; EvOpen tsv_f UTF8; EvOpen srt_f UTF8;
                     EvOpen vtt_f UTF8; EvWrite tsv_f tsv_header;
                     EvWrite vtt_f vtt_header]).

End Incremental.

(** ** Where a script writes *)

Module Frame.


(** The piece changes no path outside [P]. *)
Definition confined {A : Type} (P : string -> Prop) (m : prog A) : Prop :=
  forall w w' r, m w = Some (w', r) ->
    forall path, ~ P path -> fs w' !! path = fs w !! path.

(** The world after [mkdir(exist_ok=True)] has returned. *)
Definition made_dir (dir : string) (w : world) : world :=
  match fs w !! dir with
  | Some Dir => w
  | _ => World (<[dir := Dir]> (fs w)) (trace w ++ [EvMkdir dir])
  end.

End Frame.

(* ================================================================== *)
(** * [gpu_monitor.py]: a report of every GPU *)
(* ================================================================== *)

Module Float64More.

(** [a / b] on floats: [ZeroDivisionError] for a zero divisor, an
    infinity when the quotient overflows. *)
Definition float_truediv (a b : Z) : result pyfloat :=
  if b =? 0 then Raise ZeroDivisionError
  else Ok (classify (round (Z.sgn b * a * one) (Z.abs b))).

(** [f"{x:.1f}"]: the decimal with one digit after the point nearest
    to the exact value of [x], ties to even. *)
Definition format_1f (x : pyfloat) : string :=
  match x with
  | NaN => "nan"
  | Inf negative => if negative then "-inf" else "inf"
  | Fin n =>
      let r := rne (10 * Z.abs n) one in
      (if n <? 0 then "-" else "")
      +:+ PyInt.digits (r / 10) +:+ "." +:+ PyInt.digits (r mod 10)
  end.

End Float64More.

Module GpuMonitor.

Import Float64More.

(** What NVML answers to a query: a value, or an [NVMLError] with the
    text [str(e)] gives. *)
Inductive answer (A : Type) : Type :=
| Answer (a : A)
| Fails (message : string).

Arguments Answer {A} a.
Arguments Fails {A} message.

Record memory_info : Type := MemoryInfo {
  used : Z;
  total : Z
}.

Record utilization : Type := Utilization {
  util_gpu : Z;
  util_memory : Z
}.

Record device : Type := Device {
  dev_handle : answer ();
  (** the text [f"{name}"] prints *)
  dev_name : answer string;
  dev_temperature : answer Z;
  dev_memory : answer memory_info;
  dev_utilization : answer utilization
}.

Record driver : Type := Driver {
  drv_init : answer ();
  drv_count : answer Z;
  drv_device : Z -> device;
  drv_shutdown : answer ()
}.

Inductive call : Type :=
| Init
| DeviceGetCount
| DeviceGetHandleByIndex (i : Z)
| DeviceGetName (i : Z)
| DeviceGetTemperature (i : Z)
| DeviceGetMemoryInfo (i : Z)
| DeviceGetUtilizationRates (i : Z)
| Shutdown.

(** What the function does, in order: lines printed and NVML calls. *)
Inductive output : Type :=
| Printed (line : string)
| Called (c : call).

Inductive outcome (A : Type) : Type :=
| Value (a : A)
| NvmlError (message : string)
| Error (e : exn).

Arguments Value {A} a.
Arguments NvmlError {A} message.
Arguments Error {A} e.

(** A piece of the function: it extends the log and returns or
    raises. *)
Definition act (A : Type) : Type := list output -> list output * outcome A.

Definition pure {A : Type} (a : A) : act A := fun log => (log, Value a).

Definition then_ {A B : Type} (m : act A) (k : A -> act B) : act B :=
  fun log =>
    match m log with
    | (log', Value a) => k a log'
    | (log', NvmlError message) => (log', NvmlError message)
    | (log', Error e) => (log', Error e)
    end.

Definition say (line : string) : act () :=
  fun log => (log ++ [Printed line], Value tt).

Definition query {A : Type} (c : call) (a : answer A) : act A :=
  fun log =>
    (log ++ [Called c],
     match a with Answer x => Value x | Fails message => NvmlError message end).

Definition of_result {A : Type} (r : result A) : act A :=
  fun log => (log, match r with Ok a => Value a | Raise e => Error e end).

(** [try: m  except pynvml.NVMLError as e: handler(e)]. *)
Definition except_nvml {A : Type} (m : act A) (handler : string -> act A) : act A :=
  fun log =>
    match m log with
    | (log', NvmlError message) => handler message log'
    | other => other
    end.

(** [try: m  finally: try: f  except: pass]. *)
Definition finally_quietly {A B : Type} (m : act A) (f : act B) : act A :=
  fun log =>
    match m log with
    | (log', r) => (fst (f log'), r)
    end.

Fixpoint for_range {A : Type} (l : list A) (body : A -> act ()) : act () :=
  match l with
  | [] => pure tt
  | x :: l' => then_ (body x) (fun _ => for_range l' body)
  end.

(** [range(n)]. *)
Definition range (n : Z) : list Z := map Z.of_nat (seq 0 (Z.to_nat n)).

Definition dashes : string :=
  "------------------------------------------------------------".

(** The two characters the source has between the number and [C]. *)
Definition degree_sign : string :=
  String (ascii_of_nat 194) (String (ascii_of_nat 176) "").

Definition not_available (message : string) : string :=
  "N/A (" +:+ message +:+ ")".

(** The f-string of the memory line. *)
Definition memory_text (info : memory_info) : result string :=
  let* mem_used := int_truediv (used info) (1024 ^ 2) in
  let* mem_total := int_truediv (total info) (1024 ^ 2) in
  let* ratio := float_truediv mem_used mem_total in
  let* hundred := of_int 100 in
  Ok (format_1f (Fin mem_used) +:+ " MB / " +:+ format_1f (Fin mem_total)
      +:+ " MB (" +:+ format_1f (float_mul ratio (Fin hundred)) +:+ "%)").

(** One pass of [for i in range(device_count)]. *)
Definition report_device (d : device) (i : Z) : act () :=
  then_ (query (DeviceGetHandleByIndex i) (dev_handle d)) (fun _ =>
  then_ (except_nvml (query (DeviceGetName i) (dev_name d))
           (fun e => pure ("Unknown (" +:+ e +:+ ")"))) (fun name =>
  then_ (except_nvml
           (then_ (query (DeviceGetTemperature i) (dev_temperature d)) (fun temp =>
            pure (PyInt.str temp +:+ degree_sign +:+ "C")))
           (fun e => pure (not_available e))) (fun temp_str =>
  then_ (except_nvml
           (then_ (query (DeviceGetMemoryInfo i) (dev_memory d)) (fun mem_info =>
            of_result (memory_text mem_info)))
           (fun e => pure (not_available e))) (fun mem_str =>
  then_ (except_nvml
           (then_ (query (DeviceGetUtilizationRates i) (dev_utilization d)) (fun util =>
            pure (PyInt.str (util_gpu util) +:+ "%",
                  PyInt.str (util_memory util) +:+ "%")))
           (fun e => pure (not_available e, not_available e))) (fun loads =>
  then_ (say ("GPU " +:+ PyInt.str i +:+ ": " +:+ name)) (fun _ =>
  then_ (say ("  Temperature: " +:+ temp_str)) (fun _ =>
  then_ (say ("  Memory:      " +:+ mem_str)) (fun _ =>
  then_ (say ("  GPU Load:    " +:+ fst loads)) (fun _ =>
  then_ (say ("  Memory Load: " +:+ snd loads)) (fun _ =>
  say dashes)))))))))).

Definition print_gpu_stats (drv : driver) : act () :=
  finally_quietly
    (except_nvml
       (then_ (query Init (drv_init drv)) (fun _ =>
        then_ (query DeviceGetCount (drv_count drv)) (fun device_count =>
        then_ (say ("Found " +:+ PyInt.str device_count +:+ " GPU(s)")) (fun _ =>
        then_ (say dashes) (fun _ =>
        for_range (range device_count)
          (fun i => report_device (drv_device drv i) i))))))
       (fun error => say ("Error: " +:+ error)))
    (query Shutdown (drv_shutdown drv)).

(** ** Vocabulary of the statements *)

Definition printed (log : list output) : list string :=
  flat_map (fun o => match o with Printed line => [line] | Called _ => [] end) log.

Definition is_shutdown (o : output) : bool :=
  match o with Called Shutdown => true | _ => false end.

(** Everything the piece adds to the log satisfies [Q]. *)
Definition adds {A : Type} (Q : output -> Prop) (m : act A) : Prop :=
  forall log, exists tr, fst (m log) = log ++ tr /\ Forall Q tr.

(** The piece raises nothing but the two arithmetic errors. *)
Definition arithmetic_only {A : Type} (m : act A) : Prop :=
  forall log e, snd (m log) = Error e -> e = ZeroDivisionError \/ e = OverflowError.

Definition or_else (fallback : string -> string) (a : answer string) : string :=
  match a with Answer s => s | Fails message => fallback message end.

Definition answer_map {A B : Type} (f : A -> B) (a : answer A) : answer B :=
  match a with Answer x => Answer (f x) | Fails message => Fails message end.

(** The memory line for sizes below [2^53] bytes and a total that is
    not zero. *)
Definition memory_line (info : memory_info) : string :=
  match memory_text info with Ok s => s | Raise _ => "" end.

(** The six lines of the report of one card. *)
Definition device_lines (d : device) (i : Z) : list string :=
  ["GPU " +:+ PyInt.str i +:+ ": "
     +:+ or_else (fun e => "Unknown (" +:+ e +:+ ")") (dev_name d);
   "  Temperature: "
     +:+ or_else not_available
           (answer_map (fun t => PyInt.str t +:+ degree_sign +:+ "C")
              (dev_temperature d));
   "  Memory:      "
     +:+ or_else not_available (answer_map memory_line (dev_memory d));
   "  GPU Load:    "
     +:+ or_else not_available
           (answer_map (fun u => PyInt.str (util_gpu u) +:+ "%") (dev_utilization d));
   "  Memory Load: "
     +:+ or_else not_available
           (answer_map (fun u => PyInt.str (util_memory u) +:+ "%")
              (dev_utilization d));
   dashes].

(** The handle of the card is there, and its memory sizes, if it
    reports them, are below [2^53] bytes with a total that is not
    zero. *)
Definition reportable (d : device) : Prop :=
  dev_handle d = Answer tt
  /\ forall info, dev_memory d = Answer info ->
       0 <= used info < 2 ^ 53 /\ 0 < total info < 2 ^ 53.

(** A card on which every query answers. *)
Definition sample_device : device :=
  Device (Answer tt) (Answer "NVIDIA GeForce RTX 3090") (Answer 47)
    (Answer (MemoryInfo 1610612736 25769803776)) (Answer (Utilization 12 3)).

(** A card that answers for its handle and nothing else. *)
Definition silent_device : device :=
  Device (Answer tt) (Fails "Not Supported") (Fails "Not Supported")
    (Fails "Not Supported") (Fails "Not Supported").

End GpuMonitor.

(* ================================================================== *)
(** * Facts and theorems *)
(* ================================================================== *)

Import Float64.

Module FloatFacts.

Lemma one_pow : one = 2 ^ 1074.
Proof. reflexivity. Qed.

Lemma one_pos : 0 < one.
Proof. rewrite one_pow. apply Z.pow_pos_nonneg; lia. Qed.

Lemma huge_one : huge = 2 ^ 1024 * one.
Proof. unfold huge. rewrite one_pow, <- Z.pow_add_r by lia. reflexivity. Qed.

Opaque one huge.

(** [rne] is the quotient or its successor, and the successor only from
    the upper half. *)
Lemma rne_cases p q :
  0 < q ->
  (rne p q = p / q /\ 2 * (p mod q) <= q) \/
  (rne p q = p / q + 1 /\ q <= 2 * (p mod q)).
Proof.
  intros Hq. unfold rne.
  destruct (Z.ltb_spec (2 * (p mod q)) q); [left; lia|].
  destruct (Z.ltb_spec q (2 * (p mod q))); [right; lia|].
  destruct (Z.even (p / q)); [left|right]; lia.
Qed.

Lemma rne_exact n q : 0 < q -> rne (n * q) q = n.
Proof.
  intros Hq. unfold rne.
  rewrite Z.div_mul, Z.mod_mul by lia.
  destruct (Z.ltb_spec (2 * 0) q); lia.
Qed.

Lemma rne_scale a b c : 0 < b -> 0 < c -> rne (a * c) (b * c) = rne a b.
Proof.
  intros Hb Hc. unfold rne.
  rewrite Z.div_mul_cancel_r by lia.
  rewrite Z.mul_mod_distr_r by lia.
  replace (2 * (a mod b * c)) with (2 * (a mod b) * c) by ring.
  destruct (Z.ltb_spec (2 * (a mod b)) b), (Z.ltb_spec (2 * (a mod b) * c) (b * c));
    try nia.
  destruct (Z.ltb_spec b (2 * (a mod b))), (Z.ltb_spec (b * c) (2 * (a mod b) * c));
    try nia; reflexivity.
Qed.

(** Integers below [2^53] are floats: rounding leaves them alone. *)
Lemma round_pos_int j q :
  0 <= j < 2 ^ 53 -> 0 < q -> round_pos (j * one * q) q = j * one.
Proof.
  intros Hj Hq. unfold round_pos, ulp_exp.
  rewrite Z.div_mul by lia.
  destruct (Z.eq_dec j 0) as [->|Hnz].
  - rewrite !Z.mul_0_l. change (Z.log2 0) with 0.
    rewrite Z.max_l by lia. rewrite Z.pow_0_r, !Z.mul_1_r.
    apply (rne_exact 0 q Hq).
  - assert (Hl : Z.log2 (j * one) = 1074 + Z.log2 j).
    { rewrite one_pow. apply Z.log2_mul_pow2; lia. }
    assert (Hl53 : Z.log2 j < 53) by (apply Z.log2_lt_pow2; lia).
    assert (Hl0 : 0 <= Z.log2 j) by apply Z.log2_nonneg.
    rewrite Hl, Z.max_r by lia.
    set (e := 1074 + Z.log2 j - 52).
    assert (He : one = 2 ^ (52 - Z.log2 j) * 2 ^ e).
    { rewrite one_pow, <- Z.pow_add_r by (unfold e; lia). f_equal. unfold e. lia. }
    assert (H2e : 0 < 2 ^ e) by (apply Z.pow_pos_nonneg; unfold e; lia).
    replace (j * one * q) with (j * 2 ^ (52 - Z.log2 j) * (q * 2 ^ e))
      by (rewrite He; ring).
    rewrite rne_exact by lia. rewrite He. ring.
Qed.

Lemma round_int j : 0 <= j < 2 ^ 53 -> round (j * one) 1 = j * one.
Proof.
  intros Hj. unfold round.
  pose proof one_pos.
  destruct (Z.ltb_spec (j * one) 0); [nia|].
  rewrite <- (Z.mul_1_r (j * one)) at 1. apply round_pos_int; lia.
Qed.

Lemma int_lt_huge j : 0 <= j < 2 ^ 53 -> Z.abs (j * one) < huge.
Proof.
  intros Hj. rewrite huge_one. pose proof one_pos.
  rewrite Z.abs_eq by nia.
  apply Z.mul_lt_mono_pos_r; [lia|].
  assert (2 ^ 53 < 2 ^ 1024) by (apply Z.pow_lt_mono_r; lia). lia.
Qed.

Lemma of_int_small j : 0 <= j < 2 ^ 53 -> of_int j = Ok (j * one).
Proof.
  intros Hj. unfold of_int. rewrite round_int by exact Hj.
  pose proof (int_lt_huge j Hj).
  destruct (Z.leb_spec huge (Z.abs (j * one))); [lia|reflexivity].
Qed.

(** The quotient of the exact division by 1000 survives the rounding of
    [m / 1000] as long as the spacing of floats stays below a thousandth:
    up to [2^44] seconds. *)
Lemma rne_thousandths k r v :
  0 <= r < 1000 -> 512 <= v ->
  k * v <= rne ((1000 * k + r) * v) 1000 <= k * v + v - 1.
Proof.
  intros Hr Hv.
  pose proof (Z.div_mod ((1000 * k + r) * v) 1000 ltac:(lia)) as Hdm.
  pose proof (Z.mod_pos_bound ((1000 * k + r) * v) 1000 ltac:(lia)) as Hrem.
  assert (Hrv : 0 <= r * v <= 999 * v) by nia.
  replace ((1000 * k + r) * v) with (1000 * (k * v) + r * v) in * by ring.
  destruct (rne_cases (1000 * (k * v) + r * v) 1000 ltac:(lia)) as [[-> H]|[-> H]];
    lia.
Qed.

Lemma seconds_bounds m :
  0 <= m < 2 ^ 44 * 1000 ->
  m / 1000 * one <= round_pos (m * one) 1000 < (m / 1000 + 1) * one.
Proof.
  intros Hm. unfold round_pos.
  set (n := m * one / 1000).
  pose proof one_pos as H1.
  assert (Hn : 0 <= n < 2 ^ 1118).
  { split; [apply Z.div_pos; nia|].
    apply Z.div_lt_upper_bound; [lia|].
    replace (2 ^ 1118) with (2 ^ 44 * one)
      by (rewrite one_pow, <- Z.pow_add_r by lia; reflexivity).
    nia. }
  assert (He : 0 <= ulp_exp n <= 1065).
  { unfold ulp_exp. destruct (Z.eq_dec n 0) as [->|Hnz].
    - change (Z.log2 0) with 0. lia.
    - assert (Z.log2 n < 1118) by (apply Z.log2_lt_pow2; lia). lia. }
  set (e := ulp_exp n) in *.
  set (v := 2 ^ (1074 - e)).
  assert (Hone : one = v * 2 ^ e).
  { unfold v. rewrite one_pow, <- Z.pow_add_r by lia. f_equal. lia. }
  assert (Hv : 512 <= v).
  { change 512 with (2 ^ 9). unfold v. apply Z.pow_le_mono_r; lia. }
  assert (H2e : 0 < 2 ^ e) by (apply Z.pow_pos_nonneg; lia).
  replace (m * one) with (m * v * 2 ^ e) by (rewrite Hone; ring).
  rewrite rne_scale by lia.
  pose proof (Z.div_mod m 1000 ltac:(lia)) as Hdm.
  pose proof (Z.mod_pos_bound m 1000 ltac:(lia)) as Hr.
  pose proof (rne_thousandths (m / 1000) (m mod 1000) v Hr Hv) as Hb.
  rewrite <- Hdm in Hb.
  set (R := rne (m * v) 1000) in *. set (k := m / 1000) in *.
  set (P := 2 ^ e) in *. rewrite Hone.
  split.
  - replace (k * (v * P)) with (k * v * P) by ring.
    apply Z.mul_le_mono_nonneg_r; lia.
  - replace ((k + 1) * (v * P)) with ((k * v + v) * P) by ring.
    apply Z.mul_lt_mono_pos_r; lia.
Qed.

Lemma float_rem_nonneg s w :
  0 <= s -> 0 < w -> float_rem s w = Ok (s mod w).
Proof.
  intros Hs Hw. unfold float_rem, fmod.
  rewrite Z.rem_mod_nonneg by lia.
  pose proof (Z.mod_pos_bound s w Hw).
  destruct (Z.eqb_spec w 0); [lia|].
  destruct (Z.eqb_spec (s mod w) 0) as [->|]; [reflexivity|].
  destruct (Z.ltb_spec w 0), (Z.ltb_spec (s mod w) 0); try lia. reflexivity.
Qed.

Lemma round_nonneg p q : 0 <= p -> round p q = round_pos p q.
Proof. intros Hp. unfold round. destruct (Z.ltb_spec p 0); [lia|reflexivity]. Qed.

(** Floor division of a non-negative float by a small positive integer
    is exact when the quotient is a small integer. *)
Lemma float_floordiv_int s c :
  0 <= s -> 0 < c -> c * (s / (c * one)) < 2 ^ 53 ->
  float_floordiv s (c * one) = Ok (Fin (s / (c * one) * one)).
Proof.
  intros Hs Hc Hq. pose proof one_pos as H1.
  assert (Hw : 0 < c * one) by nia.
  set (w := c * one) in *. set (q := s / w) in *.
  assert (Hq0 : 0 <= q) by (apply Z.div_pos; lia).
  assert (Hq53 : 0 <= q < 2 ^ 53) by nia.
  assert (Hcq : 0 <= c * q < 2 ^ 53) by nia.
  unfold float_floordiv, fmod.
  rewrite Z.rem_mod_nonneg by lia.
  pose proof (Z.mod_pos_bound s w Hw) as Hmd.
  pose proof (Z.div_mod s w ltac:(lia)) as Hdm. fold q in Hdm.
  destruct (Z.eqb_spec w 0); [lia|].
  assert (Hsub : fsub s (s mod w) = c * q * one).
  { unfold fsub. replace (s - s mod w) with (c * q * one) by (unfold w in *; lia).
    apply round_int. exact Hcq. }
  rewrite Hsub.
  rewrite (Z.sgn_pos w), (Z.abs_eq w) by lia.
  replace (1 * (c * q * one) * one) with (q * one * w) by (unfold w; ring).
  rewrite round_nonneg by nia. rewrite round_pos_int by lia.
  pose proof (int_lt_huge q Hq53).
  destruct (Z.leb_spec huge (Z.abs (q * one))); [lia|].
  replace (negb (s mod w =? 0) && xorb (w <? 0) (s mod w <? 0)) with false.
  2:{ destruct (Z.ltb_spec w 0), (Z.ltb_spec (s mod w) 0); try lia.
      now rewrite andb_false_r. }
  destruct (Z.eqb_spec (q * one) 0) as [->|Hnz]; [reflexivity|].
  rewrite Z.div_mul by lia.
  unfold fsub. rewrite Z.sub_diag.
  assert (Hz : round 0 1 = 0).
  { pose proof (round_int 0 ltac:(lia)) as Hz. now rewrite Z.mul_0_l in Hz. }
  rewrite Hz.
  assert (0 <= one / 2) by (apply Z.div_pos; lia).
  destruct (Z.ltb_spec (one / 2) 0); [lia|reflexivity].
Qed.

Lemma split_ms_exact m :
  0 <= m < 2 ^ 44 * 1000 ->
  split_ms m =
  Ok (Clock (m / 3600000) (m / 60000 mod 60) (m / 1000 mod 60) (m mod 1000)).
Proof.
  intros Hm. pose proof one_pos as H1.
  pose proof (seconds_bounds m Hm) as Hs.
  set (s := round_pos (m * one) 1000) in *.
  set (k := m / 1000) in *.
  assert (Hk : 0 <= k < 2 ^ 44).
  { unfold k. split; [apply Z.div_pos; lia|apply Z.div_lt_upper_bound; lia]. }
  assert (Hsk : s / one = k).
  { symmetry. apply Z.div_unique with (s - k * one); lia. }
  assert (H44 : 2 ^ 44 < 2 ^ 53) by (apply Z.pow_lt_mono_r; lia).
  assert (Htd : int_truediv m 1000 = Ok s).
  { unfold int_truediv.
    change (1000 =? 0) with false. change (Z.sgn 1000) with 1.
    change (Z.abs 1000) with 1000. cbv iota.
    rewrite Z.mul_1_l, round_nonneg by nia. fold s.
    assert (s < huge).
    { rewrite huge_one.
      assert (2 ^ 53 < 2 ^ 1024) by (apply Z.pow_lt_mono_r; lia). nia. }
    destruct (Z.leb_spec huge (Z.abs s)); [lia|reflexivity]. }
  unfold split_ms. rewrite Htd. cbn [bind].
  rewrite !of_int_small by lia. cbn [bind].
(* hours *)
assert (Hh : s / (3600 * one) = k / 3600).
{ rewrite (Z.mul_comm 3600), <- Z.div_div, Hsk by lia. reflexivity. }
rewrite float_floordiv_int by (rewrite ?Hh; first [lia | pose proof (Z.mul_div_le k 3600); lia]).
cbn [bind int_of_float]. rewrite Hh.
rewrite Z.quot_mul by lia.
(* minutes *)
rewrite float_rem_nonneg by lia. cbn [bind].
assert (Hr : s mod (3600 * one) / one = k mod 3600).
{ rewrite (Z.mul_comm 3600), Z.rem_mul_r by lia.
  rewrite (Z.mul_comm one), Z.div_add, Hsk by lia.
  rewrite Z.div_small by (apply Z.mod_pos_bound; lia). lia. }
assert (Hrm : s mod (3600 * one) / (60 * one) = k mod 3600 / 60).
{ rewrite (Z.mul_comm 60), <- Z.div_div, Hr by lia. reflexivity. }
pose proof (Z.mod_pos_bound s (3600 * one) ltac:(lia)) as Hrb.
pose proof (Z.mod_pos_bound k 3600 ltac:(lia)) as Hkb.
rewrite float_floordiv_int; [|lia|lia|].
2:{ rewrite Hrm. pose proof (Z.mul_div_le (k mod 3600) 60). lia. }
cbn [bind int_of_float]. rewrite Hrm, Z.quot_mul by lia.
(* seconds *)
rewrite float_rem_nonneg by lia. cbn [bind int_of_float].
pose proof (Z.mod_pos_bound s (60 * one) ltac:(lia)) as Hsb.
rewrite Z.quot_div_nonneg by lia.
assert (Hsec : s mod (60 * one) / one = k mod 60).
{ rewrite (Z.mul_comm 60), Z.rem_mul_r by lia.
  rewrite (Z.mul_comm one), Z.div_add, Hsk by lia.
  rewrite Z.div_small by (apply Z.mod_pos_bound; lia). lia. }
rewrite Hsec.
assert (E1 : k / 3600 = m / 3600000).
{ unfold k. rewrite Z.div_div by lia. reflexivity. }
assert (E2 : k mod 3600 / 60 = m / 60000 mod 60).
{ change 60000 with (1000 * 60). rewrite <- (Z.div_div m 1000 60) by lia.
  fold k.
  pose proof (Z.div_mod k 3600 ltac:(lia)).
  pose proof (Z.div_mod (k / 60) 60 ltac:(lia)).
  pose proof (Z.mod_pos_bound (k / 60) 60 ltac:(lia)).
  pose proof (Z.div_mod k 60 ltac:(lia)).
  pose proof (Z.mod_pos_bound k 60 ltac:(lia)).
  pose proof (Z.div_mod (k mod 3600) 60 ltac:(lia)).
  pose proof (Z.mod_pos_bound (k mod 3600) 60 ltac:(lia)).
  lia. }
rewrite E1, E2. reflexivity.
Qed.

End FloatFacts.

(** Unfolding of the script monad at a world. *)
Ltac run :=
  repeat (unfold pbind, emit, ret, raise, lift, diverge, print, log, sys_exit,
            try_except_pass, try_finally, nvml_call_, nvml_read; cbn).

Module TextFacts.
Import Codec.

Lemma append_cons c s t : String c s +:+ t = String c (s +:+ t).
Proof. reflexivity. Qed.

Lemma append_nil_l s : "" +:+ s = s.
Proof. reflexivity. Qed.

Lemma append_nil_r s : s +:+ "" = s.
Proof. induction s as [|c s IH]; [reflexivity|]. now rewrite append_cons, IH. Qed.

Lemma append_assoc a b c : (a +:+ b) +:+ c = a +:+ (b +:+ c).
Proof. induction a as [|x a IH]; [reflexivity|]. now rewrite !append_cons, IH. Qed.

Lemma join_cons x l : Render.join (x :: l) = x +:+ Render.join l.
Proof. reflexivity. Qed.

Lemma join_app l1 l2 : Render.join (l1 ++ l2) = Render.join l1 +:+ Render.join l2.
Proof.
  induction l1 as [|x l1 IH]; [reflexivity|].
  cbn [app]. now rewrite !join_cons, IH, append_assoc.
Qed.

Lemma encode_app enc a b :
  encode enc (a +:+ b) =
  match encode enc a, encode enc b with
  | Some x, Some y => Some (x ++ y)
  | _, _ => None
  end.
Proof.
  induction a as [|c a IH].
  - rewrite append_nil_l. cbn. now destruct (encode enc b).
  - rewrite append_cons. cbn [encode]. rewrite IH.
    destruct (encode_char enc c), (encode enc a), (encode enc b); try reflexivity.
    now rewrite app_assoc.
Qed.

Lemma encodable_app enc a b :
  encodable enc (a +:+ b) = encodable enc a && encodable enc b.
Proof.
  unfold encodable. rewrite encode_app.
  now destruct (encode enc a), (encode enc b).
Qed.

(** UTF-8 has bytes for every code point. *)
Lemma encodable_utf8 s : encodable UTF8 s = true.
Proof.
  unfold encodable. induction s as [|c s IH]; [reflexivity|].
  cbn [encode]. destruct (encode UTF8 s); [|discriminate].
  unfold encode_char. now destruct (_ <? 128).
Qed.

Lemma contains_app c a b : contains c (a +:+ b) = contains c a || contains c b.
Proof.
  induction a as [|x a IH]; [reflexivity|].
  rewrite append_cons. cbn [contains]. now rewrite IH, orb_assoc.
Qed.

Lemma lines_from_line s : forall cur rest,
  contains LF s = false ->
  lines_from cur (s +:+ nl +:+ rest) = (cur +:+ s) :: lines_from "" rest.
Proof.
  induction s as [|c s IH]; intros cur rest Hs.
  - rewrite append_nil_l, append_nil_r. reflexivity.
  - cbn [contains] in Hs. apply orb_false_elim in Hs as [Hc Hs].
    rewrite append_cons. cbn [lines_from].
    rewrite Ascii.eqb_sym, Hc. rewrite IH by exact Hs.
    now rewrite append_assoc.
Qed.

Lemma uint_no_lf d : contains LF (NilEmpty.string_of_uint d) = false.
Proof. induction d; cbn; auto. Qed.

Lemma digits_no_lf n : contains LF (PyInt.digits n) = false.
Proof.
  unfold PyInt.digits, NilZero.string_of_uint.
  destruct (N.to_uint (Z.to_N n)); try apply uint_no_lf. reflexivity.
Qed.

Lemma str_no_lf n : contains LF (PyInt.str n) = false.
Proof.
  unfold PyInt.str. destruct (n <? 0); [|apply digits_no_lf].
  rewrite contains_app, digits_no_lf. reflexivity.
Qed.

Lemma tsv_row_fields a b t : tsv_row a b t = Render.tsv_fields a b t +:+ nl.
Proof. unfold tsv_row, Render.tsv_fields. now rewrite !append_assoc. Qed.

Lemma tsv_fields_no_lf a b t :
  contains LF t = false -> contains LF (Render.tsv_fields a b t) = false.
Proof.
  intros Ht. unfold Render.tsv_fields.
  now rewrite !contains_app, !str_no_lf, Ht.
Qed.

End TextFacts.

Module FileFacts.
Import Codec TextFacts Render.

Lemma write_ok f enc content chunk w :
  fs w !! f = Some (TextFile enc content) ->
  encodable enc chunk = true ->
  write f chunk w
  = Some (World (<[f := TextFile enc (content +:+ chunk)]> (fs w))
                (trace w ++ [EvWrite f chunk]), Ok tt).
Proof. intros Hf He. unfold write. now rewrite Hf, He. Qed.

(** A loop whose every pass appends one rendered line to [f]. *)
Lemma for_each_appends {A : Type} (body : A -> prog ()) (line : A -> result string)
    (f : string) (enc : encoding) :
  (forall x r w, line x = Ok r -> body x w = write f r w) ->
  forall l rows w content,
    collect line l = Ok rows ->
    Forall (fun r => encodable enc r = true) rows ->
    fs w !! f = Some (TextFile enc content) ->
    for_each l body w
    = Some (World (<[f := TextFile enc (content +:+ join rows)]> (fs w))
                  (trace w ++ map (EvWrite f) rows), Ok tt).
Proof.
  intros Hbody. induction l as [|x l IH]; intros rows w content Hrows Henc Hf.
  - injection Hrows as <-. cbn. rewrite append_nil_r, app_nil_r.
    rewrite insert_id by exact Hf. now destruct w.
  - cbn [collect] in Hrows.
    destruct (line x) as [r|] eqn:Hx; [|discriminate]. cbn [bind] in Hrows.
    destruct (collect line l) as [rs|] eqn:Hl; [|discriminate].
    injection Hrows as <-. inversion Henc as [|? ? Hr Hrs]; subst.
    cbn [for_each]. unfold pbind at 1.
    rewrite (Hbody _ _ _ Hx), (write_ok _ _ _ _ _ Hf Hr).
    erewrite IH; [|reflexivity|exact Hrs|cbn; apply lookup_insert_eq].
    cbn [fs trace]. rewrite insert_insert_eq, <- app_assoc, append_assoc.
    reflexivity.
Qed.

Lemma for_each_enumerate_appends {A : Type} (body : Z -> A -> prog ())
    (line : Z -> A -> result string) (f : string) (enc : encoding) :
  (forall i x r w, line i x = Ok r -> body i x w = write f r w) ->
  forall l i rows w content,
    collect_enumerate i line l = Ok rows ->
    Forall (fun r => encodable enc r = true) rows ->
    fs w !! f = Some (TextFile enc content) ->
    for_each_enumerate i l body w
    = Some (World (<[f := TextFile enc (content +:+ join rows)]> (fs w))
                  (trace w ++ map (EvWrite f) rows), Ok tt).
Proof.
  intros Hbody. induction l as [|x l IH]; intros i rows w content Hrows Henc Hf.
  - injection Hrows as <-. cbn. rewrite append_nil_r, app_nil_r.
    rewrite insert_id by exact Hf. now destruct w.
  - cbn [collect_enumerate] in Hrows.
    destruct (line i x) as [r|] eqn:Hx; [|discriminate]. cbn [bind] in Hrows.
    destruct (collect_enumerate (i + 1) line l) as [rs|] eqn:Hl; [|discriminate].
    injection Hrows as <-. inversion Henc as [|? ? Hr Hrs]; subst.
    cbn [for_each_enumerate]. unfold pbind at 1.
    rewrite (Hbody _ _ _ _ Hx), (write_ok _ _ _ _ _ Hf Hr).
    erewrite IH; [|exact Hl|exact Hrs|cbn; apply lookup_insert_eq].
    cbn [fs trace]. rewrite insert_insert_eq, <- app_assoc, append_assoc.
    reflexivity.
Qed.

End FileFacts.

Module TsvFacts.
Import Codec TextFacts FileFacts Render Tsv.

Lemma header_terminated : tsv_header = terminate tsv_header_line.
Proof. reflexivity. Qed.

Lemma header_encodable enc : encodable enc tsv_header = true.
Proof. destruct enc; reflexivity. Qed.

Lemma record_line s r : tsv_record s = Ok r -> tsv_line s = Ok (terminate r).
Proof.
  unfold tsv_record, tsv_line.
  destruct (to_ms (start s)) as [a|]; [|discriminate].
  destruct (to_ms (end_ s)) as [b|]; [|discriminate]. cbn [bind].
  intros [= <-]. now rewrite tsv_row_fields.
Qed.

Lemma record_no_lf s r :
  tsv_record s = Ok r -> single_line s -> contains LF r = false.
Proof.
  unfold tsv_record.
  destruct (to_ms (start s)) as [a|]; [|discriminate].
  destruct (to_ms (end_ s)) as [b|]; [|discriminate]. cbn [bind].
  intros [= <-] Hs. now apply tsv_fields_no_lf.
Qed.

Lemma collect_lines_of_records segs : forall records,
  collect tsv_record segs = Ok records ->
  collect tsv_line segs = Ok (map terminate records).
Proof.
  induction segs as [|s segs IH]; intros records H.
  - injection H as <-. reflexivity.
  - cbn [collect] in H |- *.
    destruct (tsv_record s) as [r|] eqn:Hr; [|discriminate]. cbn [bind] in H.
    destruct (collect tsv_record segs) as [rs|]; [|discriminate].
    cbn [bind] in H. injection H as <-.
    now rewrite (record_line _ _ Hr), (IH rs eq_refl).
Qed.

Lemma collect_length {A} (f : A -> result string) l : forall rows,
  collect f l = Ok rows -> length rows = length l.
Proof.
  induction l as [|x l IH]; intros rows H.
  - now injection H as <-.
  - cbn [collect] in H. destruct (f x); [|discriminate].
    destruct (collect f l) as [rs|]; [|discriminate].
    cbn [bind] in H. injection H as <-. cbn. now rewrite (IH rs).
Qed.

Lemma records_single_line segs : forall records,
  collect tsv_record segs = Ok records ->
  Forall single_line segs ->
  Forall (fun r => contains LF r = false) records.
Proof.
  induction segs as [|s segs IH]; intros records H Hs.
  - injection H as <-. constructor.
  - cbn [collect] in H.
    destruct (tsv_record s) as [r|] eqn:Hr; [|discriminate]. cbn [bind] in H.
    destruct (collect tsv_record segs) as [rs|]; [|discriminate].
    cbn [bind] in H. injection H as <-. inversion Hs; subst. constructor.
    + eapply record_no_lf; eassumption.
    + now apply IH.
Qed.

Lemma lines_of_terminated records :
  Forall (fun r => contains LF r = false) records ->
  lines (join (map terminate records)) = records.
Proof.
  unfold lines. induction 1 as [|r rs Hr _ IH]; [reflexivity|].
  cbn [map]. rewrite join_cons. unfold terminate at 1.
  rewrite append_assoc, lines_from_line by exact Hr.
  now rewrite IH.
Qed.

Lemma terminated_encodable enc records :
  Forall (fun r => encodable enc r = true) records ->
  Forall (fun r => encodable enc r = true) (map terminate records).
Proof.
  induction 1 as [|r rs Hr _ IH]; constructor; [|exact IH].
  unfold terminate. rewrite encodable_app, Hr. now destruct enc.
Qed.

Lemma save_tsv_run enc segs filename w rows :
  collect tsv_line segs = Ok rows ->
  Forall (fun r => encodable enc r = true) rows ->
  FwMp4.save_tsv enc segs filename w
  = Some (World (<[filename := TextFile enc (tsv_header +:+ join rows)]> (fs w))
            (trace w ++ EvOpen filename enc :: EvWrite filename tsv_header
             :: map (EvWrite filename) rows ++ [EvPrint ("Saved " +:+ filename)]),
          Ok tt).
Proof.
  intros Hrows Henc. unfold FwMp4.save_tsv.
  unfold pbind at 1. unfold open_w. unfold pbind at 1.
  erewrite write_ok;
    [|cbn; apply lookup_insert_eq|apply header_encodable].
  unfold pbind at 1.
  erewrite (for_each_appends _ tsv_line filename enc);
    [|clear; intros s r w Hs; unfold tsv_line in Hs;
      unfold pbind, lift;
      destruct (to_ms (start s)); [|discriminate];
      destruct (to_ms (end_ s)); [|discriminate];
      now injection Hs as <-
     |exact Hrows|exact Henc|cbn; apply lookup_insert_eq].
  cbn [fs trace]. unfold print, emit. cbn [fs trace].
  rewrite !insert_insert_eq, <- !app_assoc. cbn [app]. rewrite append_nil_l.
  reflexivity.
Qed.

End TsvFacts.

Module ReadBackFacts.
Import ReadBack TextFacts.

(** A character that is not a digit does not occur among digits. *)
Lemma uint_digits_only c d :
  is_digit c = false -> contains c (NilEmpty.string_of_uint d) = false.
Proof.
  intros Hc. induction d; cbn [NilEmpty.string_of_uint contains]; try reflexivity;
    rewrite IHd, orb_false_r;
    destruct (Ascii.eqb_spec c "0"), (Ascii.eqb_spec c "1"), (Ascii.eqb_spec c "2"),
      (Ascii.eqb_spec c "3"), (Ascii.eqb_spec c "4"), (Ascii.eqb_spec c "5"),
      (Ascii.eqb_spec c "6"), (Ascii.eqb_spec c "7"), (Ascii.eqb_spec c "8"),
      (Ascii.eqb_spec c "9"); subst; try discriminate; try reflexivity.
Qed.

Lemma digits_digits_only c n :
  is_digit c = false -> contains c (PyInt.digits n) = false.
Proof.
  intros Hc. unfold PyInt.digits, NilZero.string_of_uint.
  destruct (N.to_uint (Z.to_N n)) eqn:E; try (rewrite <- E; clear E);
    try now apply uint_digits_only.
  cbn [contains]. destruct (Ascii.eqb_spec c "0"); [subst; discriminate|reflexivity].
Qed.

Lemma zeros_digits_only c k :
  is_digit c = false -> contains c (PyInt.zeros k) = false.
Proof.
  intros Hc. induction k as [|k IH]; [reflexivity|].
  cbn [PyInt.zeros contains]. rewrite IH.
  destruct (Ascii.eqb_spec c "0"); [subst; discriminate|reflexivity].
Qed.

Lemma format_0d_nonneg w n :
  0 <= n ->
  PyInt.format_0d w n
  = PyInt.zeros (w - 0 - String.length (PyInt.digits n)) +:+ PyInt.digits n.
Proof.
  intros Hn. unfold PyInt.format_0d.
  destruct (Z.ltb_spec n 0); [lia|]. now rewrite Z.abs_eq by lia.
Qed.

Lemma format_0d_digits_only c w n :
  0 <= n -> is_digit c = false -> contains c (PyInt.format_0d w n) = false.
Proof.
  intros Hn Hc. rewrite format_0d_nonneg by exact Hn.
  now rewrite contains_app, zeros_digits_only, digits_digits_only.
Qed.

Lemma number_zeros k s : number (PyInt.zeros k +:+ s) = number s.
Proof.
  induction k as [|k IH]; [reflexivity|].
  cbn [PyInt.zeros]. rewrite append_cons. unfold number in *.
  cbn [NilEmpty.uint_of_string].
  destruct (NilEmpty.uint_of_string (PyInt.zeros k +:+ s)) as [d|],
           (NilEmpty.uint_of_string s) as [d'|]; try discriminate; cbn.
  - injection IH as IH. now rewrite <- IH.
  - reflexivity.
Qed.

Lemma number_digits n : 0 <= n -> number (PyInt.digits n) = Some n.
Proof.
  intros Hn. unfold number, PyInt.digits, NilZero.string_of_uint.
  pose proof (DecimalN.Unsigned.of_to (Z.to_N n)) as E.
  destruct (N.to_uint (Z.to_N n)) eqn:Ed;
    try (rewrite NilEmpty.usu, E; f_equal; lia).
  cbn in E |- *. f_equal. lia.
Qed.

Lemma number_format_0d w n : 0 <= n -> number (PyInt.format_0d w n) = Some n.
Proof.
  intros Hn. now rewrite format_0d_nonneg, number_zeros, number_digits.
Qed.

Lemma split_at_first c a b :
  contains c a = false -> split_at c (a +:+ String c b) = Some (a, b).
Proof.
  intros Ha. induction a as [|d a IH].
  - rewrite append_nil_l. cbn [split_at]. now rewrite Ascii.eqb_refl.
  - cbn [contains] in Ha. apply orb_false_elim in Ha as [Hd Ha].
    rewrite append_cons. cbn [split_at]. now rewrite Hd, IH.
Qed.

(** The timestamp of the specification reads back as its input. *)
Lemma srt_timestamp_reads_back m :
  0 <= m -> srt_time (srt_timestamp m) = Some m.
Proof.
  intros Hm. unfold srt_timestamp, srt_time.
  assert (H1 : 0 <= m / 3600000) by (apply Z.div_pos; lia).
  assert (H2 : 0 <= m / 60000 mod 60) by (apply Z.mod_pos_bound; lia).
  assert (H3 : 0 <= m / 1000 mod 60) by (apply Z.mod_pos_bound; lia).
  assert (H4 : 0 <= m mod 1000) by (apply Z.mod_pos_bound; lia).
  change (?a +:+ ":" +:+ ?b) with (a +:+ String ":" b).
  rewrite split_at_first by now apply format_0d_digits_only.
  change (?a +:+ ":" +:+ ?b) with (a +:+ String ":" b).
  rewrite split_at_first by now apply format_0d_digits_only.
  change (?a +:+ "," +:+ ?b) with (a +:+ String "," b).
  rewrite split_at_first by now apply format_0d_digits_only.
  rewrite !number_format_0d by assumption.
  f_equal.
  assert (E1 : m / 60000 = m / 1000 / 60).
  { change 60000 with (1000 * 60). now rewrite Z.div_div by lia. }
  assert (E2 : m / 3600000 = m / 1000 / 60 / 60).
  { change 3600000 with (1000 * 60 * 60). now rewrite !Z.div_div by lia. }
  rewrite E1, E2.
  pose proof (Z.div_mod m 1000 ltac:(lia)).
  pose proof (Z.div_mod (m / 1000) 60 ltac:(lia)).
  pose proof (Z.div_mod (m / 1000 / 60) 60 ltac:(lia)).
  lia.
Qed.

End ReadBackFacts.

Module GuardFacts.
Import Guard FwMp4Opt.

(** A length that [time.sleep] takes is slept. *)
Lemma sleep_accepted monotonic seconds w :
  accepted monotonic seconds ->
  sleep monotonic seconds w
  = Some (World (fs w) (trace w ++ [EvSleep seconds]), Ok tt).
Proof.
  unfold accepted, sleep. intros [Hs Hd].
  replace (seconds <? - sleep_max) with false by (symmetry; apply Z.ltb_ge; unfold sleep_max in *; lia).
  replace (sleep_max <? seconds) with false by (symmetry; apply Z.ltb_ge; lia).
  replace (seconds <? 0) with false by (symmetry; apply Z.ltb_ge; lia).
  replace (int64_max <? monotonic + seconds * 10 ^ 9) with false
    by (symmetry; apply Z.ltb_ge; exact Hd).
  reflexivity.
Qed.

(** What [time.sleep] does with a length it does not take. *)
Lemma sleep_refused monotonic seconds w :
  ~ accepted monotonic seconds ->
  exists e,
    sleep monotonic seconds w = Some (w, Raise e)
    /\ refused monotonic seconds e.
Proof.
  unfold accepted, refused, sleep. intros Hn.
  destruct (Z.ltb_spec seconds (- sleep_max)) as [H1|H1].
  { exists OverflowError. split; [reflexivity|]. left. split; [reflexivity|].
    unfold sleep_max in *. lia. }
  destruct (Z.ltb_spec sleep_max seconds) as [H2|H2].
  { exists OverflowError. split; [reflexivity|]. left. split; [reflexivity|].
    unfold sleep_max in *. lia. }
  cbn [orb].
  destruct (Z.ltb_spec seconds 0) as [H3|H3].
  { exists ValueError. split; [reflexivity|]. right. left. split; [reflexivity|lia]. }
  destruct (Z.ltb_spec int64_max (monotonic + seconds * 10 ^ 9)) as [H4|H4].
  { exists OSError. split; [reflexivity|]. right. right.
    split; [reflexivity|]. split; [lia|exact H4]. }
  exfalso. apply Hn. split; [lia|exact H4].
Qed.

(** The refusal is the only outcome then. *)
Lemma sleep_raises monotonic seconds e w :
  refused monotonic seconds e ->
  sleep monotonic seconds w = Some (w, Raise e).
Proof.
  unfold refused, sleep. intros [[-> H]|[[-> H]|[-> [H1 H2]]]].
  - replace ((seconds <? - sleep_max) || (sleep_max <? seconds)) with true;
      [reflexivity|].
    symmetry. apply orb_true_iff.
    destruct (Z.ltb_spec seconds (- sleep_max)); [now left|right].
    apply Z.ltb_lt. unfold sleep_max in *. lia.
  - replace (seconds <? - sleep_max) with false by (symmetry; apply Z.ltb_ge; lia).
    replace (sleep_max <? seconds) with false
      by (symmetry; apply Z.ltb_ge; unfold sleep_max in *; lia).
    replace (seconds <? 0) with true by (symmetry; apply Z.ltb_lt; lia).
    reflexivity.
  - replace (seconds <? - sleep_max) with false
      by (symmetry; apply Z.ltb_ge; unfold sleep_max in *; lia).
    replace (sleep_max <? seconds) with false by (symmetry; apply Z.ltb_ge; lia).
    replace (seconds <? 0) with false by (symmetry; apply Z.ltb_ge; lia).
    replace (int64_max <? monotonic + seconds * 10 ^ 9) with true
      by (symmetry; apply Z.ltb_lt; exact H2).
    reflexivity.
Qed.

Lemma refused_not_accepted monotonic seconds e :
  refused monotonic seconds e -> ~ accepted monotonic seconds.
Proof.
  unfold refused, accepted, sleep_max.
  intros [[_ H]|[[_ H]|[_ [H1 H2]]]] [Ha Hb]; lia.
Qed.

Lemma accepted_dec monotonic seconds :
  {accepted monotonic seconds} + {~ accepted monotonic seconds}.
Proof.
  unfold accepted.
  destruct (Z_le_dec 0 seconds), (Z_le_dec seconds sleep_max),
           (Z_le_dec (monotonic + seconds * 10 ^ 9) int64_max);
    first [left; lia | right; lia].
Qed.

Section Poll.
Context (nv : nvml) (T L p : Z).

Lemma poll_hot_prefix n : forall fuel i w,
  (forall j, (j < n)%nat -> hot_at nv T L (i + j)) ->
  (forall j, (j < n)%nat -> accepted (nv_monotonic nv (i + j)) p) ->
  poll (n + fuel) nv T L p i w
  = poll fuel nv T L p (i + n) (World (fs w) (trace w ++ pauses nv p i n)).
Proof using Type.
  induction n as [|n IH]; intros fuel i w Hhot Hacc.
  - cbn. rewrite Nat.add_0_r, app_nil_r. now destruct w.
  - destruct (Hhot 0%nat ltac:(lia)) as (t & u & Ht & Hu & Hgt1 & Hgt2).
    pose proof (Hacc 0%nat ltac:(lia)) as Ha.
    rewrite Nat.add_0_r in Ht, Hu, Ha. cbn in Hgt1, Hgt2.
    cbn [Nat.add poll pauses]. unfold pause_events. rewrite Ht, Hu.
    unfold nvml_read. unfold pbind at 1. unfold pbind at 1, emit at 1, ret at 1.
    cbv beta iota. unfold pbind at 1. unfold pbind at 1, emit at 1, ret at 1.
    cbv beta iota.
    destruct (Z.gtb_spec t T); [|lia]. destruct (Z.gtb_spec u L); [|lia].
    cbn [andb]. unfold pbind at 1, log, emit. cbv beta iota.
    unfold pbind at 1. rewrite (sleep_accepted _ _ _ Ha). cbv beta iota.
    rewrite IH.
    + cbn [fs trace]. rewrite <- !app_assoc. cbn [app].
      now rewrite Nat.add_succ_r.
    + intros j Hj. rewrite Nat.add_succ_l, <- Nat.add_succ_r. apply Hhot. lia.
    + intros j Hj. rewrite Nat.add_succ_l, <- Nat.add_succ_r. apply Hacc. lia.
Qed.

Lemma poll_all_hot fuel w :
  (forall j, (j < fuel)%nat -> hot_at nv T L j) ->
  (forall j, (j < fuel)%nat -> accepted (nv_monotonic nv j) p) ->
  poll fuel nv T L p 0 w = None.
Proof using Type.
  intros Hhot Hacc.
  rewrite <- (Nat.add_0_r fuel), poll_hot_prefix by assumption.
  reflexivity.
Qed.

(** At the first reading that is not hot the loop is left at once. *)
Lemma poll_cool fuel i t u w :
  nv_temperature nv i = Some t -> nv_utilization nv i = Some u ->
  cool T L (t, u) ->
  poll (S fuel) nv T L p i w = Some (World (fs w) (trace w ++ read_ok), Ok tt).
Proof using Type.
  intros Ht Hu [Hc|Hc]; cbn in Hc; cbn [poll]; run; rewrite Ht, Hu; run.
  - destruct (Z.gtb_spec t T); [lia|]. cbn. now rewrite <- app_assoc.
  - destruct (Z.gtb_spec u L); [lia|]. rewrite andb_false_r.
    cbn. now rewrite <- app_assoc.
Qed.

Lemma poll_temperature_fails fuel i w :
  nv_temperature nv i = None ->
  poll (S fuel) nv T L p i w
  = Some (World (fs w) (trace w ++ [EvNvml NvmlDeviceGetTemperature false]),
          Raise NVMLError).
Proof using Type. intros Ht. cbn [poll]. run. rewrite Ht. now run. Qed.

Lemma poll_utilization_fails fuel i t w :
  nv_temperature nv i = Some t -> nv_utilization nv i = None ->
  poll (S fuel) nv T L p i w
  = Some (World (fs w)
            (trace w ++ [EvNvml NvmlDeviceGetTemperature true;
                         EvNvml NvmlDeviceGetUtilizationRates false]),
          Raise NVMLError).
Proof using Type.
  intros Ht Hu. cbn [poll]. run. rewrite Ht, Hu. run. now rewrite <- app_assoc.
Qed.

(** The guard around the loop: how the outcome of the loop becomes the
    outcome of the call. *)
Lemma check_unfold fuel w :
  nv_init nv = true -> nv_handle nv = true ->
  check_gpu_and_pause fuel nv T L p w =
  match poll fuel nv T L p 0 (World (fs w) (trace w ++ prologue T L p)) with
  | None => None
  | Some (w', r) =>
      Some (World (fs w') (trace w' ++ [EvNvml NvmlShutdown (nv_shutdown nv)]),
            match r with Raise NVMLError => Ok tt | _ => r end)
  end.
Proof using Type.
  intros Hi Hh. unfold check_gpu_and_pause. run. rewrite Hi, Hh. run.
  rewrite <- !app_assoc. cbn.
  destruct (poll fuel nv T L p 0 _) as [[w' [[]|e]]|]; [| |reflexivity].
  - destruct (nv_shutdown nv); reflexivity.
  - destruct e; cbn; destruct (nv_shutdown nv); reflexivity.
Qed.
End Poll.

Section Healthy.
Context (readings : nat -> reading) (T L p : Z).

Lemma hot_at_healthy (clock : nat -> Z) i :
  hot_at (healthy clock readings) T L i <-> hot T L (readings i).
Proof.
  unfold hot_at, healthy, hot; cbn. split.
  - intros (t & u & [= <-] & [= <-] & H). exact H.
  - intros H. eauto.
Qed.

Lemma hot_or_cool r : {hot T L r} + {cool T L r}.
Proof.
  unfold hot, cool. destruct (Z_gt_dec (fst r) T), (Z_gt_dec (snd r) L);
    first [left; lia | right; lia].
Qed.

Lemma not_hot_and_cool r : hot T L r -> cool T L r -> False.
Proof. unfold hot, cool. lia. Qed.

(** Among the first [n] readings either all are hot or there is a first
    cool one. *)
Lemma first_cool n :
  (forall i, (i < n)%nat -> hot T L (readings i)) \/
  (exists k, (k < n)%nat /\ cool T L (readings k)
             /\ forall i, (i < k)%nat -> hot T L (readings i)).
Proof.
  induction n as [|n [IH|IH]].
  - left. lia.
  - destruct (hot_or_cool (readings n)) as [Hh|Hc].
    + left. intros i Hi. destruct (Nat.eq_dec i n) as [->|]; [exact Hh|apply IH; lia].
    + right. exists n. split; [lia|]. split; [exact Hc|exact IH].
  - right. destruct IH as (k & Hk & Hc & Hh). exists k. split; [lia|]. tauto.
Qed.

Lemma sleeps_of_pauses (clock : nat -> Z) i n :
  filter is_sleep (pauses (healthy clock readings) p i n)
  = repeat (EvSleep p) n.
Proof.
  revert i. induction n as [|n IH]; intros i; [reflexivity|].
  cbn [pauses repeat]. rewrite filter_app, IH. reflexivity.
Qed.
End Healthy.

(** C1 (as amended).  With NVML answering without errors and a
    [pause_time] that [time.sleep] takes at each of the pauses (it is not
    negative, at most 9223372036 seconds, and the clock plus the pause
    fits 64 bits of nanoseconds), the thermal guard sleeps [pause_time]
    seconds after every reading that exceeds both thresholds and polls
    again; at the first reading with temperature or utilisation at or
    below its threshold it returns without sleeping, whatever
    [pause_time] is.  So it sleeps exactly once per reading before the
    first cool one, and a reading in which one quantity alone exceeds its
    threshold ends the loop. *)
Theorem check_gpu_and_pause_pauses_while_hot
    (temp_threshold load_threshold pause_time : Z)
    (clock : nat -> Z) (readings : nat -> reading) (n fuel : nat) (w : world) :
  (forall i, (i < n)%nat -> accepted (clock i) pause_time) ->
  (forall i, (i < n)%nat -> hot temp_threshold load_threshold (readings i)) ->
  cool temp_threshold load_threshold (readings n) ->
  (n < fuel)%nat ->
  let steps :=
    prologue temp_threshold load_threshold pause_time
    ++ pauses (healthy clock readings) pause_time 0 n
    ++ read_ok ++ [EvNvml NvmlShutdown true] in
  check_gpu_and_pause fuel (healthy clock readings) temp_threshold load_threshold
    pause_time w
  = Some (World (fs w) (trace w ++ steps), Ok tt)
  /\ filter is_sleep steps = repeat (EvSleep pause_time) n.
Proof.
  intros Hp Hhot Hcool Hfuel steps. split.
  - rewrite check_unfold by reflexivity.
    replace fuel with (n + S (fuel - S n))%nat by lia.
    rewrite poll_hot_prefix;
      [|intros j Hj; apply hot_at_healthy, Hhot; exact Hj
       |intros j Hj; exact (Hp j Hj)].
    erewrite poll_cool; [|reflexivity|reflexivity|].
    + cbn [fs trace]. unfold steps. now rewrite <- !app_assoc.
    + cbn [Nat.add]. now destruct (readings n).
  - unfold steps. rewrite !filter_app, sleeps_of_pauses. cbn.
    now rewrite app_nil_r.
Qed.

(** C2 (as amended).  Over a stream of readings without NVML errors, and
    with a [pause_time] that [time.sleep] takes whenever the loop comes
    to sleep (that is, after a reading which, like all before it, exceeds
    both thresholds), the thermal guard terminates exactly when some
    reading has its temperature or its utilisation at or below the
    threshold; when every reading exceeds both thresholds the loop never
    returns, whatever the fuel; and when it terminates it returns
    normally. *)
Theorem check_gpu_and_pause_terminates_iff_cool
    (temp_threshold load_threshold pause_time : Z)
    (clock : nat -> Z) (readings : nat -> reading) (w : world) :
  (forall i,
     (forall j, (j <= i)%nat -> hot temp_threshold load_threshold (readings j)) ->
     accepted (clock i) pause_time) ->
  ((exists fuel out,
      check_gpu_and_pause fuel (healthy clock readings) temp_threshold
        load_threshold pause_time w = Some out)
   <-> exists n, cool temp_threshold load_threshold (readings n))
  /\ ((forall n, hot temp_threshold load_threshold (readings n)) ->
      forall fuel,
        check_gpu_and_pause fuel (healthy clock readings) temp_threshold
          load_threshold pause_time w = None)
  /\ (forall fuel w' r,
        check_gpu_and_pause fuel (healthy clock readings) temp_threshold
          load_threshold pause_time w = Some (w', r) -> r = Ok tt).
Proof.
  intros Hp.
  assert (Hacc : forall k,
    (forall i, (i < k)%nat -> hot temp_threshold load_threshold (readings i)) ->
    forall j, (j < k)%nat -> accepted (clock j) pause_time).
  { intros k Hhot j Hj. apply Hp. intros i Hi. apply Hhot. lia. }
  assert (Hloop : forall fuel,
    (forall i, (i < fuel)%nat -> hot temp_threshold load_threshold (readings i)) ->
    check_gpu_and_pause fuel (healthy clock readings) temp_threshold load_threshold
      pause_time w = None).
  { intros fuel Hhot. rewrite check_unfold by reflexivity.
    rewrite poll_all_hot; [reflexivity| |].
    - intros j Hj. apply hot_at_healthy, Hhot, Hj.
    - exact (Hacc fuel Hhot). }
  assert (Hstop : forall k fuel,
    (k < fuel)%nat -> cool temp_threshold load_threshold (readings k) ->
    (forall i, (i < k)%nat -> hot temp_threshold load_threshold (readings i)) ->
    exists w', check_gpu_and_pause fuel (healthy clock readings) temp_threshold
                 load_threshold pause_time w = Some (w', Ok tt)).
  { intros k fuel Hk Hc Hhot. eexists.
    rewrite check_unfold by reflexivity.
    replace fuel with (k + S (fuel - S k))%nat by lia.
    rewrite poll_hot_prefix;
      [|intros j Hj; apply hot_at_healthy, Hhot; exact Hj
       |exact (Hacc k Hhot)].
    erewrite poll_cool; [reflexivity|reflexivity|reflexivity|].
    cbn [Nat.add]. now destruct (readings k). }
  split; [split|split].
  - intros (fuel & out & Hrun).
    destruct (first_cool readings temp_threshold load_threshold fuel)
      as [Hhot|(k & _ & Hc & _)].
    + rewrite Hloop in Hrun by exact Hhot. discriminate.
    + exists k. exact Hc.
  - intros (n & Hc).
    destruct (first_cool readings temp_threshold load_threshold (S n))
      as [Hhot|(k & Hk & Hck & Hhot)].
    + exfalso. eapply not_hot_and_cool; [apply (Hhot n); lia|exact Hc].
    + destruct (Hstop k (S k) ltac:(lia) Hck Hhot) as [w' Hrun].
      exists (S k), (w', Ok tt). exact Hrun.
  - intros Hhot fuel. apply Hloop. intros i _. apply Hhot.
  - intros fuel w' r Hrun.
    destruct (first_cool readings temp_threshold load_threshold fuel)
      as [Hhot|(k & Hk & Hc & Hhot)].
    + rewrite Hloop in Hrun by exact Hhot. discriminate.
    + destruct (Hstop k fuel Hk Hc Hhot) as [w1 Hrun1].
      rewrite Hrun1 in Hrun. now injection Hrun as _ <-.
Qed.

(** C8.  When an NVML call of the thermal guard raises [NVMLError] (at
    initialisation, when the handle is fetched, or in a poll), the guard
    returns normally: the exception does not leave it, and after the call
    that failed nothing happens but [nvmlShutdown], whose own failure is
    swallowed too; in particular there is no further sleep.  (A call in a
    later poll is reached only through the sleeps of the polls before it:
    [time.sleep] has taken [pause_time] at each of them.) *)
Theorem check_gpu_and_pause_swallows_nvml_errors
    (temp_threshold load_threshold pause_time : Z)
    (nv : nvml) (f : failure) (fuel : nat) (w : world) :
  (forall i, (i < polls_before f)%nat -> accepted (nv_monotonic nv i) pause_time) ->
  fails_at nv temp_threshold load_threshold f ->
  (polls_before f < fuel)%nat ->
  check_gpu_and_pause fuel nv temp_threshold load_threshold pause_time w
  = Some (World (fs w)
            (trace w
             ++ trace_to_failure nv temp_threshold load_threshold pause_time f
             ++ [EvNvml NvmlShutdown (nv_shutdown nv)]),
          Ok tt).
Proof.
  intros Hp Hf Hfuel.
  assert (Hprefix : forall n, polls_before f = n ->
    (forall i, (i < n)%nat -> hot_at nv temp_threshold load_threshold i) ->
    poll fuel nv temp_threshold load_threshold pause_time 0
      (World (fs w) (trace w ++ prologue temp_threshold load_threshold pause_time))
    = poll (S (fuel - S n)) nv temp_threshold load_threshold pause_time n
        (World (fs w)
           (trace w ++ prologue temp_threshold load_threshold pause_time
            ++ pauses nv pause_time 0 n))).
  { intros n Hn Hhot. rewrite Hn in *.
    replace fuel with (n + S (fuel - S n))%nat at 1 by lia.
    rewrite poll_hot_prefix by assumption.
    cbn [fs trace Nat.add]. now rewrite <- app_assoc. }
  destruct f as [| |n|n]; cbn in Hf, Hfuel.
  - unfold check_gpu_and_pause. run. rewrite Hf. run.
    rewrite <- !app_assoc. destruct (nv_shutdown nv); reflexivity.
  - destruct Hf as [Hi Hh]. unfold check_gpu_and_pause. run. rewrite Hi, Hh. run.
    rewrite <- !app_assoc. destruct (nv_shutdown nv); reflexivity.
  - destruct Hf as (Hi & Hh & Hhot & Ht).
    rewrite check_unfold by assumption.
    rewrite (Hprefix n eq_refl Hhot).
    rewrite poll_temperature_fails by exact Ht.
    cbn [fs trace trace_to_failure]. now rewrite <- !app_assoc.
  - destruct Hf as (Hi & Hh & Hhot & [t Ht] & Hu).
    rewrite check_unfold by assumption.
    rewrite (Hprefix n eq_refl Hhot).
    erewrite poll_utilization_fails by eassumption.
    cbn [fs trace trace_to_failure]. now rewrite <- !app_assoc.
Qed.

End GuardFacts.

Module EffectFacts.
Import Effects.

Section Only.
Context (Q : event -> Prop).

Lemma only_ret {A} (a : A) : only Q (ret a).
Proof. intros w w' r [= <- <-]. exists []. now rewrite app_nil_r. Qed.

Lemma only_raise {A} e : only Q (@raise A e).
Proof. intros w w' r [= <- <-]. exists []. now rewrite app_nil_r. Qed.

Lemma only_lift {A} (x : result A) : only Q (lift x).
Proof. intros w w' r [= <- <-]. exists []. now rewrite app_nil_r. Qed.

Lemma only_emit e : Q e -> only Q (emit e).
Proof. intros He w w' r [= <- <-]. exists [e]. split; [reflexivity|]. now constructor. Qed.

Lemma only_bind {A B} (m : prog A) (k : A -> prog B) :
  only Q m -> (forall a, only Q (k a)) -> only Q (pbind m k).
Proof.
  intros Hm Hk w w' r H. unfold pbind in H.
  destruct (m w) as [[w1 [a|e]]|] eqn:Hmw; [| |discriminate].
  - destruct (Hm _ _ _ Hmw) as (t1 & E1 & F1).
    destruct (Hk _ _ _ _ H) as (t2 & E2 & F2).
    exists (t1 ++ t2). rewrite E2, E1, app_assoc. split; [reflexivity|].
    now apply Forall_app.
  - injection H as <- <-. exact (Hm _ _ _ Hmw).
Qed.

Lemma only_try_except h m : only Q m -> only Q (try_except_pass h m).
Proof.
  intros Hm w w' r H. unfold try_except_pass in H.
  destruct (m w) as [[w1 [a|e]]|] eqn:Hmw; [| |discriminate].
  - injection H as <- <-. exact (Hm _ _ _ Hmw).
  - destruct (h e); injection H as <- <-; exact (Hm _ _ _ Hmw).
Qed.

Lemma only_try_finally {A} (m : prog A) f :
  only Q m -> only Q f -> only Q (try_finally m f).
Proof.
  intros Hm Hf w w' r H. unfold try_finally in H.
  destruct (m w) as [[w1 r1]|] eqn:Hmw; [|discriminate].
  destruct (f w1) as [[w2 [a|e]]|] eqn:Hfw; [| |discriminate];
    injection H as <- <-;
    destruct (Hm _ _ _ Hmw) as (t1 & E1 & F1);
    destruct (Hf _ _ _ Hfw) as (t2 & E2 & F2);
    exists (t1 ++ t2); rewrite E2, E1, app_assoc;
    (split; [reflexivity|now apply Forall_app]).
Qed.

Lemma only_open f enc : Q (EvOpen f enc) -> only Q (open_w f enc).
Proof.
  intros He w w' r [= <- <-]. exists [EvOpen f enc].
  split; [reflexivity|now constructor].
Qed.

Lemma only_write f chunk : Q (EvWrite f chunk) -> only Q (write f chunk).
Proof.
  intros He w w' r H. unfold write in H.
  destruct (fs w !! f) as [[|enc c|]|];
    try (injection H as <- <-; exists []; now rewrite app_nil_r).
  destruct (Codec.encodable enc chunk); injection H as <- <-.
  - exists [EvWrite f chunk]. split; [reflexivity|now constructor].
  - exists []. now rewrite app_nil_r.
Qed.

Lemma only_for_each_enumerate {A} (body : Z -> A -> prog ()) l :
  (forall i x, only Q (body i x)) ->
  forall i, only Q (for_each_enumerate i l body).
Proof.
  intros Hb. induction l as [|x l IH]; intros i; cbn [for_each_enumerate].
  - apply only_ret.
  - apply only_bind; [apply Hb|intros _; apply IH].
Qed.
End Only.

Lemma keeps_ret {A} (a : A) : keeps_fs (ret a).
Proof. now intros w w' r [= <- <-]. Qed.

Lemma keeps_raise {A} e : keeps_fs (@raise A e).
Proof. now intros w w' r [= <- <-]. Qed.

Lemma keeps_emit e : keeps_fs (emit e).
Proof. now intros w w' r [= <- <-]. Qed.

Lemma keeps_bind {A B} (m : prog A) (k : A -> prog B) :
  keeps_fs m -> (forall a, keeps_fs (k a)) -> keeps_fs (pbind m k).
Proof.
  intros Hm Hk w w' r H. unfold pbind in H.
  destruct (m w) as [[w1 [a|e]]|] eqn:Hmw; [| |discriminate].
  - rewrite (Hk _ _ _ _ H). exact (Hm _ _ _ Hmw).
  - injection H as <- <-. exact (Hm _ _ _ Hmw).
Qed.

Lemma keeps_try_except h m : keeps_fs m -> keeps_fs (try_except_pass h m).
Proof.
  intros Hm w w' r H. unfold try_except_pass in H.
  destruct (m w) as [[w1 [a|e]]|] eqn:Hmw; [| |discriminate].
  - injection H as <- <-. exact (Hm _ _ _ Hmw).
  - destruct (h e); injection H as <- <-; exact (Hm _ _ _ Hmw).
Qed.

Lemma keeps_try_finally {A} (m : prog A) f :
  keeps_fs m -> keeps_fs f -> keeps_fs (try_finally m f).
Proof.
  intros Hm Hf w w' r H. unfold try_finally in H.
  destruct (m w) as [[w1 r1]|] eqn:Hmw; [|discriminate].
  destruct (f w1) as [[w2 [a|e]]|] eqn:Hfw; [| |discriminate];
    injection H as <- <-; rewrite (Hf _ _ _ Hfw); exact (Hm _ _ _ Hmw).
Qed.

Lemma terminates_ret {A} (a : A) : terminates (ret a).
Proof. intros w. now eexists _, _. Qed.

Lemma terminates_lift {A} (x : result A) : terminates (lift x).
Proof. intros w. now eexists _, _. Qed.

Lemma terminates_raise {A} e : terminates (@raise A e).
Proof. intros w. now eexists _, _. Qed.

Lemma terminates_emit e : terminates (emit e).
Proof. intros w. now eexists _, _. Qed.

Lemma terminates_open f enc : terminates (open_w f enc).
Proof. intros w. now eexists _, _. Qed.

Lemma terminates_write f chunk : terminates (write f chunk).
Proof.
  intros w. unfold write.
  destruct (fs w !! f) as [[|enc c|]|]; try now eexists _, _.
  destruct (Codec.encodable enc chunk); now eexists _, _.
Qed.

Lemma terminates_bind {A B} (m : prog A) (k : A -> prog B) :
  terminates m -> (forall a, terminates (k a)) -> terminates (pbind m k).
Proof.
  intros Hm Hk w. unfold pbind.
  destruct (Hm w) as (w1 & [a|e] & ->); [apply Hk|now eexists _, _].
Qed.

Lemma terminates_for_each_enumerate {A} (body : Z -> A -> prog ()) l :
  (forall i x, terminates (body i x)) ->
  forall i, terminates (for_each_enumerate i l body).
Proof.
  intros Hb. induction l as [|x l IH]; intros i; cbn [for_each_enumerate].
  - apply terminates_ret.
  - apply terminates_bind; [apply Hb|intros _; apply IH].
Qed.

(** Inversion of a normal return through a bind. *)
Lemma bind_ok {A B} (m : prog A) (k : A -> prog B) w w' b :
  pbind m k w = Some (w', Ok b) ->
  exists w1 a, m w = Some (w1, Ok a) /\ k a w1 = Some (w', Ok b).
Proof.
  unfold pbind. destruct (m w) as [[w1 [a|e]]|]; [eauto|discriminate..].
Qed.

Lemma lift_ok {A} (x : result A) w w' a :
  lift x w = Some (w', Ok a) -> x = Ok a /\ w' = w.
Proof. now intros [= <- <-]. Qed.

End EffectFacts.

Module GuardEffects.
Import Effects EffectFacts FwMp4Opt.

Lemma nvml_read_only Q c v : Q (EvNvml c true) -> Q (EvNvml c false) -> only Q (nvml_read c v).
Proof.
  intros H1 H2. destruct v; unfold nvml_read;
    (apply only_bind; [now apply only_emit|intros _]);
    [apply only_ret|apply only_raise].
Qed.

Lemma nvml_read_keeps c v : keeps_fs (nvml_read c v).
Proof.
  destruct v; unfold nvml_read;
    (apply keeps_bind; [apply keeps_emit|intros _]);
    [apply keeps_ret|apply keeps_raise].
Qed.

Lemma sleep_only Q m s : Q (EvSleep s) -> only Q (sleep m s).
Proof.
  intros H. unfold sleep.
  destruct (_ || _); [apply only_raise|].
  destruct (s <? 0); [apply only_raise|].
  destruct (_ <? _); [apply only_raise|now apply only_emit].
Qed.

Lemma sleep_keeps m s : keeps_fs (sleep m s).
Proof.
  unfold sleep.
  destruct (_ || _); [apply keeps_raise|].
  destruct (s <? 0); [apply keeps_raise|].
  destruct (_ <? _); [apply keeps_raise|apply keeps_emit].
Qed.

Lemma poll_silent fuel nv T L p : forall i, only silent (poll fuel nv T L p i).
Proof.
  induction fuel as [|fuel IH]; intros i; cbn [poll].
  - intros w w' r H. discriminate.
  - apply only_bind; [now apply nvml_read_only|intros t].
    apply only_bind; [now apply nvml_read_only|intros u].
    destruct (_ && _); [|apply only_ret].
    apply only_bind; [now apply only_emit|intros _].
    apply only_bind; [now apply sleep_only|intros _]. apply IH.
Qed.

Lemma poll_keeps fuel nv T L p : forall i, keeps_fs (poll fuel nv T L p i).
Proof.
  induction fuel as [|fuel IH]; intros i; cbn [poll].
  - intros w w' r H. discriminate.
  - apply keeps_bind; [apply nvml_read_keeps|intros t].
    apply keeps_bind; [apply nvml_read_keeps|intros u].
    destruct (_ && _); [|apply keeps_ret].
    apply keeps_bind; [apply keeps_emit|intros _].
    apply keeps_bind; [apply sleep_keeps|intros _]. apply IH.
Qed.

Lemma nvml_call_only Q c ok : Q (EvNvml c ok) -> only Q (nvml_call_ c ok).
Proof.
  intros H. unfold nvml_call_. apply only_bind; [now apply only_emit|intros _].
  destruct ok; [apply only_ret|apply only_raise].
Qed.

Lemma nvml_call_keeps c ok : keeps_fs (nvml_call_ c ok).
Proof.
  unfold nvml_call_. apply keeps_bind; [apply keeps_emit|intros _].
  destruct ok; [apply keeps_ret|apply keeps_raise].
Qed.

Lemma check_keeps fuel nv T L p : keeps_fs (check_gpu_and_pause fuel nv T L p).
Proof.
  unfold check_gpu_and_pause. apply keeps_bind; [apply keeps_emit|intros _].
  apply keeps_try_finally; apply keeps_try_except.
  - apply keeps_bind; [apply nvml_call_keeps|intros _].
    apply keeps_bind; [apply nvml_call_keeps|intros _]. apply poll_keeps.
  - apply nvml_call_keeps.
Qed.

(** A call of the guard is one check and nothing else that counts. *)
Lemma check_steps fuel nv T L p w w' r :
  check_gpu_and_pause fuel nv T L p w = Some (w', r) ->
  exists tr, trace w' = trace w ++ EvCheckGpu T L p :: tr /\ Steps.steps tr = [].
Proof.
  unfold check_gpu_and_pause, pbind, emit. intros H.
  assert (Hs : only silent
    (try_finally
       (try_except_pass is_nvml_error
          (nvml_call_ NvmlInit (nv_init nv);;
           nvml_call_ NvmlDeviceGetHandleByIndex (nv_handle nv);;
           poll fuel nv T L p 0))
       (try_except_pass (fun _ => true) (nvml_call_ NvmlShutdown (nv_shutdown nv))))).
  { apply only_try_finally; apply only_try_except.
    - apply only_bind; [now apply nvml_call_only|intros _].
      apply only_bind; [now apply nvml_call_only|intros _]. apply poll_silent.
    - now apply nvml_call_only. }
  destruct (Hs _ _ _ H) as (tr & E & F). cbn [trace] in E.
  exists tr. rewrite E, <- app_assoc. split; [reflexivity|].
  clear -F. induction F as [|e tr He _ IH]; [reflexivity|].
  unfold Steps.steps in *. cbn [flat_map]. now rewrite He, IH.
Qed.

End GuardEffects.

Module BatchFacts.
Import Codec TextFacts FileFacts Render TsvFacts.

Lemma all_utf8 rows : Forall (fun r => encodable UTF8 r = true) rows.
Proof. induction rows; constructor; [apply encodable_utf8|assumption]. Qed.

Lemma collect_total {A} (f : A -> string) l :
  collect (fun x => Ok (f x)) l = Ok (map f l).
Proof. induction l as [|x l IH]; [reflexivity|]. cbn [collect map]. now rewrite IH. Qed.

Lemma save_txt_run enc segs filename w :
  Forall (fun r => encodable enc r = true) (map txt_chunk segs) ->
  FwMp4.save_txt enc segs filename w
  = Some (World (<[filename := TextFile enc (join (map txt_chunk segs))]> (fs w))
            (trace w ++ EvOpen filename enc
             :: map (EvWrite filename) (map txt_chunk segs)
             ++ [EvPrint ("Saved " +:+ filename)]),
          Ok tt).
Proof.
  intros Henc. unfold FwMp4.save_txt.
  unfold pbind at 1. unfold open_w. unfold pbind at 1.
  erewrite (for_each_appends _ (fun s => Ok (txt_chunk s)) filename enc);
    [|clear; now intros s r w [= <-]
     |apply collect_total|exact Henc|cbn; apply lookup_insert_eq].
  cbn [fs trace]. unfold print, emit. cbn [fs trace].
  rewrite !insert_insert_eq, <- !app_assoc. cbn [app]. rewrite append_nil_l.
  reflexivity.
Qed.

Lemma save_srt_run enc segs filename w rows :
  collect_enumerate 1 srt_line segs = Ok rows ->
  Forall (fun r => encodable enc r = true) rows ->
  FwMp4.save_srt enc segs filename w
  = Some (World (<[filename := TextFile enc (join rows)]> (fs w))
            (trace w ++ EvOpen filename enc
             :: map (EvWrite filename) rows ++ [EvPrint ("Saved " +:+ filename)]),
          Ok tt).
Proof.
  intros Hrows Henc. unfold FwMp4.save_srt.
  unfold pbind at 1. unfold open_w. unfold pbind at 1.
  erewrite (for_each_enumerate_appends _ srt_line filename enc);
    [|clear; intros i s r w Hs; unfold srt_line in Hs;
      unfold pbind, lift;
      destruct (to_ms (start s)); [|discriminate]; cbn [bind] in Hs;
      destruct (ms_to_srt_time _); [|discriminate]; cbn [bind] in Hs;
      destruct (to_ms (end_ s)); [|discriminate]; cbn [bind] in Hs;
      destruct (ms_to_srt_time _); [|discriminate];
      now injection Hs as <-
     |exact Hrows|exact Henc|cbn; apply lookup_insert_eq].
  cbn [fs trace]. unfold print, emit. cbn [fs trace].
  rewrite !insert_insert_eq, <- !app_assoc. cbn [app]. rewrite append_nil_l.
  reflexivity.
Qed.

Lemma vtt_header_encodable enc : encodable enc vtt_header = true.
Proof. destruct enc; reflexivity. Qed.

Lemma save_vtt_run enc segs filename w rows :
  collect vtt_line segs = Ok rows ->
  Forall (fun r => encodable enc r = true) rows ->
  FwMp4.save_vtt enc segs filename w
  = Some (World (<[filename := TextFile enc (vtt_header +:+ join rows)]> (fs w))
            (trace w ++ EvOpen filename enc :: EvWrite filename vtt_header
             :: map (EvWrite filename) rows ++ [EvPrint ("Saved " +:+ filename)]),
          Ok tt).
Proof.
  intros Hrows Henc. unfold FwMp4.save_vtt.
  unfold pbind at 1. unfold open_w. unfold pbind at 1.
  erewrite write_ok;
    [|cbn; apply lookup_insert_eq|apply vtt_header_encodable].
  unfold pbind at 1.
  erewrite (for_each_appends _ vtt_line filename enc);
    [|clear; intros s r w Hs; unfold vtt_line in Hs;
      unfold pbind, lift;
      destruct (to_ms (start s)); [|discriminate]; cbn [bind] in Hs;
      destruct (ms_to_vtt_time _); [|discriminate]; cbn [bind] in Hs;
      destruct (to_ms (end_ s)); [|discriminate]; cbn [bind] in Hs;
      destruct (ms_to_vtt_time _); [|discriminate];
      now injection Hs as <-
     |exact Hrows|exact Henc|cbn; apply lookup_insert_eq].
  cbn [fs trace]. unfold print, emit. cbn [fs trace].
  rewrite !insert_insert_eq, <- !app_assoc. cbn [app]. rewrite append_nil_l.
  reflexivity.
Qed.

Lemma join_encodable enc rows :
  encodable enc (join rows) = true ->
  Forall (fun r => encodable enc r = true) rows.
Proof.
  induction rows as [|r rows IH]; intros H; constructor;
    rewrite join_cons, encodable_app in H; apply andb_prop in H as [H1 H2];
    [exact H1|exact (IH H2)].
Qed.

(** The four batch writers in a row, on a platform whose encoding has
    bytes for the text of the four files. *)
Lemma save_all_run enc segs dir base w rows2 rows3 rows4 :
  collect tsv_line segs = Ok rows2 ->
  collect_enumerate 1 srt_line segs = Ok rows3 ->
  collect vtt_line segs = Ok rows4 ->
  encodable enc (join (map txt_chunk segs)) = true ->
  encodable enc (tsv_header +:+ join rows2) = true ->
  encodable enc (join rows3) = true ->
  encodable enc (vtt_header +:+ join rows4) = true ->
  exists w'',
    FwMp4.save_all enc segs dir base w = Some (w'', Ok tt)
    /\ fs w'' =
       four_files enc
         (joinpath dir (base +:+ ".txt")) (joinpath dir (base +:+ ".tsv"))
         (joinpath dir (base +:+ ".srt")) (joinpath dir (base +:+ ".vtt")) (fs w)
         (join (map txt_chunk segs)) (tsv_header +:+ join rows2)
         (join rows3) (vtt_header +:+ join rows4).
Proof.
  intros H2 H3 H4 E1 E2 E3 E4.
  rewrite encodable_app in E2, E4.
  apply andb_prop in E2 as [_ E2]. apply andb_prop in E4 as [_ E4].
  unfold FwMp4.save_all.
  unfold pbind at 1. rewrite save_txt_run by now apply join_encodable.
  unfold pbind at 1. erewrite save_tsv_run; [|exact H2|now apply join_encodable].
  unfold pbind at 1. erewrite save_srt_run; [|exact H3|now apply join_encodable].
  erewrite save_vtt_run; [|exact H4|now apply join_encodable].
  eexists. split; [reflexivity|]. reflexivity.
Qed.

End BatchFacts.

Module PathFacts.

Lemma joinpath_inj dir a b : joinpath dir a = joinpath dir b -> a = b.
Proof.
  unfold joinpath. destruct (String.eqb dir "."); [easy|].
  intros H. apply (inj (String.app dir)) in H.
  now apply (inj (String.app "/")) in H.
Qed.

Lemma outputs_distinct dir base :
  NoDup [joinpath dir (base +:+ ".txt"); joinpath dir (base +:+ ".tsv");
         joinpath dir (base +:+ ".srt"); joinpath dir (base +:+ ".vtt")].
Proof.
  assert (H : forall x y, x <> y ->
    joinpath dir (base +:+ x) <> joinpath dir (base +:+ y)).
  { intros x y Hxy E. apply joinpath_inj in E.
    now apply (inj (String.app base)) in E. }
  repeat constructor; rewrite ?not_elem_of_cons; repeat split;
    try apply not_elem_of_nil; apply H; discriminate.
Qed.

End PathFacts.

Module FourFiles.
Import Codec TextFacts FileFacts.

Section Distinct.
Context (txt_f tsv_f srt_f vtt_f : string).
Hypothesis distinct : NoDup [txt_f; tsv_f; srt_f; vtt_f].

Local Abbreviation files := (four_files UTF8 txt_f tsv_f srt_f vtt_f).

Lemma apart :
  txt_f <> tsv_f /\ txt_f <> srt_f /\ txt_f <> vtt_f
  /\ tsv_f <> srt_f /\ tsv_f <> vtt_f /\ srt_f <> vtt_f.
Proof using distinct.
  pose proof distinct as D.
  apply NoDup_cons in D as [H1 D1].
  apply NoDup_cons in D1 as [H2 D2].
  apply NoDup_cons in D2 as [H3 _].
  set_solver.
Qed.

Lemma lookup_txt base a b c d : files base a b c d !! txt_f = Some (TextFile UTF8 a).
Proof using distinct.
  destruct apart as (? & ? & ? & ? & ? & ?). unfold four_files.
  rewrite !lookup_insert_ne by congruence. apply lookup_insert_eq.
Qed.

Lemma lookup_tsv base a b c d : files base a b c d !! tsv_f = Some (TextFile UTF8 b).
Proof using distinct.
  destruct apart as (? & ? & ? & ? & ? & ?). unfold four_files.
  rewrite !lookup_insert_ne by congruence. apply lookup_insert_eq.
Qed.

Lemma lookup_srt base a b c d : files base a b c d !! srt_f = Some (TextFile UTF8 c).
Proof using distinct.
  destruct apart as (? & ? & ? & ? & ? & ?). unfold four_files.
  rewrite !lookup_insert_ne by congruence. apply lookup_insert_eq.
Qed.

Lemma lookup_vtt base a b c d : files base a b c d !! vtt_f = Some (TextFile UTF8 d).
Proof using Type. unfold four_files. apply lookup_insert_eq. Qed.

Lemma set_txt base a b c d x :
  <[txt_f := TextFile UTF8 x]> (files base a b c d) = files base x b c d.
Proof using distinct.
  destruct apart as (? & ? & ? & ? & ? & ?). unfold four_files.
  rewrite (insert_insert_ne _ txt_f vtt_f) by congruence.
  rewrite (insert_insert_ne _ txt_f srt_f) by congruence.
  rewrite (insert_insert_ne _ txt_f tsv_f) by congruence.
  now rewrite insert_insert_eq.
Qed.

Lemma set_tsv base a b c d x :
  <[tsv_f := TextFile UTF8 x]> (files base a b c d) = files base a x c d.
Proof using distinct.
  destruct apart as (? & ? & ? & ? & ? & ?). unfold four_files.
  rewrite (insert_insert_ne _ tsv_f vtt_f) by congruence.
  rewrite (insert_insert_ne _ tsv_f srt_f) by congruence.
  now rewrite insert_insert_eq.
Qed.

Lemma set_srt base a b c d x :
  <[srt_f := TextFile UTF8 x]> (files base a b c d) = files base a b x d.
Proof using distinct.
  destruct apart as (? & ? & ? & ? & ? & ?). unfold four_files.
  rewrite (insert_insert_ne _ srt_f vtt_f) by congruence.
  now rewrite insert_insert_eq.
Qed.

Lemma set_vtt base a b c d x :
  <[vtt_f := TextFile UTF8 x]> (files base a b c d) = files base a b c x.
Proof using Type. unfold four_files. now rewrite insert_insert_eq. Qed.

(** Writing to one of the four files, in a world that holds them. *)
Lemma write_txt w base a b c d x :
  fs w = files base a b c d ->
  write txt_f x w
  = Some (World (files base (a +:+ x) b c d) (trace w ++ [EvWrite txt_f x]), Ok tt).
Proof using distinct.
  intros E. erewrite write_ok;
    [|rewrite E; apply lookup_txt|apply encodable_utf8].
  now rewrite E, set_txt.
Qed.

Lemma write_tsv w base a b c d x :
  fs w = files base a b c d ->
  write tsv_f x w
  = Some (World (files base a (b +:+ x) c d) (trace w ++ [EvWrite tsv_f x]), Ok tt).
Proof using distinct.
  intros E. erewrite write_ok;
    [|rewrite E; apply lookup_tsv|apply encodable_utf8].
  now rewrite E, set_tsv.
Qed.

Lemma write_srt w base a b c d x :
  fs w = files base a b c d ->
  write srt_f x w
  = Some (World (files base a b (c +:+ x) d) (trace w ++ [EvWrite srt_f x]), Ok tt).
Proof using distinct.
  intros E. erewrite write_ok;
    [|rewrite E; apply lookup_srt|apply encodable_utf8].
  now rewrite E, set_srt.
Qed.

Lemma write_vtt w base a b c d x :
  fs w = files base a b c d ->
  write vtt_f x w
  = Some (World (files base a b c (d +:+ x)) (trace w ++ [EvWrite vtt_f x]), Ok tt).
Proof using distinct.
  intros E. erewrite write_ok;
    [|rewrite E; apply lookup_vtt|apply encodable_utf8].
  now rewrite E, set_vtt.
Qed.
End Distinct.

End FourFiles.

Module IncrementalFacts.
Import Effects EffectFacts GuardEffects FourFiles Render Steps FwMp4Opt TextFacts.

Lemma steps_app a b : steps (a ++ b) = steps a ++ steps b.
Proof. apply flat_map_app. Qed.

Section Loop.
Context (fuel : nat) (env : environment) (args : arguments).
Context (txt_f tsv_f srt_f vtt_f : string).
Hypothesis distinct : NoDup [txt_f; tsv_f; srt_f; vtt_f].

Local Abbreviation cuda := (String.eqb (device args) "cuda").
Local Abbreviation files := (four_files UTF8 txt_f tsv_f srt_f vtt_f).
Local Abbreviation body := (process_segment fuel env args txt_f tsv_f srt_f vtt_f).

Lemma guard_ok i w w1 (r : result ()) :
  (if cuda
   then check_gpu_and_pause fuel (gpu env (Z.to_nat (i - 1)))
          (temp_limit args) (load_limit args) (pause_time args)
   else ret tt) w = Some (w1, r) ->
  fs w1 = fs w
  /\ exists tr, trace w1 = trace w ++ tr
                /\ steps tr = if cuda then [GuardCall] else [].
Proof using Type.
  destruct cuda; intros H.
  - split; [exact (check_keeps _ _ _ _ _ _ _ _ H)|].
    destruct (check_steps _ _ _ _ _ _ _ _ H) as (tr & E & S).
    exists (EvCheckGpu (temp_limit args) (load_limit args) (pause_time args) :: tr).
    split; [exact E|]. unfold steps in *. cbn [flat_map step_of]. now rewrite S.
  - injection H as <- <-. split; [reflexivity|]. exists []. now rewrite app_nil_r.
Qed.

(** A pass that returns normally has rendered its three lines and
    appended one chunk to each file, after at most one check. *)
Lemma process_segment_ok i seg w w' base a b c d :
  fs w = files base a b c d ->
  body i seg w = Some (w', Ok tt) ->
  exists r2 r3 r4 tr,
    tsv_line seg = Ok r2 /\ srt_line i seg = Ok r3 /\ vtt_line seg = Ok r4
    /\ fs w' = files base (a +:+ txt_chunk seg) (b +:+ r2) (c +:+ r3) (d +:+ r4)
    /\ trace w' = trace w ++ tr
    /\ steps tr = pass cuda txt_f tsv_f srt_f vtt_f.
Proof using distinct.
  intros Hfs H. unfold process_segment in H.
  apply bind_ok in H as (w1 & [] & Hg & H).
  apply guard_ok in Hg as (Hfs1 & tr0 & Et & Hst).
  rewrite Hfs in Hfs1.
  apply bind_ok in H as (w2 & start_ms & Hl & H). apply lift_ok in Hl as [Hs ->].
  apply bind_ok in H as (w2 & end_ms & Hl & H). apply lift_ok in Hl as [He ->].
  apply bind_ok in H as (w2 & [] & Hw & H).
  rewrite (write_txt _ _ _ _ distinct _ _ _ _ _ _ _ Hfs1) in Hw.
  injection Hw as <-.
  apply bind_ok in H as (w2 & [] & Hw & H).
  erewrite write_tsv in Hw by first [exact distinct | reflexivity].
  injection Hw as <-. cbn [trace] in H.
  apply bind_ok in H as (w2 & start_srt & Hl & H). apply lift_ok in Hl as [Hs1 ->].
  apply bind_ok in H as (w2 & end_srt & Hl & H). apply lift_ok in Hl as [He1 ->].
  apply bind_ok in H as (w2 & [] & Hw & H).
  erewrite write_srt in Hw by first [exact distinct | reflexivity].
  injection Hw as <-. cbn [trace] in H.
  apply bind_ok in H as (w2 & start_vtt & Hl & H). apply lift_ok in Hl as [Hs2 ->].
  apply bind_ok in H as (w2 & end_vtt & Hl & H). apply lift_ok in Hl as [He2 ->].
  erewrite write_vtt in H by first [exact distinct | reflexivity].
  injection H as <-. cbn [trace fs].
  eexists _, _, _, (tr0 ++ [_; _; _; _]).
  split; [|split; [|split; [|split; [reflexivity|split]]]].
  - unfold tsv_line. now rewrite Hs, He.
  - unfold srt_line. rewrite Hs. cbn [bind]. rewrite Hs1. cbn [bind].
    rewrite He. cbn [bind]. now rewrite He1.
  - unfold vtt_line. rewrite Hs. cbn [bind]. rewrite Hs2. cbn [bind].
    rewrite He. cbn [bind]. now rewrite He2.
  - rewrite Et, <- !app_assoc. reflexivity.
  - rewrite steps_app, Hst. reflexivity.
Qed.

Lemma loop_ok segs : forall i w w' base a b c d,
  fs w = files base a b c d ->
  for_each_enumerate i segs body w = Some (w', Ok tt) ->
  exists rows2 rows3 rows4 tr,
    collect tsv_line segs = Ok rows2
    /\ collect_enumerate i srt_line segs = Ok rows3
    /\ collect vtt_line segs = Ok rows4
    /\ fs w' = files base (a +:+ join (map txt_chunk segs)) (b +:+ join rows2)
                 (c +:+ join rows3) (d +:+ join rows4)
    /\ trace w' = trace w ++ tr
    /\ steps tr = flat_map (fun _ => pass cuda txt_f tsv_f srt_f vtt_f) segs.
Proof using distinct.
  induction segs as [|seg segs IH]; intros i w w' base a b c d Hfs H.
  - injection H as <-. exists [], [], [], []. cbn.
    rewrite !append_nil_r, app_nil_r. repeat split; try reflexivity. exact Hfs.
  - cbn [for_each_enumerate] in H.
    apply bind_ok in H as (w1 & [] & H1 & H).
    destruct (process_segment_ok _ _ _ _ _ _ _ _ _ Hfs H1)
      as (r2 & r3 & r4 & tr1 & E2 & E3 & E4 & Hfs1 & Et1 & Hs1).
    destruct (IH _ _ _ _ _ _ _ _ Hfs1 H)
      as (rows2 & rows3 & rows4 & tr & C2 & C3 & C4 & Hfs' & Et & Hs).
    exists (r2 :: rows2), (r3 :: rows3), (r4 :: rows4), (tr1 ++ tr).
    cbn [collect collect_enumerate map flat_map].
    rewrite E2, E3, E4, C2, C3, C4. cbn [bind].
    rewrite !join_cons, <- !append_assoc.
    repeat split; try assumption.
    + rewrite Et, Et1. now rewrite app_assoc.
    + now rewrite steps_app, Hs1, Hs.
Qed.
End Loop.

(** The [with] block as a whole. *)
Lemma write_incrementally_ok fuel env args segs dir base w w' :
  let txt_f := joinpath dir (base +:+ ".txt") in
  let tsv_f := joinpath dir (base +:+ ".tsv") in
  let srt_f := joinpath dir (base +:+ ".srt") in
  let vtt_f := joinpath dir (base +:+ ".vtt") in
  write_incrementally fuel env args segs dir base w = Some (w', Ok tt) ->
  exists rows2 rows3 rows4 tr,
    collect tsv_line segs = Ok rows2
    /\ collect_enumerate 1 srt_line segs = Ok rows3
    /\ collect vtt_line segs = Ok rows4
    /\ fs w' = four_files UTF8 txt_f tsv_f srt_f vtt_f (fs w)
                 (join (map txt_chunk segs)) (tsv_header +:+ join rows2)
                 (join rows3) (vtt_header +:+ join rows4)
    /\ trace w' = trace w ++ tr
    /\ steps tr = [WriteTo tsv_f; WriteTo vtt_f]
                  ++ flat_map (fun _ => pass (String.eqb (device args) "cuda")
                                          txt_f tsv_f srt_f vtt_f) segs.
Proof.
  intros txt_f tsv_f srt_f vtt_f H.
  pose proof (PathFacts.outputs_distinct dir base) as D.
  fold txt_f tsv_f srt_f vtt_f in D.
  unfold write_incrementally in H. fold txt_f tsv_f srt_f vtt_f in H.
  unfold pbind at 1 2 3 4, open_w in H. cbn [fs trace] in H.
  fold (four_files UTF8 txt_f tsv_f srt_f vtt_f (fs w) "" "" "" "") in H.
  apply bind_ok in H as (w1 & [] & Hw & H).
  erewrite write_tsv in Hw by first [exact D | reflexivity].
  injection Hw as <-.
  apply bind_ok in H as (w1 & [] & Hw & H).
  erewrite write_vtt in Hw by first [exact D | reflexivity].
  injection Hw as <-. cbn [trace] in H.
  rewrite !append_nil_l in H.
  match type of H with
  | for_each_enumerate _ _ _ ?w0 = _ =>
      destruct (loop_ok fuel env args _ _ _ _ D segs 1 w0 w' (fs w)
                  "" tsv_header "" vtt_header eq_refl H)
        as (rows2 & rows3 & rows4 & tr & C2 & C3 & C4 & Hfs & Et & Hs)
  end.
  exists rows2, rows3, rows4.
  exists ([EvOpen txt_f UTF8; EvOpen tsv_f UTF8; EvOpen srt_f UTF8; EvOpen vtt_f UTF8;
           EvWrite tsv_f tsv_header; EvWrite vtt_f vtt_header] ++ tr).
  cbn [fs] in Hfs. rewrite ?append_nil_l in Hfs.
  repeat split; try assumption.
  - rewrite Et. cbn [trace]. rewrite <- !app_assoc. reflexivity.
  - now rewrite steps_app, Hs.
Qed.

End IncrementalFacts.

Module LoopTheorems.
Import Effects EffectFacts Render Steps FwMp4Opt IncrementalFacts.

Ltac only_steps :=
  repeat lazymatch goal with
  | |- only _ (ret _) => apply only_ret
  | |- only _ (lift _) => apply only_lift
  | |- only _ (raise _) => apply only_raise
  | |- only _ (write _ _) => apply only_write; reflexivity
  | |- only _ (open_w _ _) => apply only_open; reflexivity
  | |- only _ (pbind _ _) => apply only_bind; [|intros ?]
  end.

Ltac terminates_steps :=
  repeat lazymatch goal with
  | |- terminates (ret _) => apply terminates_ret
  | |- terminates (lift _) => apply terminates_lift
  | |- terminates (raise _) => apply terminates_raise
  | |- terminates (write _ _) => apply terminates_write
  | |- terminates (open_w _ _) => apply terminates_open
  | |- terminates (pbind _ _) => apply terminates_bind; [|intros ?]
  end.

Lemma loop_without_cuda fuel env args segs dir base :
  (device args =? "cuda")%string = false ->
  only not_check (write_incrementally fuel env args segs dir base)
  /\ terminates (write_incrementally fuel env args segs dir base).
Proof.
  intros Hc. unfold write_incrementally. split.
  - only_steps. apply only_for_each_enumerate. intros i x.
    unfold process_segment. rewrite Hc. only_steps.
  - terminates_steps. apply terminates_for_each_enumerate. intros i x.
    unfold process_segment. rewrite Hc. terminates_steps.
Qed.

(** C3 (as amended).  When the incremental loop of
    [transcript_fw_mp4_opt.py] returns normally, the batch writers of
    [transcript_fw_mp4.py], run on the same segments and paths, return
    normally and write the same text into the TXT, TSV, SRT and VTT files,
    on every platform whose default encoding has bytes for that text; the
    files hold the same bytes when that encoding is UTF-8, the one the
    incremental script writes. *)
Theorem incremental_text_matches_batch
    (fuel : nat) (env : environment) (args : arguments)
    (segs : list segment) (output_dir base_name : string) (w w' : world) :
  let txt_f := joinpath output_dir (base_name +:+ ".txt") in
  let tsv_f := joinpath output_dir (base_name +:+ ".tsv") in
  let srt_f := joinpath output_dir (base_name +:+ ".srt") in
  let vtt_f := joinpath output_dir (base_name +:+ ".vtt") in
  write_incrementally fuel env args segs output_dir base_name w = Some (w', Ok tt) ->
  exists txt tsv srt vtt,
    fs w' = four_files UTF8 txt_f tsv_f srt_f vtt_f (fs w) txt tsv srt vtt
    /\ (forall enc,
          Codec.encodable enc txt = true -> Codec.encodable enc tsv = true ->
          Codec.encodable enc srt = true -> Codec.encodable enc vtt = true ->
          exists w'',
            FwMp4.save_all enc segs output_dir base_name w = Some (w'', Ok tt)
            /\ fs w'' = four_files enc txt_f tsv_f srt_f vtt_f (fs w) txt tsv srt vtt)
    /\ exists w'',
          FwMp4.save_all UTF8 segs output_dir base_name w = Some (w'', Ok tt)
          /\ fs w'' = fs w'
          /\ forall path, disk_bytes w'' path = disk_bytes w' path.
Proof.
  intros txt_f tsv_f srt_f vtt_f H.
  destruct (write_incrementally_ok _ _ _ _ _ _ _ _ H)
    as (rows2 & rows3 & rows4 & tr & C2 & C3 & C4 & Hfs & _).
  eexists _, _, _, _. split; [exact Hfs|]. split.
  - intros enc E1 E2 E3 E4.
    exact (BatchFacts.save_all_run enc segs output_dir base_name w _ _ _
             C2 C3 C4 E1 E2 E3 E4).
  - destruct (BatchFacts.save_all_run UTF8 segs output_dir base_name w _ _ _
                C2 C3 C4 (TextFacts.encodable_utf8 _) (TextFacts.encodable_utf8 _)
                (TextFacts.encodable_utf8 _) (TextFacts.encodable_utf8 _))
      as (w'' & Hrun & Hfs'').
    exists w''. split; [exact Hrun|].
    assert (E : fs w'' = fs w') by (rewrite Hfs; exact Hfs'').
    split; [exact E|]. intros path. unfold disk_bytes. now rewrite E.
Qed.

(** C7.  In the loop of [transcript_fw_mp4_opt.py] that returns normally,
    the checks and writes are: the two headers, then for every segment in
    order one call of [check_gpu_and_pause] (when the device is ["cuda"])
    followed by the four writes of that segment; with any other device the
    loop always comes to an end and its trace holds no call of the guard,
    however it ends. *)
Theorem check_gpu_once_per_segment_iff_cuda
    (fuel : nat) (env : environment) (args : arguments)
    (segs : list segment) (output_dir base_name : string) (w : world) :
  let txt_f := joinpath output_dir (base_name +:+ ".txt") in
  let tsv_f := joinpath output_dir (base_name +:+ ".tsv") in
  let srt_f := joinpath output_dir (base_name +:+ ".srt") in
  let vtt_f := joinpath output_dir (base_name +:+ ".vtt") in
  let run := write_incrementally fuel env args segs output_dir base_name in
  (forall w', run w = Some (w', Ok tt) ->
     exists tr,
       trace w' = trace w ++ tr
       /\ steps tr =
          [WriteTo tsv_f; WriteTo vtt_f]
          ++ flat_map (fun _ =>
               (if String.eqb (device args) "cuda" then [GuardCall] else [])
               ++ [WriteTo txt_f; WriteTo tsv_f; WriteTo srt_f; WriteTo vtt_f]) segs)
  /\ (device args <> "cuda" ->
      (exists w' r, run w = Some (w', r))
      /\ forall w' r, run w = Some (w', r) ->
           exists tr, trace w' = trace w ++ tr
                      /\ Forall (fun e => is_check e = false) tr).
Proof.
  intros txt_f tsv_f srt_f vtt_f run. split.
  - intros w' H.
    destruct (write_incrementally_ok _ _ _ _ _ _ _ _ H)
      as (_ & _ & _ & tr & _ & _ & _ & _ & Et & Hs).
    exists tr. split; [exact Et|exact Hs].
  - intros Hd. apply String.eqb_neq in Hd.
    destruct (loop_without_cuda fuel env args segs output_dir base_name Hd)
      as [Ho Ht].
    split; [apply Ht|]. intros w' r H. exact (Ho _ _ _ H).
Qed.

End LoopTheorems.

Module MainFacts.


Lemma report_and_exit w path :
  (print (not_found_message path) ;; sys_exit 1) w
  = Some (World (fs w) (trace w ++ [EvPrint (not_found_message path)]),
          Raise (SystemExit 1) : result ()).
Proof. reflexivity. Qed.

End MainFacts.


(** C6 (as amended).  [save_tsv] of [transcript_fw_mp4.py] (and of
    [transcribe.py], which is the same code): when every time converts to
    milliseconds and the encoding of the file has bytes for every record,
    it returns normally and the file holds the header [start], [end],
    [text] and then one record per segment, in order, each ended by a line
    feed; the record is the truncated start and end in milliseconds and the
    stripped text, joined by tabs.  The records are the lines of the file
    when no stripped text contains a line feed. *)
Theorem save_tsv_header_and_one_record_per_segment
    (enc : encoding) (segs : list segment) (filename whole : string)
    (w : world) (records : list string) :
  Render.collect Render.tsv_record segs = Ok records ->
  Forall (fun r => Codec.encodable enc r = true) records ->
  let done :=
    Some (World (<[filename := TextFile enc (Tsv.file_text records)]> (fs w))
            (trace w ++ EvOpen filename enc
             :: map (EvWrite filename)
                  (map Tsv.terminate (Render.tsv_header_line :: records))
             ++ [EvPrint ("Saved " +:+ filename)]),
          Ok tt) in
  FwMp4.save_tsv enc segs filename w = done
  /\ Transcribe.save_tsv enc (Transcript segs whole) filename w = done
  /\ length records = length segs
  /\ (Forall Render.single_line segs ->
      lines (Tsv.file_text records) = Render.tsv_header_line :: records).
Proof.
  intros Hrec Henc done.
  assert (Hrun : FwMp4.save_tsv enc segs filename w = done).
  { erewrite TsvFacts.save_tsv_run;
      [|apply TsvFacts.collect_lines_of_records, Hrec
       |apply TsvFacts.terminated_encodable, Henc].
    reflexivity. }
  split; [exact Hrun|]. split; [exact Hrun|].
  split; [eapply TsvFacts.collect_length, Hrec|].
  intros Hs. unfold Tsv.file_text. apply TsvFacts.lines_of_terminated.
  constructor; [reflexivity|]. eapply TsvFacts.records_single_line; eassumption.
Qed.

(** C4 (as amended).  For every integer [m] with
    [0 <= m < 17592186044416000] (that is [2^44] seconds),
    [ms_to_srt_time m] is [HH:MM:SS,mmm] with [HH = m / 3600000] padded to
    two digits at least, [MM = m / 60000 mod 60], [SS = m / 1000 mod 60]
    and [mmm = m mod 1000] padded to three; the four fields it prints
    recombine to [m], and the printed timestamp reads back as [m]. *)
Theorem ms_to_srt_time_exact_below_2p44_seconds (m : Z) :
  0 <= m < srt_exact_below ->
  ms_to_srt_time m = Ok (srt_timestamp m)
  /\ ReadBack.srt_time (srt_timestamp m) = Some m
  /\ exists c, split_ms m = Ok c
               /\ hours c = m / 3600000
               /\ minutes c = m / 60000 mod 60
               /\ secs c = m / 1000 mod 60
               /\ millis c = m mod 1000
               /\ recombine c = m.
Proof.
  intros Hm. pose proof (FloatFacts.split_ms_exact m Hm) as Hs.
  split; [|split].
  - unfold ms_to_srt_time. rewrite Hs. reflexivity.
  - apply ReadBackFacts.srt_timestamp_reads_back. lia.
  - eexists. split; [exact Hs|]. cbn [hours minutes secs millis].
    repeat split. unfold recombine. cbn [hours minutes secs millis].
    assert (E1 : m / 60000 = m / 1000 / 60).
    { change 60000 with (1000 * 60). now rewrite Z.div_div by lia. }
    assert (E2 : m / 3600000 = m / 1000 / 60 / 60).
    { change 3600000 with (1000 * 60 * 60). now rewrite !Z.div_div by lia. }
    rewrite E1, E2.
    pose proof (Z.div_mod m 1000 ltac:(lia)).
    pose proof (Z.div_mod (m / 1000) 60 ltac:(lia)).
    pose proof (Z.div_mod (m / 1000 / 60) 60 ltac:(lia)).
    lia.
Qed.

(** C4, counterexample.  At [2^44] seconds and 999 milliseconds the
    quotient [m / 1000] is rounded up to the next whole second, and the
    seconds field is one too large. *)
Lemma ms_to_srt_time_off_by_a_second :
  0 <= 17592186044416999
  /\ ms_to_srt_time 17592186044416999 = Ok "4886718345:40:17,999"
  /\ srt_timestamp 17592186044416999 = "4886718345:40:16,999"
  /\ ms_to_srt_time 17592186044416999 <> Ok (srt_timestamp 17592186044416999)
  /\ ReadBack.srt_time "4886718345:40:17,999" = Some (17592186044416999 + 1000).
Proof.
  assert (H1 : ms_to_srt_time 17592186044416999 = Ok "4886718345:40:17,999")
    by (vm_compute; reflexivity).
  assert (H2 : srt_timestamp 17592186044416999 = "4886718345:40:16,999")
    by (vm_compute; reflexivity).
  split; [lia|]. split; [exact H1|]. split; [exact H2|].
  split; [rewrite H1, H2; discriminate|vm_compute; reflexivity].
Qed.

Lemma ms_to_srt_time_exact_witness :
  0 <= 3661500 < srt_exact_below
  /\ ms_to_srt_time 3661500 = Ok "01:01:01,500".
Proof.
  assert (H : 0 <= 3661500 < srt_exact_below) by (split; reflexivity || easy).
  split; [exact H|].
  exact (proj1 (ms_to_srt_time_exact_below_2p44_seconds 3661500 H)).
Defined.

(** What [ms_to_vtt_time] prints, by branch: minutes, seconds and
    milliseconds below one hour; hours, minutes and milliseconds from one
    hour on, where the seconds are computed and not printed. *)
Lemma ms_to_vtt_time_fields (m : Z) :
  0 <= m < srt_exact_below ->
  ms_to_vtt_time m =
  Ok (if m <? 3600000
      then PyInt.format_0d 2 (m / 60000) +:+ ":"
           +:+ PyInt.format_0d 2 (m / 1000 mod 60) +:+ "."
           +:+ PyInt.format_0d 3 (m mod 1000)
      else PyInt.format_0d 2 (m / 3600000) +:+ ":"
           +:+ PyInt.format_0d 2 (m / 60000 mod 60) +:+ "."
           +:+ PyInt.format_0d 3 (m mod 1000)).
Proof.
  intros Hm. unfold ms_to_vtt_time.
  rewrite (FloatFacts.split_ms_exact m Hm). cbn [bind hours minutes secs millis].
  destruct (Z.ltb_spec m 3600000) as [Hlt|Hge].
  - rewrite (Z.div_small m 3600000) by lia. cbn [Z.ltb Z.compare].
    assert (E : m / 60000 mod 60 = m / 60000).
    { apply Z.mod_small. split; [apply Z.div_pos; lia|].
      apply Z.div_lt_upper_bound; lia. }
    now rewrite E.
  - assert (0 < m / 3600000) by (apply Z.div_str_pos; lia).
    destruct (Z.ltb_spec 0 (m / 3600000)); [reflexivity|lia].
Qed.

(** Values checked against CPython 3.11: a negative input, an input above
    [2^53] seconds, and the truncation of [1.001 * 1000]. *)
Example ms_to_srt_time_negative : ms_to_srt_time (-1) = Ok "-1:59:59,999".
Proof. vm_compute. reflexivity. Qed.

Example ms_to_srt_time_above_2p53 :
  ms_to_srt_time 9007199254740993000 = Ok "2501999792983:36:32,000".
Proof. vm_compute. reflexivity. Qed.

Example to_ms_truncates_the_float_product : to_ms (literal 1001 1000) = Ok 1000.
Proof. vm_compute. reflexivity. Qed.

(** C5.  [ms_to_vtt_time] loses the seconds of every time of an hour or
    more: one hour, one minute and 1.5 seconds is printed like one minute
    and 1.5 seconds, so no way of reading the printed fields back gives
    the input for all non-negative [m]. *)
Theorem ms_to_vtt_time_drops_seconds_after_an_hour :
  ms_to_vtt_time 3661500 = Ok "01:01.500"
  /\ ms_to_vtt_time 61500 = Ok "01:01.500"
  /\ ~ exists read_back : result string -> Z,
         forall m, 0 <= m -> read_back (ms_to_vtt_time m) = m.
Proof.
  assert (H1 : ms_to_vtt_time 3661500 = Ok "01:01.500") by (vm_compute; reflexivity).
  assert (H2 : ms_to_vtt_time 61500 = Ok "01:01.500") by (vm_compute; reflexivity).
  split; [exact H1|]. split; [exact H2|].
  intros [read_back H].
  pose proof (H 3661500 ltac:(lia)) as A. pose proof (H 61500 ltac:(lia)) as B.
  rewrite H1 in A. rewrite H2 in B. lia.
Qed.

(** C10.  [ms_to_vtt_time] is not injective: 65250 (below one hour) and
    3900250 (above) are both printed as [01:05.250]. *)
Theorem ms_to_vtt_time_not_injective :
  65250 <> 3900250
  /\ 0 <= 65250 < 3600000 /\ 3600000 <= 3900250
  /\ ms_to_vtt_time 65250 = Ok "01:05.250"
  /\ ms_to_vtt_time 3900250 = Ok "01:05.250".
Proof.
  split; [lia|]. split; [lia|]. split; [lia|].
  split; vm_compute; reflexivity.
Qed.

Import GuardFacts LoopTheorems.

(** C3, counterexample.  On a platform whose default text encoding is
    Latin-1 the two scripts, given the same input, leave different bytes in
    the TXT file: the incremental script writes UTF-8, the batch script
    the platform encoding. *)
Lemma txt_bytes_differ_on_latin1_platform :
  let env := Sample.latin1_platform Sample.cafe in
  bytes_after (FwMp4Opt.main 0 env (Sample.opt_args "cpu")) Sample.with_talk
    "talk_transcribed/talk.txt"
  = Some [Byte.x63; Byte.x61; Byte.x66; Byte.xc3; Byte.xa9; Byte.x20]
  /\ bytes_after (FwMp4.main env Sample.fw_args) Sample.with_talk
       "talk_transcribed/talk.txt"
     = Some [Byte.x63; Byte.x61; Byte.x66; Byte.xe9; Byte.x20]
  /\ bytes_after (FwMp4Opt.main 0 env (Sample.opt_args "cpu")) Sample.with_talk
       "talk_transcribed/talk.txt"
     <> bytes_after (FwMp4.main env Sample.fw_args) Sample.with_talk
          "talk_transcribed/talk.txt".
Proof.
  intros env.
  assert (H1 : bytes_after (FwMp4Opt.main 0 env (Sample.opt_args "cpu"))
                 Sample.with_talk "talk_transcribed/talk.txt"
               = Some [Byte.x63; Byte.x61; Byte.x66; Byte.xc3; Byte.xa9; Byte.x20])
    by (vm_compute; reflexivity).
  assert (H2 : bytes_after (FwMp4.main env Sample.fw_args) Sample.with_talk
                 "talk_transcribed/talk.txt"
               = Some [Byte.x63; Byte.x61; Byte.x66; Byte.xe9; Byte.x20])
    by (vm_compute; reflexivity).
  split; [exact H1|]. split; [exact H2|]. rewrite H1, H2. discriminate.
Qed.

Lemma incremental_text_matches_batch_witness :
  exists w',
    FwMp4Opt.write_incrementally 0 (Sample.latin1_platform Sample.cafe)
      (Sample.opt_args "cpu") Sample.cafe "out" "talk" empty_world
    = Some (w', Ok tt)
    /\ exists w'',
         FwMp4.save_all UTF8 Sample.cafe "out" "talk" empty_world = Some (w'', Ok tt)
         /\ fs w'' = fs w'
         /\ forall path, disk_bytes w'' path = disk_bytes w' path.
Proof.
  assert (H : exists w',
    FwMp4Opt.write_incrementally 0 (Sample.latin1_platform Sample.cafe)
      (Sample.opt_args "cpu") Sample.cafe "out" "talk" empty_world
    = Some (w', Ok tt)) by (vm_compute; eexists; reflexivity).
  destruct H as [w' H]. exists w'. split; [exact H|].
  destruct (incremental_text_matches_batch _ _ _ _ _ _ _ _ H)
    as (txt & tsv & srt & vtt & _ & _ & Hsame).
  exact Hsame.
Defined.

(** C6, counterexample.  A segment whose text keeps a line feed inside
    takes two lines of the TSV file: one segment, three lines with the
    header. *)
Lemma tsv_record_with_line_feed_takes_two_lines :
  option_map (fun content => length (lines content))
    (text_after (FwMp4.save_tsv UTF8 Sample.two_lines "out.tsv") empty_world "out.tsv")
  = Some 3%nat
  /\ (3 <> 1 + length Sample.two_lines)%nat.
Proof. split; [vm_compute; reflexivity|cbn; lia]. Qed.

Lemma save_tsv_witness :
  Render.collect Render.tsv_record Sample.hello = Ok ["0" +:+ tab +:+ "1000" +:+ tab +:+ "hello"]
  /\ Forall (fun r => Codec.encodable ASCII r = true)
       ["0" +:+ tab +:+ "1000" +:+ tab +:+ "hello"]
  /\ lines (Tsv.file_text ["0" +:+ tab +:+ "1000" +:+ tab +:+ "hello"])
     = [Render.tsv_header_line; "0" +:+ tab +:+ "1000" +:+ tab +:+ "hello"].
Proof.
  assert (H1 : Render.collect Render.tsv_record Sample.hello
               = Ok ["0" +:+ tab +:+ "1000" +:+ tab +:+ "hello"])
    by (vm_compute; reflexivity).
  assert (H2 : Forall (fun r => Codec.encodable ASCII r = true)
                 ["0" +:+ tab +:+ "1000" +:+ tab +:+ "hello"])
    by (repeat constructor).
  split; [exact H1|]. split; [exact H2|].
  apply (save_tsv_header_and_one_record_per_segment ASCII Sample.hello "out.tsv" ""
           empty_world _ H1 H2).
  repeat constructor.
Defined.



Lemma sample_readings_hot i :
  (i < 2)%nat -> Guard.hot 55 70 (Sample.readings i).
Proof.
  intros Hi. destruct i as [|[|i]]; [split; reflexivity..|lia].
Defined.

Lemma sample_clock_accepted i :
  (i < 2)%nat -> Guard.accepted (Sample.clock i) 60.
Proof.
  intros Hi. destruct i as [|[|i]]; [| |lia];
    (split; [unfold sleep_max; lia|]); vm_compute; intros H; discriminate H.
Defined.

Lemma check_gpu_and_pause_pauses_witness :
  (forall i, (i < 2)%nat -> Guard.accepted (Sample.clock i) 60)
  /\ (forall i, (i < 2)%nat -> Guard.hot 55 70 (Sample.readings i))
  /\ Guard.cool 55 70 (Sample.readings 2)
  /\ (2 < 3)%nat
  /\ exists tr,
       FwMp4Opt.check_gpu_and_pause 3 (Guard.healthy Sample.clock Sample.readings)
         55 70 60 empty_world
       = Some (World ∅ tr, Ok tt)
       /\ filter Guard.is_sleep tr = [EvSleep 60; EvSleep 60].
Proof.
  assert (H0 : forall i, (i < 2)%nat -> Guard.accepted (Sample.clock i) 60)
    by exact sample_clock_accepted.
  assert (H2 : Guard.cool 55 70 (Sample.readings 2)) by (left; cbn; lia).
  assert (H3 : (2 < 3)%nat) by lia.
  split; [exact H0|]. split; [exact sample_readings_hot|].
  split; [exact H2|]. split; [exact H3|].
  destruct (check_gpu_and_pause_pauses_while_hot 55 70 60 Sample.clock
              Sample.readings 2 3 empty_world H0 sample_readings_hot H2 H3)
    as [Hrun Hsleep].
  eexists. split; [exact Hrun|exact Hsleep].
Defined.

(** C1, counterexample.  The first reading exceeds both thresholds, yet
    with [pause_time = -1] the guard does not sleep after it: [time.sleep]
    raises [ValueError], which is not an [NVMLError], so it leaves the
    guard after [nvmlShutdown], and no sleep has happened. *)
Lemma check_gpu_and_pause_hot_reading_without_sleep :
  Guard.hot 55 70 (Sample.readings 0)
  /\ FwMp4Opt.check_gpu_and_pause 3 (Guard.healthy Sample.clock Sample.readings)
       55 70 (-1) empty_world
     = Some (World ∅
               [EvCheckGpu 55 70 (-1); EvNvml NvmlInit true;
                EvNvml NvmlDeviceGetHandleByIndex true;
                EvNvml NvmlDeviceGetTemperature true;
                EvNvml NvmlDeviceGetUtilizationRates true;
                EvLog WARNING (FwMp4Opt.gpu_alert 80 99 (-1));
                EvNvml NvmlShutdown true],
             Raise ValueError).
Proof.
  split; [split; reflexivity|]. vm_compute. reflexivity.
Qed.

Lemma sample_pauses_accepted i :
  (forall j, (j <= i)%nat -> Guard.hot 55 70 (Sample.readings j)) ->
  Guard.accepted (Sample.clock i) 60.
Proof.
  intros Hhot. destruct (Nat.lt_ge_cases i 2) as [Hi|Hi].
  - exact (sample_clock_accepted i Hi).
  - exfalso. destruct (Hhot 2%nat Hi) as [Ht _]. cbn in Ht. lia.
Defined.

Lemma check_gpu_and_pause_terminates_witness :
  (forall i,
     (forall j, (j <= i)%nat -> Guard.hot 55 70 (Sample.readings j)) ->
     Guard.accepted (Sample.clock i) 60)
  /\ ((exists fuel out,
         FwMp4Opt.check_gpu_and_pause fuel
           (Guard.healthy Sample.clock Sample.readings) 55 70 60
           empty_world = Some out)
      <-> exists n, Guard.cool 55 70 (Sample.readings n)).
Proof.
  split; [exact sample_pauses_accepted|].
  exact (proj1 (check_gpu_and_pause_terminates_iff_cool 55 70 60 Sample.clock
                  Sample.readings empty_world sample_pauses_accepted)).
Defined.

(** C2, counterexample.  Every reading of the stream exceeds both
    thresholds and NVML raises no error, yet the guard terminates: with
    [pause_time = 10000000000] the first [time.sleep] raises
    [OverflowError], which leaves the guard after [nvmlShutdown]. *)
Lemma check_gpu_and_pause_all_hot_terminates :
  (forall n, Guard.hot 55 70 (Sample.always_hot n))
  /\ FwMp4Opt.check_gpu_and_pause 1
       (Guard.healthy Sample.clock Sample.always_hot) 55 70 10000000000
       empty_world
     = Some (World ∅
               [EvCheckGpu 55 70 10000000000; EvNvml NvmlInit true;
                EvNvml NvmlDeviceGetHandleByIndex true;
                EvNvml NvmlDeviceGetTemperature true;
                EvNvml NvmlDeviceGetUtilizationRates true;
                EvLog WARNING (FwMp4Opt.gpu_alert 80 99 10000000000);
                EvNvml NvmlShutdown true],
             Raise OverflowError).
Proof.
  split; [intros n; split; reflexivity|]. vm_compute. reflexivity.
Qed.

Lemma sample_failing_fails :
  Guard.fails_at Sample.failing 55 70 (Guard.AtTemperature 1).
Proof.
  repeat split.
  intros i Hi. destruct i as [|i]; [|lia].
  exists 80, 99. repeat split.
Defined.

Lemma check_gpu_and_pause_swallows_witness :
  (forall i, (i < Guard.polls_before (Guard.AtTemperature 1))%nat ->
             Guard.accepted (nv_monotonic Sample.failing i) 60)
  /\ Guard.fails_at Sample.failing 55 70 (Guard.AtTemperature 1)
  /\ (1 < 2)%nat
  /\ FwMp4Opt.check_gpu_and_pause 2 Sample.failing 55 70 60 empty_world
     = Some (World ∅
               [EvCheckGpu 55 70 60; EvNvml NvmlInit true;
                EvNvml NvmlDeviceGetHandleByIndex true;
                EvNvml NvmlDeviceGetTemperature true;
                EvNvml NvmlDeviceGetUtilizationRates true;
                EvLog WARNING (FwMp4Opt.gpu_alert 80 99 60); EvSleep 60;
                EvNvml NvmlDeviceGetTemperature false;
                EvNvml NvmlShutdown true],
             Ok tt).
Proof.
  assert (H0 : forall i, (i < Guard.polls_before (Guard.AtTemperature 1))%nat ->
                         Guard.accepted (nv_monotonic Sample.failing i) 60)
    by (intros i Hi; apply sample_clock_accepted; cbn in Hi; lia).
  assert (H2 : (1 < 2)%nat) by lia.
  split; [exact H0|]. split; [exact sample_failing_fails|]. split; [exact H2|].
  exact (check_gpu_and_pause_swallows_nvml_errors 55 70 60 Sample.failing
           (Guard.AtTemperature 1) 2 empty_world H0 sample_failing_fails H2).
Defined.

Lemma check_gpu_once_per_segment_witness :
  exists w',
    FwMp4Opt.write_incrementally 3 (Sample.latin1_platform Sample.hello)
      (Sample.opt_args "cuda") Sample.hello "out" "talk" empty_world
    = Some (w', Ok tt)
    /\ exists tr,
         trace w' = [] ++ tr
         /\ Steps.steps tr =
            [Steps.WriteTo "out/talk.tsv"; Steps.WriteTo "out/talk.vtt";
             Steps.GuardCall;
             Steps.WriteTo "out/talk.txt"; Steps.WriteTo "out/talk.tsv";
             Steps.WriteTo "out/talk.srt"; Steps.WriteTo "out/talk.vtt"].
Proof.
  eexists.
  refine ((fun H => conj H
             (proj1 (check_gpu_once_per_segment_iff_cuda 3
                       (Sample.latin1_platform Sample.hello) (Sample.opt_args "cuda")
                       Sample.hello "out" "talk" empty_world) _ H)) _).
  vm_compute. reflexivity.
Defined.

Module TimeFacts.
Import FloatFacts ReadBack ReadBackFacts TextFacts.

(** Rounding [x] units to a float never crosses a whole number: the
    result lies between the whole numbers around [x]. *)
Lemma round_pos_between x :
  0 <= x < 2 ^ 53 * one ->
  x / one * one <= round_pos (x * one) one < x + one.
Proof.
  intros [Hx Hlt]. pose proof one_pos as Hone. unfold round_pos.
  rewrite Z.div_mul by lia.
  set (e := ulp_exp x).
  assert (He : 0 <= e <= 1074).
  { unfold e, ulp_exp. split; [lia|].
    destruct (Z.eq_dec x 0) as [->|Hnz]; [cbn; lia|].
    assert (Z.log2 x < 1127); [|lia].
    apply Z.log2_lt_pow2; [lia|].
    rewrite one_pow in Hlt. rewrite <- Z.pow_add_r in Hlt by lia. exact Hlt. }
  set (g := 2 ^ e).
  assert (Hg : 0 < g) by (apply Z.pow_pos_nonneg; lia).
  assert (Hc : one = 2 ^ (1074 - e) * g).
  { unfold g. rewrite <- Z.pow_add_r by lia. rewrite one_pow. f_equal. lia. }
  set (c := 2 ^ (1074 - e)) in Hc.
  assert (Hcpos : 0 < c) by (apply Z.pow_pos_nonneg; lia).
  rewrite (Z.mul_comm one g), rne_scale by lia.
  set (j := x / one).
  assert (Hj : j * one <= x < (j + 1) * one).
  { unfold j. pose proof (Z.div_mod x one ltac:(lia)).
    pose proof (Z.mod_pos_bound x one ltac:(lia)). lia. }
  set (d := x / g).
  assert (Hd : d * g <= x < (d + 1) * g).
  { unfold d. pose proof (Z.div_mod x g ltac:(lia)).
    pose proof (Z.mod_pos_bound x g ltac:(lia)). lia. }
  assert (Hlow : j * c <= d).
  { apply Z.div_le_lower_bound; [lia|]. rewrite Hc in Hj. lia. }
  assert (Hup : d + 1 <= (j + 1) * c).
  { assert (d < (j + 1) * c); [|lia].
    apply Z.div_lt_upper_bound; [lia|]. rewrite Hc in Hj. lia. }
  destruct (rne_cases x g Hg) as [[-> _]|[-> Hr]]; fold d.
  - split; [rewrite Hc; nia|lia].
  - split; [rewrite Hc; nia|].
    assert (Hne : x <> j * one).
    { intros E. rewrite E, Hc in Hr.
      replace (j * (c * g)) with (j * c * g) in Hr by ring.
      rewrite Z.mod_mul in Hr by lia. lia. }
    assert ((d + 1) * g <= (j + 1) * one) by (rewrite Hc; nia).
    lia.
Qed.

End TimeFacts.

(** X1.  [int(t * 1000)], the conversion every writer applies to the
    start and end of a segment, is accurate to the millisecond: for a
    finite time [t >= 0] with [1000 t < 2^53] it returns the whole number
    of milliseconds just below or just above [1000 t] (the floor, or the
    next integer when the float product was rounded up to it), and never
    raises. *)
Theorem to_ms_within_a_millisecond (n : Z) :
  0 <= n -> 1000 * n < 2 ^ 53 * one ->
  exists ms, to_ms (Fin n) = Ok ms
             /\ 1000 * n / one <= ms
             /\ ms * one < 1000 * n + one.
Proof.
  intros Hn Hlt. pose proof FloatFacts.one_pos as Hone.
  unfold to_ms. rewrite FloatFacts.of_int_small by lia. cbn [bind float_mul].
  replace (n * (1000 * one)) with (1000 * n * one) by ring.
  rewrite FloatFacts.round_nonneg by nia.
  destruct (TimeFacts.round_pos_between (1000 * n) ltac:(lia)) as [Hlo Hhi].
  set (R := round_pos (1000 * n * one) one) in *.
  assert (H0 : 0 <= R).
  { assert (0 <= 1000 * n / one) by (apply Z.div_pos; lia). nia. }
  unfold classify.
  assert (Hh : Z.abs R < huge).
  { rewrite Z.abs_eq by lia. rewrite FloatFacts.huge_one.
    assert (2 ^ 53 + 1 <= 2 ^ 1024) by (vm_compute; discriminate). nia. }
  destruct (Z.leb_spec huge (Z.abs R)); [lia|].
  cbn [int_of_float]. exists (Z.quot R one). split; [reflexivity|].
  rewrite Z.quot_div_nonneg by lia. split.
  - apply Z.div_le_lower_bound; lia.
  - pose proof (Z.mul_div_le R one ltac:(lia)). lia.
Qed.

Lemma to_ms_within_a_millisecond_witness :
  exists ms, to_ms (literal 1001 1000) = Ok ms /\ 1000 <= ms /\ ms <= 1001.
Proof.
  assert (E : literal 1001 1000 = Fin (round (1001 * one) 1000))
    by (vm_compute; reflexivity).
  assert (H1 : 0 <= round (1001 * one) 1000) by (vm_compute; discriminate).
  assert (H2 : 1000 * round (1001 * one) 1000 < 2 ^ 53 * one)
    by (vm_compute; reflexivity).
  destruct (to_ms_within_a_millisecond _ H1 H2) as (ms & Hms & Hlo & Hhi).
  exists ms. rewrite E. split; [exact Hms|].
  assert (F : 1000 * round (1001 * one) 1000 / one = 1000)
    by (vm_compute; reflexivity).
  assert (G : 1000 * round (1001 * one) 1000 + one <= 1002 * one)
    by (vm_compute; discriminate).
  pose proof FloatFacts.one_pos. split; [lia|nia].
Defined.

(** X2.  Below one hour [ms_to_vtt_time] loses nothing: for
    [0 <= m < 3600000] it prints [MM:SS.mmm] with [MM = m / 60000],
    [SS = m / 1000 mod 60] and [mmm = m mod 1000], the printed text reads
    back as [m], and so two different durations below one hour never get
    the same timestamp. *)
Theorem ms_to_vtt_time_reads_back_below_an_hour (m : Z) :
  0 <= m < 3600000 ->
  ms_to_vtt_time m
  = Ok (PyInt.format_0d 2 (m / 60000) +:+ ":"
        +:+ PyInt.format_0d 2 (m / 1000 mod 60) +:+ "."
        +:+ PyInt.format_0d 3 (m mod 1000))
  /\ (forall s, ms_to_vtt_time m = Ok s -> ReadVtt.short_time s = Some m)
  /\ (forall m', 0 <= m' < 3600000 -> ms_to_vtt_time m' = ms_to_vtt_time m -> m' = m).
Proof.
  assert (Hfield : forall k, 0 <= k < 3600000 ->
    ms_to_vtt_time k
    = Ok (PyInt.format_0d 2 (k / 60000) +:+ ":"
          +:+ PyInt.format_0d 2 (k / 1000 mod 60) +:+ "."
          +:+ PyInt.format_0d 3 (k mod 1000))).
  { intros k Hk. rewrite ms_to_vtt_time_fields by (unfold srt_exact_below; lia).
    destruct (Z.ltb_spec k 3600000); [reflexivity|lia]. }
  assert (Hback : forall k s, 0 <= k < 3600000 ->
    ms_to_vtt_time k = Ok s -> ReadVtt.short_time s = Some k).
  { intros k s Hk Hs. rewrite (Hfield k Hk) in Hs. injection Hs as <-.
    unfold ReadVtt.short_time.
    assert (H1 : 0 <= k / 60000) by (apply Z.div_pos; lia).
    assert (H3 : 0 <= k / 1000 mod 60) by (apply Z.mod_pos_bound; lia).
    assert (H4 : 0 <= k mod 1000) by (apply Z.mod_pos_bound; lia).
    change (?a +:+ ":" +:+ ?b) with (a +:+ String ":" b).
    rewrite ReadBackFacts.split_at_first
      by now apply ReadBackFacts.format_0d_digits_only.
    change (?a +:+ "." +:+ ?b) with (a +:+ String "." b).
    rewrite ReadBackFacts.split_at_first
      by now apply ReadBackFacts.format_0d_digits_only.
    rewrite !ReadBackFacts.number_format_0d by assumption.
    f_equal.
    assert (E1 : k / 60000 = k / 1000 / 60).
    { change 60000 with (1000 * 60). now rewrite Z.div_div by lia. }
    rewrite E1.
    pose proof (Z.div_mod k 1000 ltac:(lia)).
    pose proof (Z.div_mod (k / 1000) 60 ltac:(lia)).
    lia. }
  intros Hm. split; [exact (Hfield m Hm)|]. split.
  - intros s. exact (Hback m s Hm).
  - intros m' Hm' E.
    pose proof (Hback m' _ Hm' (Hfield m' Hm')) as B'.
    pose proof (Hback m _ Hm (Hfield m Hm)) as B.
    rewrite (Hfield m' Hm'), (Hfield m Hm) in E. injection E as E.
    rewrite E, B in B'. now injection B'.
Qed.

Lemma ms_to_vtt_time_reads_back_witness :
  0 <= 61500 < 3600000
  /\ ms_to_vtt_time 61500 = Ok "01:01.500"
  /\ ReadVtt.short_time "01:01.500" = Some 61500.
Proof.
  assert (H : 0 <= 61500 < 3600000) by lia.
  destruct (ms_to_vtt_time_reads_back_below_an_hour 61500 H) as (E & B & _).
  split; [exact H|].
  assert (F : PyInt.format_0d 2 (61500 / 60000) +:+ ":"
              +:+ PyInt.format_0d 2 (61500 / 1000 mod 60) +:+ "."
              +:+ PyInt.format_0d 3 (61500 mod 1000) = "01:01.500")
    by (vm_compute; reflexivity).
  rewrite F in E. split; [exact E|]. exact (B _ E).
Defined.

Module WriterFacts.
Import Codec TextFacts FileFacts Render TsvFacts BatchFacts.

Lemma for_each_app {A : Type} (body : A -> prog ()) l1 l2 w :
  for_each (l1 ++ l2) body w = (for_each l1 body ;; for_each l2 body) w.
Proof.
  revert w. induction l1 as [|x l1 IH]; intros w; [reflexivity|].
  cbn [app for_each]. unfold pbind.
  destruct (body x w) as [[w1 [[]|e]]|]; [|reflexivity|reflexivity].
  rewrite IH. reflexivity.
Qed.

Lemma for_each_enumerate_app {A : Type} (body : Z -> A -> prog ()) l1 l2 :
  forall i w,
    for_each_enumerate i (l1 ++ l2) body w
    = (for_each_enumerate i l1 body ;;
       for_each_enumerate (i + Z.of_nat (length l1)) l2 body) w.
Proof.
  induction l1 as [|x l1 IH]; intros i w.
  - cbn. now rewrite Z.add_0_r.
  - cbn [app for_each_enumerate length]. unfold pbind.
    destruct (body i x w) as [[w1 [[]|e]]|]; [|reflexivity|reflexivity].
    rewrite IH. unfold pbind.
    replace (i + 1 + Z.of_nat (length l1)) with (i + Z.of_nat (S (length l1)))
      by lia.
    reflexivity.
Qed.

(** A loop that appends one rendered line per element stops at the
    first element whose pass raises, with the lines before it written. *)
Lemma for_each_stops {A : Type} (body : A -> prog ()) (line : A -> result string)
    (f : string) (enc : encoding) :
  (forall x r w, line x = Ok r -> body x w = write f r w) ->
  forall good bad rest rows w content e,
    collect line good = Ok rows ->
    Forall (fun r => encodable enc r = true) rows ->
    fs w !! f = Some (TextFile enc content) ->
    (forall w1, fs w1 !! f = Some (TextFile enc (content +:+ join rows)) ->
                body bad w1 = Some (w1, Raise e)) ->
    for_each (good ++ bad :: rest) body w
    = Some (World (<[f := TextFile enc (content +:+ join rows)]> (fs w))
                  (trace w ++ map (EvWrite f) rows), Raise e).
Proof.
  intros Hbody good bad rest rows w content e Hrows Henc Hf Hbad.
  rewrite for_each_app. unfold pbind at 1.
  rewrite (for_each_appends body line f enc Hbody good rows w content Hrows Henc Hf).
  cbn [for_each]. unfold pbind at 1.
  rewrite Hbad by (cbn; apply lookup_insert_eq). reflexivity.
Qed.

Lemma collect_lookup {A : Type} (f : A -> result string) l :
  forall rows, collect f l = Ok rows ->
  forall k x, l !! k = Some x -> exists r, rows !! k = Some r /\ f x = Ok r.
Proof.
  induction l as [|y l IH]; intros rows H k x Hk; [destruct k; discriminate|].
  cbn [collect] in H. destruct (f y) as [r|] eqn:Hy; [|discriminate].
  cbn [bind] in H. destruct (collect f l) as [rs|]; [|discriminate].
  injection H as <-. destruct k as [|k].
  - injection Hk as <-. now exists r.
  - exact (IH rs eq_refl k x Hk).
Qed.

Lemma collect_enumerate_lookup {A : Type} (f : Z -> A -> result string) l :
  forall i rows, collect_enumerate i f l = Ok rows ->
  forall k x, l !! k = Some x ->
    exists r, rows !! k = Some r /\ f (i + Z.of_nat k) x = Ok r.
Proof.
  induction l as [|y l IH]; intros i rows H k x Hk; [destruct k; discriminate|].
  cbn [collect_enumerate] in H. destruct (f i y) as [r|] eqn:Hy; [|discriminate].
  cbn [bind] in H.
  destruct (collect_enumerate (i + 1) f l) as [rs|] eqn:Hl; [|discriminate].
  injection H as <-. destruct k as [|k].
  - injection Hk as <-. exists r. now rewrite Z.add_0_r.
  - destruct (IH (i + 1) rs Hl k x Hk) as (r' & Hr & Hf).
    exists r'. split; [exact Hr|].
    replace (i + Z.of_nat (S k)) with (i + 1 + Z.of_nat k) by lia. exact Hf.
Qed.

Lemma collect_enumerate_length {A} (f : Z -> A -> result string) l :
  forall i rows, collect_enumerate i f l = Ok rows -> length rows = length l.
Proof.
  induction l as [|y l IH]; intros i rows H.
  - now injection H as <-.
  - cbn [collect_enumerate] in H. destruct (f i y); [|discriminate].
    cbn [bind] in H.
    destruct (collect_enumerate (i + 1) f l) as [rs|] eqn:Hl; [|discriminate].
    injection H as <-. cbn. f_equal. exact (IH _ _ Hl).
Qed.

Lemma srt_line_cue i s r :
  srt_line i s = Ok r ->
  exists start_time end_time, r = srt_cue i start_time end_time (strip (text s)).
Proof.
  unfold srt_line. intros H.
  destruct (to_ms (start s)); [|discriminate]. cbn [bind] in H.
  destruct (ms_to_srt_time _) as [st|]; [|discriminate]. cbn [bind] in H.
  destruct (to_ms (end_ s)); [|discriminate]. cbn [bind] in H.
  destruct (ms_to_srt_time _) as [et|]; [|discriminate]. cbn [bind] in H.
  injection H as <-. now exists st, et.
Qed.

Lemma vtt_line_cue s r :
  vtt_line s = Ok r ->
  exists start_time end_time, r = vtt_cue start_time end_time (strip (text s)).
Proof.
  unfold vtt_line. intros H.
  destruct (to_ms (start s)); [|discriminate]. cbn [bind] in H.
  destruct (ms_to_vtt_time _) as [st|]; [|discriminate]. cbn [bind] in H.
  destruct (to_ms (end_ s)); [|discriminate]. cbn [bind] in H.
  destruct (ms_to_vtt_time _) as [et|]; [|discriminate]. cbn [bind] in H.
  injection H as <-. now exists st, et.
Qed.

Lemma tsv_body_line f :
  forall (s : segment) r w, tsv_line s = Ok r ->
    (start_ms <- lift (to_ms (start s)) ;;
     end_ms <- lift (to_ms (end_ s)) ;;
     write f (tsv_row start_ms end_ms (strip (text s)))) w = write f r w.
Proof.
  intros s r w Hs. unfold tsv_line in Hs. unfold pbind, lift.
  destruct (to_ms (start s)); [|discriminate].
  destruct (to_ms (end_ s)); [|discriminate].
  now injection Hs as <-.
Qed.

Lemma tsv_body_raises f :
  forall (s : segment) e w, tsv_line s = Raise e ->
    (start_ms <- lift (to_ms (start s)) ;;
     end_ms <- lift (to_ms (end_ s)) ;;
     write f (tsv_row start_ms end_ms (strip (text s)))) w = Some (w, Raise e).
Proof.
  intros s e w Hs. unfold tsv_line in Hs. unfold pbind, lift.
  destruct (to_ms (start s)); [|now injection Hs as <-]. cbn [bind] in Hs.
  destruct (to_ms (end_ s)); [discriminate|now injection Hs as <-].
Qed.

(** [save_tsv] on a list whose first unconvertible segment is [bad]. *)
Lemma save_tsv_stops enc good bad rest filename w rows e :
  collect tsv_line good = Ok rows ->
  Forall (fun r => encodable enc r = true) rows ->
  tsv_line bad = Raise e ->
  FwMp4.save_tsv enc (good ++ bad :: rest) filename w
  = Some (World (<[filename := TextFile enc (tsv_header +:+ join rows)]> (fs w))
            (trace w ++ EvOpen filename enc :: EvWrite filename tsv_header
             :: map (EvWrite filename) rows),
          Raise e).
Proof.
  intros Hrows Henc Hbad. unfold FwMp4.save_tsv.
  unfold pbind at 1. unfold open_w. unfold pbind at 1.
  erewrite write_ok;
    [|cbn; apply lookup_insert_eq|apply header_encodable].
  unfold pbind at 1.
  rewrite (for_each_stops _ tsv_line filename enc (tsv_body_line filename)
             good bad rest rows _ ("" +:+ tsv_header) e Hrows Henc);
    [|cbn; apply lookup_insert_eq
     |intros w1 _; exact (tsv_body_raises filename bad e w1 Hbad)].
  cbn [fs trace].
  rewrite !insert_insert_eq, <- !app_assoc. cbn [app]. rewrite append_nil_l.
  reflexivity.
Qed.

Lemma save_txt_stops enc good bad rest filename w :
  Forall (fun r => encodable enc r = true) (map txt_chunk good) ->
  encodable enc (txt_chunk bad) = false ->
  FwMp4.save_txt enc (good ++ bad :: rest) filename w
  = Some (World (<[filename := TextFile enc (join (map txt_chunk good))]> (fs w))
            (trace w ++ EvOpen filename enc
             :: map (EvWrite filename) (map txt_chunk good)),
          Raise UnicodeEncodeError).
Proof.
  intros Henc Hbad. unfold FwMp4.save_txt.
  unfold pbind at 1. unfold open_w. unfold pbind at 1.
  assert (Hline : forall (s : segment) r w0,
            Ok (txt_chunk s) = Ok r ->
            write filename (strip (text s) +:+ " ") w0 = write filename r w0)
    by (clear; now intros s r w0 [= <-]).
  rewrite (for_each_stops _ (fun s => Ok (txt_chunk s)) filename enc Hline
             good bad rest (map txt_chunk good) _ "" UnicodeEncodeError
             (collect_total _ _) Henc);
    [|cbn; apply lookup_insert_eq
     |intros w1 Hw1; unfold write; rewrite Hw1;
      fold (txt_chunk bad); rewrite Hbad; reflexivity].
  cbn [fs trace].
  rewrite !insert_insert_eq, <- !app_assoc. cbn [app]. rewrite append_nil_l.
  reflexivity.
Qed.

Lemma lines_header_first body :
  exists rest, lines (vtt_header +:+ body) = "WEBVTT" :: "" :: rest.
Proof.
  exists (lines body). unfold lines, vtt_header.
  rewrite !append_assoc.
  rewrite (lines_from_line "WEBVTT" "" (nl +:+ body)) by reflexivity.
  rewrite append_nil_l.
  change (nl +:+ body) with ("" +:+ nl +:+ body).
  rewrite (lines_from_line "" "" body) by reflexivity.
  reflexivity.
Qed.

End WriterFacts.

Module BatchEdges.
Import Codec TextFacts FileFacts Render TsvFacts BatchFacts WriterFacts.

(** [int(t * 1000)] raises nothing but [ValueError] (not a number) and
    [OverflowError] (infinite). *)
Lemma to_ms_raises t e :
  to_ms t = Raise e -> e = ValueError \/ e = OverflowError.
Proof.
  unfold to_ms. rewrite (FloatFacts.of_int_small 1000) by lia. cbn [bind].
  destruct (float_mul t (Fin (1000 * one))); cbn [int_of_float];
    intros H; inversion H; auto.
Qed.

Lemma tsv_line_raises s e :
  tsv_line s = Raise e -> e = ValueError \/ e = OverflowError.
Proof.
  unfold tsv_line. destruct (to_ms (start s)) eqn:E1; cbn [bind].
  - destruct (to_ms (end_ s)) eqn:E2; cbn [bind]; [discriminate|].
    intros [= <-]. exact (to_ms_raises _ _ E2).
  - intros [= <-]. exact (to_ms_raises _ _ E1).
Qed.

Lemma four_files_again enc t1 t2 t3 t4 base a b c d :
  four_files enc t1 t2 t3 t4 (four_files enc t1 t2 t3 t4 base a b c d) a b c d
  = four_files enc t1 t2 t3 t4 base a b c d.
Proof.
  apply map_eq. intros k. unfold four_files. rewrite !lookup_insert.
  repeat case_decide; reflexivity.
Qed.

Lemma transcribe_save_txt_run enc tr filename w :
  encodable enc (whole_text tr) = true ->
  Transcribe.save_txt enc tr filename w
  = Some (World (<[filename := TextFile enc (whole_text tr)]> (fs w))
            (trace w ++ [EvOpen filename enc; EvWrite filename (whole_text tr);
                         EvPrint ("Saved " +:+ filename)]),
          Ok tt).
Proof.
  intros He. unfold Transcribe.save_txt.
  unfold pbind at 1. unfold open_w. unfold pbind at 1.
  erewrite write_ok; [|cbn; apply lookup_insert_eq|exact He].
  unfold print, emit. cbn [fs trace].
  rewrite insert_insert_eq, <- !app_assoc, append_nil_l. reflexivity.
Qed.

End BatchEdges.

(** X3.  [save_srt] numbers the cues from 1 in the order of the segments:
    when every segment renders and the text can be encoded, the file is
    the concatenation of one cue per segment, and the cue of the segment
    at position [k] (counted from 0) carries the number [k + 1], the two
    SRT timestamps of the segment's start and end in milliseconds, and
    the stripped text.  [transcribe.py]'s [save_srt] does the same on
    [result["segments"]]. *)
Theorem save_srt_numbers_cues_from_one
    (enc : encoding) (segs : list segment) (filename whole : string)
    (w : world) (rows : list string) :
  Render.collect_enumerate 1 Render.srt_line segs = Ok rows ->
  Forall (fun r => Codec.encodable enc r = true) rows ->
  let done :=
    Some (World (<[filename := TextFile enc (Render.join rows)]> (fs w))
            (trace w ++ EvOpen filename enc
             :: map (EvWrite filename) rows ++ [EvPrint ("Saved " +:+ filename)]),
          Ok tt) in
  FwMp4.save_srt enc segs filename w = done
  /\ Transcribe.save_srt enc (Transcript segs whole) filename w = done
  /\ length rows = length segs
  /\ forall (k : nat) seg, segs !! k = Some seg ->
       exists start_ms end_ms start_time end_time,
         to_ms (start seg) = Ok start_ms /\ ms_to_srt_time start_ms = Ok start_time
         /\ to_ms (end_ seg) = Ok end_ms /\ ms_to_srt_time end_ms = Ok end_time
         /\ rows !! k
            = Some (srt_cue (Z.of_nat k + 1) start_time end_time (strip (text seg))).
Proof.
  intros Hrows Henc done.
  assert (Hrun : FwMp4.save_srt enc segs filename w = done)
    by exact (BatchFacts.save_srt_run enc segs filename w rows Hrows Henc).
  split; [exact Hrun|]. split; [exact Hrun|]. split.
  - exact (WriterFacts.collect_enumerate_length _ _ _ _ Hrows).
  - intros k seg Hk.
    destruct (WriterFacts.collect_enumerate_lookup _ _ _ _ Hrows k seg Hk)
      as (r & Hr & Hline).
    unfold Render.srt_line in Hline.
    destruct (to_ms (start seg)) as [a|] eqn:E1; [|discriminate].
    cbn [bind] in Hline.
    destruct (ms_to_srt_time a) as [st|] eqn:E2; [|discriminate].
    cbn [bind] in Hline.
    destruct (to_ms (end_ seg)) as [b|] eqn:E3; [|discriminate].
    cbn [bind] in Hline.
    destruct (ms_to_srt_time b) as [et|] eqn:E4; [|discriminate].
    cbn [bind] in Hline.
    injection Hline as <-. exists a, b, st, et.
    split; [reflexivity|]. split; [exact E2|]. split; [reflexivity|].
    split; [exact E4|]. rewrite Hr. do 2 f_equal. lia.
Qed.

Lemma save_srt_numbers_cues_witness :
  exists w',
    FwMp4.save_srt ASCII (Sample.hello ++ Sample.hello) "out.srt" empty_world
    = Some (w', Ok tt)
    /\ fs w' !! "out.srt"
       = Some (TextFile ASCII
                 (srt_cue 1 "00:00:00,000" "00:00:01,000" "hello"
                  +:+ srt_cue 2 "00:00:00,000" "00:00:01,000" "hello")).
Proof.
  assert (H1 : Render.collect_enumerate 1 Render.srt_line (Sample.hello ++ Sample.hello)
               = Ok [srt_cue 1 "00:00:00,000" "00:00:01,000" "hello";
                     srt_cue 2 "00:00:00,000" "00:00:01,000" "hello"])
    by (vm_compute; reflexivity).
  assert (H2 : Forall (fun r => Codec.encodable ASCII r = true)
                 [srt_cue 1 "00:00:00,000" "00:00:01,000" "hello";
                  srt_cue 2 "00:00:00,000" "00:00:01,000" "hello"])
    by (repeat constructor).
  destruct (save_srt_numbers_cues_from_one ASCII _ "out.srt" "" empty_world _ H1 H2)
    as (E & _).
  eexists. split; [exact E|]. cbn [fs]. rewrite lookup_insert_eq.
  vm_compute. reflexivity.
Defined.

(** X4.  [save_vtt] writes the header [WEBVTT] and a blank line before
    anything else, then one cue per segment in order, each made of the
    two VTT timestamps and the stripped text: whatever the segments are,
    the first two lines of the file are [WEBVTT] and the empty line. *)
Theorem save_vtt_header_then_cues
    (enc : encoding) (segs : list segment) (filename whole : string)
    (w : world) (rows : list string) :
  Render.collect Render.vtt_line segs = Ok rows ->
  Forall (fun r => Codec.encodable enc r = true) rows ->
  let done :=
    Some (World (<[filename := TextFile enc (vtt_header +:+ Render.join rows)]> (fs w))
            (trace w ++ EvOpen filename enc :: EvWrite filename vtt_header
             :: map (EvWrite filename) rows ++ [EvPrint ("Saved " +:+ filename)]),
          Ok tt) in
  FwMp4.save_vtt enc segs filename w = done
  /\ Transcribe.save_vtt enc (Transcript segs whole) filename w = done
  /\ length rows = length segs
  /\ (exists rest, lines (vtt_header +:+ Render.join rows) = "WEBVTT" :: "" :: rest)
  /\ forall (k : nat) seg, segs !! k = Some seg ->
       exists start_ms end_ms start_time end_time,
         to_ms (start seg) = Ok start_ms /\ ms_to_vtt_time start_ms = Ok start_time
         /\ to_ms (end_ seg) = Ok end_ms /\ ms_to_vtt_time end_ms = Ok end_time
         /\ rows !! k = Some (vtt_cue start_time end_time (strip (text seg))).
Proof.
  intros Hrows Henc done.
  assert (Hrun : FwMp4.save_vtt enc segs filename w = done)
    by exact (BatchFacts.save_vtt_run enc segs filename w rows Hrows Henc).
  split; [exact Hrun|]. split; [exact Hrun|]. split; [|split].
  - exact (TsvFacts.collect_length _ _ _ Hrows).
  - apply WriterFacts.lines_header_first.
  - intros k seg Hk.
    destruct (WriterFacts.collect_lookup _ _ _ Hrows k seg Hk) as (r & Hr & Hline).
    unfold Render.vtt_line in Hline.
    destruct (to_ms (start seg)) as [a|] eqn:E1; [|discriminate].
    cbn [bind] in Hline.
    destruct (ms_to_vtt_time a) as [st|] eqn:E2; [|discriminate].
    cbn [bind] in Hline.
    destruct (to_ms (end_ seg)) as [b|] eqn:E3; [|discriminate].
    cbn [bind] in Hline.
    destruct (ms_to_vtt_time b) as [et|] eqn:E4; [|discriminate].
    cbn [bind] in Hline.
    injection Hline as <-. exists a, b, st, et.
    split; [reflexivity|]. split; [exact E2|]. split; [reflexivity|].
    split; [exact E4|]. exact Hr.
Qed.

Lemma save_vtt_header_then_cues_witness :
  exists w',
    FwMp4.save_vtt ASCII Sample.hello "out.vtt" empty_world = Some (w', Ok tt)
    /\ fs w' !! "out.vtt"
       = Some (TextFile ASCII
                 ("WEBVTT" +:+ nl +:+ nl +:+ "00:00.000 --> 00:01.000" +:+ nl
                  +:+ "hello" +:+ nl +:+ nl)).
Proof.
  assert (H1 : Render.collect Render.vtt_line Sample.hello
               = Ok [vtt_cue "00:00.000" "00:01.000" "hello"])
    by (vm_compute; reflexivity).
  assert (H2 : Forall (fun r => Codec.encodable ASCII r = true)
                 [vtt_cue "00:00.000" "00:01.000" "hello"])
    by (repeat constructor).
  destruct (save_vtt_header_then_cues ASCII _ "out.vtt" "" empty_world _ H1 H2)
    as (E & _).
  eexists. split; [exact E|]. cbn [fs]. rewrite lookup_insert_eq.
  vm_compute. reflexivity.
Defined.

(** X5.  [save_tsv] stops at the first segment whose start or end is not
    a finite number: [int(...)] raises [ValueError] (not a number) or
    [OverflowError] (infinite), the exception leaves [save_tsv], the file
    keeps the header and the rows of the segments before that one, and
    the line [Saved ...] is not printed. *)
Theorem save_tsv_stops_at_first_bad_time
    (enc : encoding) (good : list segment) (bad : segment) (rest : list segment)
    (filename : string) (w : world) (rows : list string) (e : exn) :
  Render.collect Render.tsv_line good = Ok rows ->
  Forall (fun r => Codec.encodable enc r = true) rows ->
  Render.tsv_line bad = Raise e ->
  FwMp4.save_tsv enc (good ++ bad :: rest) filename w
  = Some (World (<[filename := TextFile enc (tsv_header +:+ Render.join rows)]> (fs w))
            (trace w ++ EvOpen filename enc :: EvWrite filename tsv_header
             :: map (EvWrite filename) rows),
          Raise e)
  /\ (e = ValueError \/ e = OverflowError)
  /\ length rows = length good.
Proof.
  intros Hrows Henc Hbad. split; [|split].
  - exact (WriterFacts.save_tsv_stops enc good bad rest filename w rows e
             Hrows Henc Hbad).
  - exact (BatchEdges.tsv_line_raises bad e Hbad).
  - exact (TsvFacts.collect_length _ _ _ Hrows).
Qed.

Lemma save_tsv_stops_witness :
  FwMp4.save_tsv UTF8 (Sample.hello ++ Segment NaN (Fin one) "lost" :: Sample.hello)
    "out.tsv" empty_world
  = Some (World {[ "out.tsv" := TextFile UTF8
                     (tsv_header +:+ "0" +:+ tab +:+ "1000" +:+ tab +:+ "hello" +:+ nl) ]}
            [EvOpen "out.tsv" UTF8; EvWrite "out.tsv" tsv_header;
             EvWrite "out.tsv" ("0" +:+ tab +:+ "1000" +:+ tab +:+ "hello" +:+ nl)],
          Raise ValueError).
Proof.
  assert (H1 : Render.collect Render.tsv_line Sample.hello
               = Ok ["0" +:+ tab +:+ "1000" +:+ tab +:+ "hello" +:+ nl])
    by (vm_compute; reflexivity).
  assert (H2 : Forall (fun r => Codec.encodable UTF8 r = true)
                 ["0" +:+ tab +:+ "1000" +:+ tab +:+ "hello" +:+ nl])
    by (repeat constructor).
  assert (H3 : Render.tsv_line (Segment NaN (Fin one) "lost") = Raise ValueError)
    by (vm_compute; reflexivity).
  destruct (save_tsv_stops_at_first_bad_time UTF8 _ _ Sample.hello "out.tsv"
              empty_world _ _ H1 H2 H3) as (E & _).
  rewrite E. vm_compute. reflexivity.
Defined.

(** X6.  The batch script writes its four files one after the other, so
    an exception in [save_tsv] leaves them uneven: when the text of every
    segment can be encoded and [bad] is the first segment whose start or
    end is not a finite number, the four calls at the end of [main] end
    with that exception, the TXT file holds the text of all segments
    (also of [bad] and of those after it), the TSV file holds the header
    and the rows before [bad], and the SRT and VTT files are not
    touched. *)
Theorem save_all_stops_in_the_second_file
    (enc : encoding) (good : list segment) (bad : segment) (rest : list segment)
    (output_dir base_name : string) (w : world) (rows : list string) (e : exn) :
  let segs := good ++ bad :: rest in
  let txt_f := joinpath output_dir (base_name +:+ ".txt") in
  let tsv_f := joinpath output_dir (base_name +:+ ".tsv") in
  let srt_f := joinpath output_dir (base_name +:+ ".srt") in
  let vtt_f := joinpath output_dir (base_name +:+ ".vtt") in
  Forall (fun r => Codec.encodable enc r = true) (map Render.txt_chunk segs) ->
  Render.collect Render.tsv_line good = Ok rows ->
  Forall (fun r => Codec.encodable enc r = true) rows ->
  Render.tsv_line bad = Raise e ->
  exists w',
    FwMp4.save_all enc segs output_dir base_name w = Some (w', Raise e)
    /\ fs w' !! txt_f = Some (TextFile enc (Render.join (map Render.txt_chunk segs)))
    /\ fs w' !! tsv_f = Some (TextFile enc (tsv_header +:+ Render.join rows))
    /\ fs w' !! srt_f = fs w !! srt_f
    /\ fs w' !! vtt_f = fs w !! vtt_f.
Proof.
  intros segs txt_f tsv_f srt_f vtt_f Htxt Hrows Henc Hbad.
  pose proof (PathFacts.outputs_distinct output_dir base_name) as D.
  fold txt_f tsv_f srt_f vtt_f in D.
  destruct (FourFiles.apart _ _ _ _ D) as (N12 & N13 & N14 & N23 & N24 & N34).
  unfold FwMp4.save_all. fold txt_f tsv_f srt_f vtt_f.
  unfold pbind at 1. rewrite (BatchFacts.save_txt_run enc segs txt_f w Htxt).
  unfold pbind at 1. unfold segs at 2.
  rewrite (WriterFacts.save_tsv_stops enc good bad rest tsv_f _ rows e
             Hrows Henc Hbad).
  eexists. split; [reflexivity|]. cbn [fs trace].
  split; [|split; [|split]].
  - rewrite lookup_insert_ne by congruence. apply lookup_insert_eq.
  - apply lookup_insert_eq.
  - now rewrite !lookup_insert_ne by congruence.
  - now rewrite !lookup_insert_ne by congruence.
Qed.

Lemma save_all_stops_witness :
  exists w',
    FwMp4.save_all UTF8
      (Sample.hello ++ Segment NaN (Fin one) "lost" :: Sample.hello)
      "out" "talk" empty_world
    = Some (w', Raise ValueError)
    /\ fs w' !! "out/talk.txt" = Some (TextFile UTF8 "hello lost hello ")
    /\ fs w' !! "out/talk.srt" = None.
Proof.
  assert (H0 : Forall (fun r => Codec.encodable UTF8 r = true)
                 (map Render.txt_chunk
                    (Sample.hello ++ Segment NaN (Fin one) "lost" :: Sample.hello)))
    by (repeat constructor).
  assert (H1 : Render.collect Render.tsv_line Sample.hello
               = Ok ["0" +:+ tab +:+ "1000" +:+ tab +:+ "hello" +:+ nl])
    by (vm_compute; reflexivity).
  assert (H2 : Forall (fun r => Codec.encodable UTF8 r = true)
                 ["0" +:+ tab +:+ "1000" +:+ tab +:+ "hello" +:+ nl])
    by (repeat constructor).
  assert (H3 : Render.tsv_line (Segment NaN (Fin one) "lost") = Raise ValueError)
    by (vm_compute; reflexivity).
  destruct (save_all_stops_in_the_second_file UTF8 _ _ Sample.hello "out" "talk"
              empty_world _ _ H0 H1 H2 H3) as (w' & E & T1 & _ & T3 & _).
  exists w'. split; [exact E|]. split; [exact T1|exact T3].
Defined.

(** X7.  [save_txt] stops at the first segment whose text the encoding of
    the file has no bytes for: [write] raises [UnicodeEncodeError], the
    exception leaves [save_txt], and the file keeps the text of the
    segments before that one.  (The incremental script opens its files as
    UTF-8 and cannot fail this way.) *)
Theorem save_txt_stops_at_unencodable_text
    (enc : encoding) (good : list segment) (bad : segment) (rest : list segment)
    (filename : string) (w : world) :
  Forall (fun r => Codec.encodable enc r = true) (map Render.txt_chunk good) ->
  Codec.encodable enc (Render.txt_chunk bad) = false ->
  FwMp4.save_txt enc (good ++ bad :: rest) filename w
  = Some (World (<[filename := TextFile enc (Render.join (map Render.txt_chunk good))]>
                   (fs w))
            (trace w ++ EvOpen filename enc
             :: map (EvWrite filename) (map Render.txt_chunk good)),
          Raise UnicodeEncodeError)
  /\ enc <> UTF8.
Proof.
  intros Hgood Hbad. split.
  - exact (WriterFacts.save_txt_stops enc good bad rest filename w Hgood Hbad).
  - intros ->. now rewrite TextFacts.encodable_utf8 in Hbad.
Qed.

Lemma save_txt_stops_witness :
  FwMp4.save_txt ASCII (Sample.hello ++ Sample.cafe) "out.txt" empty_world
  = Some (World {[ "out.txt" := TextFile ASCII "hello " ]}
            [EvOpen "out.txt" ASCII; EvWrite "out.txt" "hello "],
          Raise UnicodeEncodeError).
Proof.
  assert (H1 : Forall (fun r => Codec.encodable ASCII r = true)
                 (map Render.txt_chunk Sample.hello))
    by (repeat constructor).
  assert (H2 : Codec.encodable ASCII
                 (Render.txt_chunk (Segment (Fin 0) (Fin one) ("caf" +:+ Sample.e_acute)))
               = false)
    by (vm_compute; reflexivity).
  destruct (save_txt_stops_at_unencodable_text ASCII Sample.hello _ [] "out.txt"
              empty_world H1 H2) as (E & _).
  change (Sample.hello ++ Sample.cafe)
    with (Sample.hello ++ [Segment (Fin 0) (Fin one) ("caf" +:+ Sample.e_acute)]).
  rewrite E. vm_compute. reflexivity.
Defined.

(** X8.  The batch writers open their files with mode ['w'], so what the
    files held before does not matter and a second run changes nothing:
    when every segment renders and the text can be encoded, writing the
    four files and then writing them again from the same segments returns
    normally both times and leaves the file system exactly as the first
    run left it. *)
Theorem save_all_twice_is_once
    (enc : encoding) (segs : list segment) (output_dir base_name : string)
    (w : world) (rows2 rows3 rows4 : list string) :
  Render.collect Render.tsv_line segs = Ok rows2 ->
  Render.collect_enumerate 1 Render.srt_line segs = Ok rows3 ->
  Render.collect Render.vtt_line segs = Ok rows4 ->
  Codec.encodable enc (Render.join (map Render.txt_chunk segs)) = true ->
  Codec.encodable enc (tsv_header +:+ Render.join rows2) = true ->
  Codec.encodable enc (Render.join rows3) = true ->
  Codec.encodable enc (vtt_header +:+ Render.join rows4) = true ->
  exists w1 w2,
    FwMp4.save_all enc segs output_dir base_name w = Some (w1, Ok tt)
    /\ FwMp4.save_all enc segs output_dir base_name w1 = Some (w2, Ok tt)
    /\ fs w2 = fs w1.
Proof.
  intros H2 H3 H4 E1 E2 E3 E4.
  destruct (BatchFacts.save_all_run enc segs output_dir base_name w _ _ _
              H2 H3 H4 E1 E2 E3 E4) as (w1 & R1 & F1).
  destruct (BatchFacts.save_all_run enc segs output_dir base_name w1 _ _ _
              H2 H3 H4 E1 E2 E3 E4) as (w2 & R2 & F2).
  exists w1, w2. split; [exact R1|]. split; [exact R2|].
  rewrite F2, F1. apply BatchEdges.four_files_again.
Qed.

Lemma save_all_twice_witness :
  exists w1 w2,
    FwMp4.save_all ASCII Sample.hello "out" "talk" empty_world = Some (w1, Ok tt)
    /\ FwMp4.save_all ASCII Sample.hello "out" "talk" w1 = Some (w2, Ok tt)
    /\ fs w2 = fs w1.
Proof.
  assert (H2 : Render.collect Render.tsv_line Sample.hello
               = Ok ["0" +:+ tab +:+ "1000" +:+ tab +:+ "hello" +:+ nl])
    by (vm_compute; reflexivity).
  assert (H3 : Render.collect_enumerate 1 Render.srt_line Sample.hello
               = Ok [srt_cue 1 "00:00:00,000" "00:00:01,000" "hello"])
    by (vm_compute; reflexivity).
  assert (H4 : Render.collect Render.vtt_line Sample.hello
               = Ok [vtt_cue "00:00.000" "00:01.000" "hello"])
    by (vm_compute; reflexivity).
  exact (save_all_twice_is_once ASCII Sample.hello "out" "talk" empty_world
           _ _ _ H2 H3 H4 eq_refl eq_refl eq_refl eq_refl).
Defined.

(** X9.  A transcript without segments still gives four files: the batch
    writers return normally whatever the encoding, the TXT and SRT files
    are created empty, the TSV file holds its header line and the VTT
    file its header. *)
Theorem save_all_on_no_segments
    (enc : encoding) (output_dir base_name : string) (w : world) :
  exists w',
    FwMp4.save_all enc [] output_dir base_name w = Some (w', Ok tt)
    /\ fs w' =
       four_files enc
         (joinpath output_dir (base_name +:+ ".txt"))
         (joinpath output_dir (base_name +:+ ".tsv"))
         (joinpath output_dir (base_name +:+ ".srt"))
         (joinpath output_dir (base_name +:+ ".vtt")) (fs w)
         "" tsv_header "" vtt_header.
Proof.
  destruct (BatchFacts.save_all_run enc [] output_dir base_name w [] [] []
              eq_refl eq_refl eq_refl eq_refl) as (w' & R & F).
  - cbn [Render.join fold_right]. rewrite TextFacts.append_nil_r.
    apply TsvFacts.header_encodable.
  - reflexivity.
  - cbn [Render.join fold_right]. rewrite TextFacts.append_nil_r.
    apply BatchFacts.vtt_header_encodable.
  - exists w'. split; [exact R|]. rewrite F. cbn [Render.join fold_right map].
    now rewrite !TextFacts.append_nil_r.
Qed.

(** X10.  The two [save_txt] functions differ.  The one of the
    faster-whisper scripts writes, for each segment in order, the stripped
    text followed by one space, and looks at no start or end time; the
    one of the openai-whisper scripts writes [result["text"]] as it is,
    once.  Each returns normally when the encoding has bytes for what it
    writes. *)
Theorem save_txt_writes_the_text
    (enc : encoding) (segs : list segment) (whole filename : string) (w : world) :
  (Forall (fun r => Codec.encodable enc r = true) (map Render.txt_chunk segs) ->
   FwMp4.save_txt enc segs filename w
   = Some (World (<[filename := TextFile enc (Render.join (map Render.txt_chunk segs))]>
                    (fs w))
             (trace w ++ EvOpen filename enc
              :: map (EvWrite filename) (map Render.txt_chunk segs)
              ++ [EvPrint ("Saved " +:+ filename)]),
           Ok tt))
  /\ (Codec.encodable enc whole = true ->
      Transcribe.save_txt enc (Transcript segs whole) filename w
      = Some (World (<[filename := TextFile enc whole]> (fs w))
                (trace w ++ [EvOpen filename enc; EvWrite filename whole;
                             EvPrint ("Saved " +:+ filename)]),
              Ok tt)).
Proof.
  split.
  - apply BatchFacts.save_txt_run.
  - intros He.
    exact (BatchEdges.transcribe_save_txt_run enc (Transcript segs whole) filename w He).
Qed.

Lemma save_txt_writes_the_text_witness :
  FwMp4.save_txt ASCII (Segment NaN NaN "  one  " :: Sample.hello) "out.txt" empty_world
  = Some (World {[ "out.txt" := TextFile ASCII "one hello " ]}
            [EvOpen "out.txt" ASCII; EvWrite "out.txt" "one ";
             EvWrite "out.txt" "hello "; EvPrint "Saved out.txt"],
          Ok tt)
  /\ Transcribe.save_txt ASCII (Transcript [] "  one  hello") "out.txt" empty_world
     = Some (World {[ "out.txt" := TextFile ASCII "  one  hello" ]}
               [EvOpen "out.txt" ASCII; EvWrite "out.txt" "  one  hello";
                EvPrint "Saved out.txt"],
             Ok tt).
Proof.
  assert (H1 : Forall (fun r => Codec.encodable ASCII r = true)
                 (map Render.txt_chunk (Segment NaN NaN "  one  " :: Sample.hello)))
    by (repeat constructor).
  assert (H2 : Codec.encodable ASCII "  one  hello" = true) by reflexivity.
  split.
  - rewrite (proj1 (save_txt_writes_the_text ASCII _ "" "out.txt" empty_world) H1).
    vm_compute. reflexivity.
  - rewrite (proj2 (save_txt_writes_the_text ASCII [] _ "out.txt" empty_world) H2).
    vm_compute. reflexivity.
Defined.

Module SessionFacts.
Import Effects EffectFacts GuardEffects FwMp4Opt Session Guard.

Lemma poll_only (Q : event -> Prop) fuel nv T L p :
  (forall c ok, c <> NvmlShutdown -> Q (EvNvml c ok)) ->
  (forall m, Q (EvLog WARNING m)) -> Q (EvSleep p) ->
  forall i, only Q (poll fuel nv T L p i).
Proof.
  intros Hn Hl Hs. induction fuel as [|fuel IH]; intros i; cbn [poll].
  - intros w w' r H. discriminate.
  - apply only_bind; [apply nvml_read_only; now apply Hn|intros t].
    apply only_bind; [apply nvml_read_only; now apply Hn|intros u].
    destruct (_ && _); [|apply only_ret].
    apply only_bind; [apply only_emit, Hl|intros _].
    apply only_bind; [now apply sleep_only|intros _]. apply IH.
Qed.

(** How the polling loop can end: normally, with the [NVMLError] of a
    query, or with what [time.sleep] raised after a hot reading. *)
Lemma poll_outcome fuel nv T L p : forall i w w' r,
  poll fuel nv T L p i w = Some (w', r) ->
  r = Ok tt \/ r = Raise NVMLError
  \/ exists j e, hot_at nv T L j /\ r = Raise e
                 /\ refused (nv_monotonic nv j) p e.
Proof.
  induction fuel as [|fuel IH]; intros i w w' r H; cbn [poll] in H;
    [discriminate|].
  unfold pbind at 1 in H. unfold nvml_read in H.
  destruct (nv_temperature nv i) as [t|] eqn:Et;
    [|cbn in H; injection H as <- <-; auto].
  cbn in H. unfold pbind at 1 in H.
  destruct (nv_utilization nv i) as [u|] eqn:Eu;
    [|cbn in H; injection H as <- <-; auto].
  cbn in H.
  destruct ((t >? T) && (u >? L)) eqn:Eh; [|injection H as <- <-; auto].
  apply andb_prop in Eh. destruct Eh as [Eh1 Eh2].
  assert (Hhot : hot_at nv T L i).
  { exists t, u. split; [exact Et|]. split; [exact Eu|].
    split; cbn [fst snd]; apply Z.lt_gt, Z.gtb_lt; assumption. }
  unfold pbind at 1, log, emit in H. unfold pbind at 1 in H.
  destruct (GuardFacts.accepted_dec (nv_monotonic nv i) p) as [Ha|Hn].
  - rewrite (GuardFacts.sleep_accepted _ _ _ Ha) in H. cbv beta iota in H.
    exact (IH _ _ _ _ H).
  - destruct (GuardFacts.sleep_refused (nv_monotonic nv i) p
                (World (fs w)
                   (((trace w ++ [EvNvml NvmlDeviceGetTemperature true])
                     ++ [EvNvml NvmlDeviceGetUtilizationRates true])
                    ++ [EvLog WARNING (gpu_alert t u p)])) Hn)
      as (e & Es & Hr).
    cbn [fs trace] in H. rewrite Es in H. cbv beta iota in H.
    injection H as <- <-. right. right. exists i, e. auto.
Qed.

Lemma refused_exn m p e :
  refused m p e -> e = OverflowError \/ e = ValueError \/ e = OSError.
Proof. intros [[-> _]|[[-> _]|[-> _]]]; auto. Qed.

(** The [finally] clause: one call of [nvmlShutdown], whose error, if
    any, is swallowed. *)
Lemma shutdown_run ok w :
  try_except_pass (fun _ => true) (nvml_call_ NvmlShutdown ok) w
  = Some (World (fs w) (trace w ++ [EvNvml NvmlShutdown ok]), Ok tt).
Proof. destruct ok; reflexivity. Qed.

Lemma check_split fuel nv T L p w w' r :
  check_gpu_and_pause fuel nv T L p w = Some (w', r) ->
  exists w1 r1,
    try_except_pass is_nvml_error
      (nvml_call_ NvmlInit (nv_init nv) ;;
       nvml_call_ NvmlDeviceGetHandleByIndex (nv_handle nv) ;;
       poll fuel nv T L p 0)
      (World (fs w) (trace w ++ [EvCheckGpu T L p])) = Some (w1, r1)
    /\ w' = World (fs w1) (trace w1 ++ [EvNvml NvmlShutdown (nv_shutdown nv)])
    /\ r = r1.
Proof.
  unfold check_gpu_and_pause. unfold pbind at 1, emit. unfold try_finally.
  intros H.
  match type of H with
  | match ?m with _ => _ end = _ => destruct m as [[w1 r1]|] eqn:E; [|discriminate]
  end.
  rewrite shutdown_run in H. injection H as <- <-.
  now exists w1, r1.
Qed.

(** How a call of the guard can end: normally, or with what
    [time.sleep] raised after a hot reading. *)
Lemma check_outcome fuel nv T L p w w' r :
  check_gpu_and_pause fuel nv T L p w = Some (w', r) ->
  r = Ok tt
  \/ exists j e, hot_at nv T L j /\ r = Raise e
                 /\ refused (nv_monotonic nv j) p e.
Proof.
  intros H.
  destruct (check_split _ _ _ _ _ _ _ _ H) as (w1 & r1 & E & _ & ->).
  unfold try_except_pass in E.
  match type of E with
  | match ?m with _ => _ end = _ => destruct m as [[w2 r2]|] eqn:E2; [|discriminate]
  end.
  assert (Hr2 : r2 = Ok tt \/ r2 = Raise NVMLError
                \/ exists j e, hot_at nv T L j /\ r2 = Raise e
                               /\ refused (nv_monotonic nv j) p e).
  { unfold pbind at 1, nvml_call_ in E2. unfold pbind at 1, emit in E2.
    destruct (nv_init nv); [|cbn in E2; injection E2 as <- <-; auto].
    cbn in E2. unfold pbind at 1 2 in E2.
    destruct (nv_handle nv); [|cbn in E2; injection E2 as <- <-; auto].
    cbn in E2. exact (poll_outcome _ _ _ _ _ _ _ _ _ E2). }
  destruct Hr2 as [->|[->|(j & e & Hhot & -> & Hr)]].
  - injection E as _ <-. now left.
  - cbn in E. injection E as _ <-. now left.
  - right. exists j, e. split; [exact Hhot|]. split; [|exact Hr].
    destruct (refused_exn _ _ _ Hr) as [->|[->| ->]];
      cbn in E; injection E as _ <-; reflexivity.
Qed.

End SessionFacts.

(** X11.  [check_gpu_and_pause] closes its NVML session whatever happens:
    every call that comes to an end, normally or with an exception, has
    called [nvmlShutdown] exactly once, as the last thing it did (the
    [finally] clause), also when [nvmlInit] itself failed; and the call
    has left the file system alone. *)
Theorem check_gpu_and_pause_always_shuts_down
    (fuel : nat) (nv : nvml) (temp_threshold load_threshold pause_time : Z)
    (w w' : world) (r : result ()) :
  FwMp4Opt.check_gpu_and_pause fuel nv temp_threshold load_threshold pause_time w
  = Some (w', r) ->
  fs w' = fs w
  /\ exists tr,
       trace w'
       = trace w ++ EvCheckGpu temp_threshold load_threshold pause_time :: tr
                 ++ [EvNvml NvmlShutdown (nv_shutdown nv)]
       /\ Forall (fun e => Session.is_shutdown e = false) tr.
Proof.
  intros H. split; [exact (GuardEffects.check_keeps _ _ _ _ _ _ _ _ H)|].
  destruct (SessionFacts.check_split _ _ _ _ _ _ _ _ H) as (w1 & r1 & E & -> & _).
  assert (Hs : Effects.only (fun e => Session.is_shutdown e = false)
    (try_except_pass FwMp4Opt.is_nvml_error
       (nvml_call_ NvmlInit (nv_init nv);;
        nvml_call_ NvmlDeviceGetHandleByIndex (nv_handle nv);;
        FwMp4Opt.poll fuel nv temp_threshold load_threshold pause_time 0))).
  { apply EffectFacts.only_try_except.
    apply EffectFacts.only_bind; [now apply GuardEffects.nvml_call_only|intros _].
    apply EffectFacts.only_bind; [now apply GuardEffects.nvml_call_only|intros _].
    apply SessionFacts.poll_only; try reflexivity.
    intros [] ok Hc; try reflexivity. now contradiction Hc. }
  destruct (Hs _ _ _ E) as (tr & Et & F). cbn [trace] in Et |- *.
  exists tr. split; [|exact F]. rewrite Et, <- !app_assoc. reflexivity.
Qed.

Lemma check_gpu_and_pause_always_shuts_down_witness :
  exists w',
    FwMp4Opt.check_gpu_and_pause 1 (Nvml false true (fun _ => None) (fun _ => None) false (fun _ => 0))
      55 70 90 empty_world = Some (w', Ok tt)
    /\ fs w' = fs empty_world
    /\ exists tr,
         trace w' = [] ++ EvCheckGpu 55 70 90 :: tr ++ [EvNvml NvmlShutdown false]
         /\ Forall (fun e => Session.is_shutdown e = false) tr.
Proof.
  eexists. split; [vm_compute; reflexivity|].
  refine (check_gpu_and_pause_always_shuts_down 1
            (Nvml false true (fun _ => None) (fun _ => None) false (fun _ => 0))
            55 70 90 empty_world _ (Ok tt) _).
  vm_compute. reflexivity.
Defined.

(** X12.  Nothing but what [time.sleep] raises ever leaves
    [check_gpu_and_pause].  Whatever NVML answers, a call that comes to
    an end either returns normally, or some reading was above both
    thresholds and [time.sleep] refused [pause_time] after it: with
    [OverflowError] when [pause_time] is beyond 9223372036 seconds either
    way, with [ValueError] when it is negative within that range, with
    [OSError] when it is in range but the clock plus the pause does not
    fit 64 bits of nanoseconds.  An [NVMLError] never reaches the caller;
    and a [pause_time] that [time.sleep] takes at every poll gives a
    normal return.  ([pause_time] is an int that the warning renders.) *)
Theorem check_gpu_and_pause_raises_only_what_sleep_raises
    (fuel : nat) (nv : nvml) (temp_threshold load_threshold pause_time : Z)
    (w w' : world) (r : result ()) :
  Guard.renders pause_time ->
  FwMp4Opt.check_gpu_and_pause fuel nv temp_threshold load_threshold pause_time w
  = Some (w', r) ->
  (r = Ok tt
   \/ exists i e,
        Guard.hot_at nv temp_threshold load_threshold i
        /\ r = Raise e
        /\ Guard.refused (nv_monotonic nv i) pause_time e)
  /\ r <> Raise NVMLError
  /\ ((forall i, Guard.accepted (nv_monotonic nv i) pause_time) -> r = Ok tt).
Proof.
  intros _ H.
  pose proof (SessionFacts.check_outcome _ _ _ _ _ _ _ _ H) as Ho.
  split; [exact Ho|]. split.
  - destruct Ho as [->|(i & e & _ & -> & Hr)]; [discriminate|].
    destruct (SessionFacts.refused_exn _ _ _ Hr) as [->|[->| ->]]; discriminate.
  - intros Ha. destruct Ho as [->|(i & e & _ & _ & Hr)]; [reflexivity|].
    exfalso. exact (GuardFacts.refused_not_accepted _ _ _ Hr (Ha i)).
Qed.

Lemma check_gpu_and_pause_raises_only_witness :
  Guard.renders 9223372036
  /\ exists w',
       FwMp4Opt.check_gpu_and_pause 3 (Guard.healthy Sample.clock Sample.readings)
         55 70 9223372036 empty_world = Some (w', Raise OSError)
       /\ exists i,
            Guard.hot_at (Guard.healthy Sample.clock Sample.readings) 55 70 i
            /\ Guard.refused (Sample.clock i) 9223372036 OSError.
Proof.
  assert (Hr : Guard.renders 9223372036) by (vm_compute; reflexivity).
  assert (H : exists w',
    FwMp4Opt.check_gpu_and_pause 3 (Guard.healthy Sample.clock Sample.readings)
      55 70 9223372036 empty_world = Some (w', @Raise unit OSError))
    by (vm_compute; eexists; reflexivity).
  split; [exact Hr|]. destruct H as (w' & H). exists w'. split; [exact H|].
  destruct (proj1 (check_gpu_and_pause_raises_only_what_sleep_raises
                     _ _ _ _ _ _ _ _ Hr H)) as [Hok|(i & e & Hhot & He & Href)];
    [discriminate Hok|].
  injection He as <-. exists i. split; [exact Hhot|exact Href].
Defined.

(** X13.  A [--pause_time] that [time.sleep] refuses turns the first hot
    reading into a crash: when NVML starts up and the first poll is above
    both thresholds, the guard logs its warning, [time.sleep] raises
    ([ValueError] for a negative pause down to -9223372036,
    [OverflowError] beyond 9223372036 seconds either way, [OSError] when
    the clock plus the pause does not fit 64 bits of nanoseconds),
    [nvmlShutdown] is still called, and the exception leaves
    [check_gpu_and_pause] without any pause having been taken.
    ([pause_time] is an int that the warning renders.) *)
Theorem check_gpu_and_pause_refused_pause
    (fuel : nat) (nv : nvml) (temp_threshold load_threshold pause_time : Z)
    (t u : Z) (e : exn) (w : world) :
  nv_init nv = true -> nv_handle nv = true ->
  nv_temperature nv 0%nat = Some t -> nv_utilization nv 0%nat = Some u ->
  Guard.hot temp_threshold load_threshold (t, u) ->
  Guard.renders pause_time ->
  Guard.refused (nv_monotonic nv 0%nat) pause_time e ->
  FwMp4Opt.check_gpu_and_pause (S fuel) nv temp_threshold load_threshold pause_time w
  = Some (World (fs w)
            (trace w
             ++ Guard.prologue temp_threshold load_threshold pause_time
             ++ Guard.read_ok
             ++ [EvLog WARNING (FwMp4Opt.gpu_alert t u pause_time);
                 EvNvml NvmlShutdown (nv_shutdown nv)]),
          Raise e).
Proof.
  intros Hi Hh Ht Hu [H1 H2] _ Hp. cbn [fst snd] in H1, H2.
  rewrite (GuardFacts.check_unfold nv _ _ _ (S fuel) w Hi Hh).
  cbn [FwMp4Opt.poll]. rewrite Ht, Hu. unfold nvml_read.
  unfold pbind at 1. unfold pbind at 1, emit at 1, ret at 1. cbv beta iota.
  unfold pbind at 1. unfold pbind at 1, emit at 1, ret at 1. cbv beta iota.
  destruct (Z.gtb_spec t temp_threshold); [|lia].
  destruct (Z.gtb_spec u load_threshold); [|lia]. cbn [andb].
  unfold pbind at 1, log, emit. cbv beta iota. unfold pbind at 1.
  rewrite (GuardFacts.sleep_raises _ _ _ _ Hp). cbv beta iota. cbn [fs trace].
  rewrite <- !app_assoc.
  destruct (SessionFacts.refused_exn _ _ _ Hp) as [->|[->| ->]]; reflexivity.
Qed.

Lemma check_gpu_and_pause_refused_pause_witness :
  Guard.renders (-9223372037)
  /\ Guard.refused (Sample.clock 0) (-9223372037) OverflowError
  /\ FwMp4Opt.check_gpu_and_pause 1 (Guard.healthy Sample.clock Sample.readings)
       55 70 (-9223372037) empty_world
     = Some (World ∅
               [EvCheckGpu 55 70 (-9223372037); EvNvml NvmlInit true;
                EvNvml NvmlDeviceGetHandleByIndex true;
                EvNvml NvmlDeviceGetTemperature true;
                EvNvml NvmlDeviceGetUtilizationRates true;
                EvLog WARNING (FwMp4Opt.gpu_alert 80 99 (-9223372037));
                EvNvml NvmlShutdown true],
             Raise OverflowError).
Proof.
  assert (Hhot : Guard.hot 55 70 (80, 99)) by (split; reflexivity).
  assert (Hr : Guard.renders (-9223372037)) by (vm_compute; reflexivity).
  assert (Hp : Guard.refused (Sample.clock 0) (-9223372037) OverflowError)
    by (left; split; reflexivity).
  split; [exact Hr|]. split; [exact Hp|].
  exact (check_gpu_and_pause_refused_pause 0
           (Guard.healthy Sample.clock Sample.readings)
           55 70 (-9223372037) 80 99 OverflowError empty_world
           eq_refl eq_refl eq_refl eq_refl Hhot Hr Hp).
Defined.

Module IncrementalRuns.
Import Effects EffectFacts GuardEffects FourFiles Render Steps FwMp4Opt TextFacts.
Import WriterFacts SessionFacts Incremental.

Lemma write_incrementally_unfold fuel env args segs dir base w :
  write_incrementally fuel env args segs dir base w
  = for_each_enumerate 1 segs
      (process_segment fuel env args
         (joinpath dir (base +:+ ".txt")) (joinpath dir (base +:+ ".tsv"))
         (joinpath dir (base +:+ ".srt")) (joinpath dir (base +:+ ".vtt")))
      (opened dir base w).
Proof.
  pose proof (PathFacts.outputs_distinct dir base) as D.
  unfold write_incrementally, opened.
  set (txt_f := joinpath dir (base +:+ ".txt")) in *.
  set (tsv_f := joinpath dir (base +:+ ".tsv")) in *.
  set (srt_f := joinpath dir (base +:+ ".srt")) in *.
  set (vtt_f := joinpath dir (base +:+ ".vtt")) in *.
  unfold pbind at 1 2 3 4, open_w. cbn [fs trace].
  fold (four_files UTF8 txt_f tsv_f srt_f vtt_f (fs w) "" "" "" "").
  unfold pbind at 1.
  erewrite write_tsv by first [exact D | reflexivity].
  unfold pbind at 1.
  erewrite write_vtt by first [exact D | reflexivity].
  cbn [trace]. rewrite !append_nil_l, <- !app_assoc. reflexivity.
Qed.

Section Loop.
Context (fuel : nat) (env : environment) (args : arguments).
Context (txt_f tsv_f srt_f vtt_f : string).
Hypothesis distinct : NoDup [txt_f; tsv_f; srt_f; vtt_f].

Local Abbreviation cuda := (String.eqb (device args) "cuda").
Local Abbreviation files := (four_files UTF8 txt_f tsv_f srt_f vtt_f).
Local Abbreviation body := (process_segment fuel env args txt_f tsv_f srt_f vtt_f).
Local Abbreviation guard i :=
  (if cuda
   then check_gpu_and_pause fuel (gpu env (Z.to_nat (i - 1)))
          (temp_limit args) (load_limit args) (pause_time args)
   else ret tt).

(** The guard did not return: on cuda, [time.sleep] refused
    [pause_time] at some poll, and its exception is the result. *)
Local Abbreviation sleep_failed r :=
  (cuda = true
   /\ (r = Raise ValueError \/ r = Raise OverflowError \/ r = Raise OSError)
   /\ exists k j, ~ Guard.accepted (nv_monotonic (gpu env k) j)
                    (pause_time args)).

Lemma guard_outcome i w w1 r :
  guard i w = Some (w1, r) ->
  fs w1 = fs w /\ (r = Ok tt \/ sleep_failed r).
Proof using Type.
  destruct cuda; intros H.
  - split; [exact (check_keeps _ _ _ _ _ _ _ _ H)|].
    destruct (check_outcome _ _ _ _ _ _ _ _ H)
      as [->|(j & e & _ & -> & Hr)]; [now left|right].
    split; [reflexivity|]. split.
    + destruct (refused_exn _ _ _ Hr) as [->|[->| ->]]; auto.
    + exists (Z.to_nat (i - 1)), j.
      exact (GuardFacts.refused_not_accepted _ _ _ Hr).
  - injection H as <- <-. auto.
Qed.

(** A pass over a segment whose times cannot be converted writes
    nothing. *)
Lemma process_segment_bad_time i seg e w w' r :
  tsv_line seg = Raise e ->
  body i seg w = Some (w', r) ->
  fs w' = fs w /\ (r = Raise e \/ sleep_failed r).
Proof using Type.
  intros Hbad H. unfold process_segment in H. unfold pbind at 1 in H.
  destruct (guard i w) as [[w1 [[]|e1]]|] eqn:Hg; [| |discriminate].
  - destruct (guard_outcome _ _ _ _ Hg) as [Hfs _].
    unfold tsv_line in Hbad.
    destruct (to_ms (start seg)) as [a|e1].
    + destruct (to_ms (end_ seg)) as [b|e2]; [discriminate|].
      injection Hbad as ->. unfold pbind, lift in H. cbv beta iota in H.
      injection H as <- <-. auto.
    + injection Hbad as ->. unfold pbind, lift in H. cbv beta iota in H.
      injection H as <- <-. auto.
  - injection H as <- <-.
    destruct (guard_outcome _ _ _ _ Hg) as [Hfs [Hr|Hr]];
      [discriminate Hr|].
    split; [exact Hfs|right; exact Hr].
Qed.

(** A pass over a segment that renders, after a guard that returns. *)
Lemma process_segment_run i seg w base a b c d r2 r3 r4 :
  fs w = files base a b c d ->
  (exists wg, guard i w = Some (wg, Ok tt)) ->
  tsv_line seg = Ok r2 -> srt_line i seg = Ok r3 -> vtt_line seg = Ok r4 ->
  exists w',
    body i seg w = Some (w', Ok tt)
    /\ fs w' = files base (a +:+ txt_chunk seg) (b +:+ r2) (c +:+ r3) (d +:+ r4).
Proof using distinct.
  intros Hfs [wg Hg] H2 H3 H4.
  destruct (guard_outcome _ _ _ _ Hg) as [Hfg _]. rewrite Hfs in Hfg.
  unfold tsv_line in H2. unfold srt_line in H3. unfold vtt_line in H4.
  unfold process_segment. unfold pbind at 1. rewrite Hg.
  destruct (to_ms (start seg)) as [sm|]; [|discriminate].
  cbn [bind] in H2, H3, H4.
  destruct (to_ms (end_ seg)) as [em|]; [|discriminate].
  cbn [bind] in H2. injection H2 as <-.
  destruct (ms_to_srt_time sm) as [s1|] eqn:Es1; [|discriminate].
  cbn [bind] in H3.
  destruct (ms_to_srt_time em) as [e1|] eqn:Ee1; [|discriminate].
  cbn [bind] in H3. injection H3 as <-.
  destruct (ms_to_vtt_time sm) as [s2|] eqn:Es2; [|discriminate].
  cbn [bind] in H4.
  destruct (ms_to_vtt_time em) as [e2|] eqn:Ee2; [|discriminate].
  cbn [bind] in H4. injection H4 as <-.
  cbv beta iota.
  do 2 (unfold pbind at 1; unfold lift at 1; cbv beta iota).
  unfold pbind at 1.
  rewrite (write_txt _ _ _ _ distinct _ _ _ _ _ _ _ Hfg). cbv beta iota.
  unfold pbind at 1.
  erewrite write_tsv by first [exact distinct | reflexivity]. cbv beta iota.
  do 2 (unfold pbind at 1; unfold lift at 1; rewrite ?Es1, ?Ee1; cbv beta iota).
  unfold pbind at 1.
  erewrite write_srt by first [exact distinct | reflexivity]. cbv beta iota.
  do 2 (unfold pbind at 1; unfold lift at 1; rewrite ?Es2, ?Ee2; cbv beta iota).
  erewrite write_vtt by first [exact distinct | reflexivity].
  eexists. split; reflexivity.
Qed.

Lemma loop_run segs : forall i w base a b c d rows2 rows3 rows4,
  fs w = files base a b c d ->
  (forall j w0, i <= j < i + Z.of_nat (length segs) ->
                exists wg, guard j w0 = Some (wg, Ok tt)) ->
  collect tsv_line segs = Ok rows2 ->
  collect_enumerate i srt_line segs = Ok rows3 ->
  collect vtt_line segs = Ok rows4 ->
  exists w',
    for_each_enumerate i segs body w = Some (w', Ok tt)
    /\ fs w' = files base (a +:+ join (map txt_chunk segs)) (b +:+ join rows2)
                 (c +:+ join rows3) (d +:+ join rows4).
Proof using distinct.
  induction segs as [|seg segs IH];
    intros i w base a b c d rows2 rows3 rows4 Hfs Hg H2 H3 H4.
  - injection H2 as <-. injection H3 as <-. injection H4 as <-.
    exists w. split; [reflexivity|]. cbn. now rewrite !append_nil_r.
  - cbn [collect collect_enumerate] in H2, H3, H4.
    destruct (tsv_line seg) as [r2|] eqn:E2; cbn [bind] in H2; [|discriminate H2].
    destruct (collect tsv_line segs) as [rs2|] eqn:C2; cbn [bind] in H2;
      [|discriminate H2].
    injection H2 as <-.
    destruct (srt_line i seg) as [r3|] eqn:E3; cbn [bind] in H3; [|discriminate H3].
    destruct (collect_enumerate (i + 1) srt_line segs) as [rs3|] eqn:C3;
      cbn [bind] in H3; [|discriminate H3].
    injection H3 as <-.
    destruct (vtt_line seg) as [r4|] eqn:E4; cbn [bind] in H4; [|discriminate H4].
    destruct (collect vtt_line segs) as [rs4|] eqn:C4; cbn [bind] in H4;
      [|discriminate H4].
    injection H4 as <-.
    cbn [length] in Hg.
    destruct (process_segment_run i seg w base a b c d r2 r3 r4 Hfs
                (Hg i w ltac:(lia)) E2 E3 E4) as (w1 & R1 & F1).
    destruct (IH (i + 1) w1 base _ _ _ _ rs2 rs3 rs4 F1
                (fun j w0 Hj => Hg j w0 ltac:(lia)) eq_refl C3 eq_refl)
      as (w' & R & F).
    exists w'. cbn [for_each_enumerate]. unfold pbind at 1. rewrite R1.
    split; [exact R|]. rewrite F. cbn [map]. rewrite !join_cons, !append_assoc.
    reflexivity.
Qed.

Lemma process_segment_bad_time_cpu i seg e w :
  cuda = false -> tsv_line seg = Raise e ->
  body i seg w = Some (w, Raise e).
Proof using Type.
  intros Hc Hbad. unfold process_segment. rewrite Hc.
  unfold pbind at 1, ret at 1. unfold tsv_line in Hbad.
  destruct (to_ms (start seg)) as [a|e1].
  - destruct (to_ms (end_ seg)) as [b|e2]; [discriminate Hbad|].
    injection Hbad as ->. reflexivity.
  - injection Hbad as ->. reflexivity.
Qed.

(** The loop on a list whose first unconvertible segment is [bad]
    ends where the loop on the segments before it ended. *)
Lemma loop_stops good bad rest i e w w1 :
  for_each_enumerate i good body w = Some (w1, Ok tt) ->
  tsv_line bad = Raise e ->
  (forall w2 r,
     for_each_enumerate i (good ++ bad :: rest) body w = Some (w2, r) ->
     fs w2 = fs w1 /\ (r = Raise e \/ sleep_failed r))
  /\ (cuda = false ->
      for_each_enumerate i (good ++ bad :: rest) body w = Some (w1, Raise e)).
Proof using Type.
  intros Hgood Hbad. split.
  - intros w2 r H. rewrite for_each_enumerate_app in H.
    unfold pbind at 1 in H. rewrite Hgood in H.
    cbn [for_each_enumerate] in H. unfold pbind at 1 in H.
    destruct (body (i + Z.of_nat (length good)) bad w1) as [[w1' r1]|] eqn:E;
      [|discriminate H].
    destruct (process_segment_bad_time _ _ _ _ _ _ Hbad E) as [Hfs Hr].
    destruct r1 as [[]|e1].
    * destruct Hr as [Hr|(_ & [Hr|[Hr|Hr]] & _)]; discriminate Hr.
    * injection H as <- <-. split; [exact Hfs|exact Hr].
  - intros Hc. rewrite for_each_enumerate_app.
    unfold pbind at 1. rewrite Hgood.
    cbn [for_each_enumerate]. unfold pbind at 1.
    now rewrite (process_segment_bad_time_cpu _ _ _ _ Hc Hbad).
Qed.

End Loop.
(** The [with] block on segments that all render. *)
Lemma write_incrementally_run fuel env args segs dir base w rows2 rows3 rows4 :
  (device args = "cuda" ->
   forall (k : nat) w0, (k < length segs)%nat ->
     exists wg,
       check_gpu_and_pause fuel (gpu env k) (temp_limit args)
         (load_limit args) (pause_time args) w0 = Some (wg, Ok tt)) ->
  collect tsv_line segs = Ok rows2 ->
  collect_enumerate 1 srt_line segs = Ok rows3 ->
  collect vtt_line segs = Ok rows4 ->
  exists w',
    write_incrementally fuel env args segs dir base w = Some (w', Ok tt)
    /\ fs w' = four_files UTF8
                 (joinpath dir (base +:+ ".txt")) (joinpath dir (base +:+ ".tsv"))
                 (joinpath dir (base +:+ ".srt")) (joinpath dir (base +:+ ".vtt"))
                 (fs w)
                 (join (map txt_chunk segs)) (tsv_header +:+ join rows2)
                 (join rows3) (vtt_header +:+ join rows4).
Proof.
  intros Hguard H2 H3 H4.
  pose proof (PathFacts.outputs_distinct dir base) as D.
  rewrite write_incrementally_unfold.
  destruct (loop_run fuel env args _ _ _ _ D segs 1 (opened dir base w) (fs w)
              "" tsv_header "" vtt_header rows2 rows3 rows4 eq_refl)
    as (w' & R & F); try assumption.
  - intros j w0 Hj. destruct (String.eqb_spec (device args) "cuda") as [Hc|Hc].
    + apply (Hguard Hc). lia.
    + now exists w0.
  - exists w'. split; [exact R|]. rewrite !append_nil_l in F. exact F.
Qed.

End IncrementalRuns.

(** X14.  The incremental script keeps its four files in step when a
    segment cannot be converted.  Let the loop return normally on the
    segments [good], and let [bad] be a segment whose start or end is not
    a finite number.  Then on [good ++ bad :: rest] every run that comes
    to an end ends with an exception and leaves the file system exactly
    as the run on [good] left it: each of the four files describes the
    segments before [bad] and nothing else.  The exception is that of the
    conversion (or, on cuda when [time.sleep] refuses [pause_time] at
    some poll of the guard, the [ValueError], [OverflowError] or
    [OSError] that leaves the guard); with a device other than cuda the
    run does come to an end. *)
Theorem incremental_files_stop_together
    (fuel : nat) (env : environment) (args : FwMp4Opt.arguments)
    (good : list segment) (bad : segment) (rest : list segment)
    (output_dir base_name : string) (w w1 : world) (e : exn) :
  let txt_f := joinpath output_dir (base_name +:+ ".txt") in
  let tsv_f := joinpath output_dir (base_name +:+ ".tsv") in
  let srt_f := joinpath output_dir (base_name +:+ ".srt") in
  let vtt_f := joinpath output_dir (base_name +:+ ".vtt") in
  let run segs := FwMp4Opt.write_incrementally fuel env args segs output_dir base_name in
  run good w = Some (w1, Ok tt) ->
  Render.tsv_line bad = Raise e ->
  (forall w2 r, run (good ++ bad :: rest) w = Some (w2, r) ->
     fs w2 = fs w1
     /\ (r = Raise e
         \/ (FwMp4Opt.device args = "cuda"
             /\ (r = Raise ValueError \/ r = Raise OverflowError
                 \/ r = Raise OSError)
             /\ exists k i,
                  ~ Guard.accepted (nv_monotonic (gpu env k) i)
                      (FwMp4Opt.pause_time args))))
  /\ (FwMp4Opt.device args <> "cuda" ->
      run (good ++ bad :: rest) w = Some (w1, Raise e))
  /\ exists rows2 rows3 rows4,
       Render.collect Render.tsv_line good = Ok rows2
       /\ Render.collect_enumerate 1 Render.srt_line good = Ok rows3
       /\ Render.collect Render.vtt_line good = Ok rows4
       /\ fs w1 = four_files UTF8 txt_f tsv_f srt_f vtt_f (fs w)
                    (Render.join (map Render.txt_chunk good))
                    (tsv_header +:+ Render.join rows2)
                    (Render.join rows3) (vtt_header +:+ Render.join rows4).
Proof.
  intros txt_f tsv_f srt_f vtt_f run Hgood Hbad.
  pose proof Hgood as Hgood'. unfold run in Hgood'.
  rewrite IncrementalRuns.write_incrementally_unfold in Hgood'.
  destruct (IncrementalRuns.loop_stops fuel env args txt_f tsv_f srt_f vtt_f
              good bad rest 1 e _ w1 Hgood' Hbad) as [Hall Hcpu].
  split; [|split].
  - intros w2 r H. unfold run in H.
    rewrite IncrementalRuns.write_incrementally_unfold in H.
    destruct (Hall w2 r H) as [Hfs [Hr|(Hc & Hr & Hn)]];
      (split; [exact Hfs|]); [left; exact Hr|right].
    split; [now apply String.eqb_eq|]. split; [exact Hr|exact Hn].
  - intros Hdev. unfold run.
    rewrite IncrementalRuns.write_incrementally_unfold.
    apply Hcpu. now apply String.eqb_neq.
  - destruct (IncrementalFacts.write_incrementally_ok _ _ _ _ _ _ _ _ Hgood)
      as (rows2 & rows3 & rows4 & tr & C2 & C3 & C4 & Hfs & _).
    exists rows2, rows3, rows4.
    split; [exact C2|]. split; [exact C3|]. split; [exact C4|exact Hfs].
Qed.

Lemma incremental_files_stop_together_witness :
  exists w1,
    FwMp4Opt.write_incrementally 0 Sample.no_gpu (Sample.opt_args "cpu")
      Sample.hello "out" "talk" empty_world = Some (w1, Ok tt)
    /\ FwMp4Opt.write_incrementally 0 Sample.no_gpu (Sample.opt_args "cpu")
         (Sample.hello ++ Segment (Inf false) (Fin one) "lost" :: Sample.hello)
         "out" "talk" empty_world = Some (w1, Raise OverflowError).
Proof.
  assert (H : exists w1,
    FwMp4Opt.write_incrementally 0 Sample.no_gpu (Sample.opt_args "cpu")
      Sample.hello "out" "talk" empty_world = Some (w1, Ok tt))
    by (vm_compute; eexists; reflexivity).
  destruct H as [w1 H]. exists w1. split; [exact H|].
  assert (Hbad : Render.tsv_line (Segment (Inf false) (Fin one) "lost")
                 = Raise OverflowError) by (vm_compute; reflexivity).
  assert (Hdev : FwMp4Opt.device (Sample.opt_args "cpu") <> "cuda") by discriminate.
  exact (proj1 (proj2 (incremental_files_stop_together 0 Sample.no_gpu
           (Sample.opt_args "cpu") Sample.hello _ Sample.hello "out" "talk"
           empty_world w1 _ H Hbad)) Hdev).
Defined.

(** X15.  The incremental loop succeeds whenever the batch writers would:
    when every segment renders (its times convert and its timestamps
    format) and, on cuda, every call of the guard returns normally,
    [write_incrementally] returns normally and leaves the four files with
    the text [save_txt], [save_tsv], [save_srt] and [save_vtt] write for
    the same segments when the platform encoding is UTF-8. *)
Theorem incremental_run_succeeds_when_segments_render
    (fuel : nat) (env : environment) (args : FwMp4Opt.arguments)
    (segs : list segment) (output_dir base_name : string) (w : world)
    (rows2 rows3 rows4 : list string) :
  let txt_f := joinpath output_dir (base_name +:+ ".txt") in
  let tsv_f := joinpath output_dir (base_name +:+ ".tsv") in
  let srt_f := joinpath output_dir (base_name +:+ ".srt") in
  let vtt_f := joinpath output_dir (base_name +:+ ".vtt") in
  (FwMp4Opt.device args = "cuda" ->
   forall (k : nat) w0, (k < length segs)%nat ->
     exists wg,
       FwMp4Opt.check_gpu_and_pause fuel (gpu env k) (FwMp4Opt.temp_limit args)
         (FwMp4Opt.load_limit args) (FwMp4Opt.pause_time args) w0
       = Some (wg, Ok tt)) ->
  Render.collect Render.tsv_line segs = Ok rows2 ->
  Render.collect_enumerate 1 Render.srt_line segs = Ok rows3 ->
  Render.collect Render.vtt_line segs = Ok rows4 ->
  exists w',
    FwMp4Opt.write_incrementally fuel env args segs output_dir base_name w
    = Some (w', Ok tt)
    /\ fs w' = four_files UTF8 txt_f tsv_f srt_f vtt_f (fs w)
                 (Render.join (map Render.txt_chunk segs))
                 (tsv_header +:+ Render.join rows2)
                 (Render.join rows3) (vtt_header +:+ Render.join rows4)
    /\ exists w'',
         FwMp4.save_all UTF8 segs output_dir base_name w = Some (w'', Ok tt)
         /\ fs w'' = fs w'.
Proof.
  intros txt_f tsv_f srt_f vtt_f Hguard H2 H3 H4.
  destruct (IncrementalRuns.write_incrementally_run fuel env args segs output_dir
              base_name w rows2 rows3 rows4 Hguard H2 H3 H4) as (w' & R & F).
  exists w'. split; [exact R|]. split; [exact F|].
  destruct (BatchFacts.save_all_run UTF8 segs output_dir base_name w
              rows2 rows3 rows4 H2 H3 H4)
    as (w'' & R' & F'); try apply TextFacts.encodable_utf8.
  exists w''. split; [exact R'|]. now rewrite F', F.
Qed.

Lemma incremental_run_succeeds_witness :
  exists w',
    FwMp4Opt.write_incrementally 0 Sample.no_gpu (Sample.opt_args "cpu")
      Sample.hello "out" "talk" empty_world = Some (w', Ok tt)
    /\ fs w' !! "out/talk.srt"
       = Some (TextFile UTF8 (srt_cue 1 "00:00:00,000" "00:00:01,000" "hello")).
Proof.
  assert (G : FwMp4Opt.device (Sample.opt_args "cpu") = "cuda" ->
    forall (k : nat) w0, (k < length Sample.hello)%nat ->
      exists wg,
        FwMp4Opt.check_gpu_and_pause 0 (gpu Sample.no_gpu k)
          (FwMp4Opt.temp_limit (Sample.opt_args "cpu"))
          (FwMp4Opt.load_limit (Sample.opt_args "cpu"))
          (FwMp4Opt.pause_time (Sample.opt_args "cpu")) w0 = Some (wg, Ok tt))
    by discriminate.
  assert (H2 : Render.collect Render.tsv_line Sample.hello
               = Ok ["0" +:+ tab +:+ "1000" +:+ tab +:+ "hello" +:+ nl])
    by (vm_compute; reflexivity).
  assert (H3 : Render.collect_enumerate 1 Render.srt_line Sample.hello
               = Ok [srt_cue 1 "00:00:00,000" "00:00:01,000" "hello"])
    by (vm_compute; reflexivity).
  assert (H4 : Render.collect Render.vtt_line Sample.hello
               = Ok [vtt_cue "00:00.000" "00:01.000" "hello"])
    by (vm_compute; reflexivity).
  destruct (incremental_run_succeeds_when_segments_render 0 Sample.no_gpu
              (Sample.opt_args "cpu") Sample.hello "out" "talk" empty_world
              _ _ _ G H2 H3 H4) as (w' & R & F & _).
  exists w'. split; [exact R|]. rewrite F. vm_compute. reflexivity.
Defined.

Module FrameFacts.
Import Effects EffectFacts GuardEffects Frame.

Section Confined.
Context (P : string -> Prop).



Lemma confined_open f enc : P f -> confined P (open_w f enc).
Proof.
  intros Hf w w' r H path Hp. injection H as <- <-. cbn [fs].
  apply lookup_insert_ne. intros ->. contradiction.
Qed.











End Confined.










Lemma length_app_string a b :
  String.length (a +:+ b) = (String.length a + String.length b)%nat.
Proof.
  induction a as [|c a IH]; [now rewrite TextFacts.append_nil_l|].
  rewrite TextFacts.append_cons. cbn [String.length]. now rewrite IH.
Qed.






End FrameFacts.



Module MainRuns.
Import Frame.

Lemma bind_step {A B} (m : prog A) (k : A -> prog B) w w1 a :
  m w = Some (w1, Ok a) -> pbind m k w = k a w1.
Proof. intros H. unfold pbind. now rewrite H. Qed.

Lemma bind_raise {A B} (m : prog A) (k : A -> prog B) w w1 e :
  m w = Some (w1, Raise e) -> pbind m k w = Some (w1, Raise e).
Proof. intros H. unfold pbind. now rewrite H. Qed.

Lemma path_exists_found w path :
  is_Some (fs w !! path) -> path_exists path w = Some (w, Ok true).
Proof.
  intros H. unfold path_exists. now rewrite bool_decide_eq_true_2.
Qed.

Lemma mkdir_blocked w dir n :
  fs w !! dir = Some n -> n <> Dir ->
  mkdir_exist_ok dir w = Some (w, Raise FileExistsError).
Proof.
  intros H Hn. unfold mkdir_exist_ok. rewrite H. now destruct n.
Qed.

Lemma mkdir_made w dir :
  fs w !! dir = None \/ fs w !! dir = Some Dir ->
  mkdir_exist_ok dir w = Some (made_dir dir w, Ok tt)
  /\ fs (made_dir dir w) = <[dir := Dir]> (fs w).
Proof.
  unfold mkdir_exist_ok, made_dir. intros [H|H]; rewrite H.
  - split; reflexivity.
  - split; [reflexivity|]. symmetry. now apply insert_id.
Qed.

Lemma load_model_run env name dev w :
  load_model env name dev w
  = Some (World (fs w) (trace w ++ [EvLoadModel name dev]), model_loads env).
Proof. unfold load_model, pbind, emit, lift. reflexivity. Qed.

Lemma transcribe_run env path w :
  transcribe env path w
  = Some (World (fs w) (trace w ++ [EvTranscribe path]), transcription env).
Proof. unfold transcribe, pbind, emit, lift. reflexivity. Qed.

Lemma emit_run e w : emit e w = Some (World (fs w) (trace w ++ [e]), Ok tt).
Proof. reflexivity. Qed.

End MainRuns.

(** X17.  A file that has the name of the output directory stops the
    three scripts before they do anything.  When the input exists and
    [<stem>_transcribed] exists but is not a directory,
    [mkdir(exist_ok=True)] raises [FileExistsError]: [main] ends with
    that exception (exit status 1) before the model is loaded, and
    nothing on disk has changed and nothing was printed. *)
Theorem output_directory_in_the_way
    (env : environment) (fuel : nat) (p : pypath)
    (model device compute_type : string)
    (temp_limit load_limit pause_time : Z) (w : world) (n : node) :
  is_Some (fs w !! path_str p) ->
  fs w !! output_dir_of p = Some n -> n <> Dir ->
  FwMp4.main env (FwMp4.Args p model device compute_type) w
  = Some (w, Raise FileExistsError)
  /\ FwMp4Opt.main fuel env
       (FwMp4Opt.Args p model device compute_type temp_limit load_limit pause_time) w
     = Some (w, Raise FileExistsError)
  /\ TranscribeMp4.main env (TranscribeMp4.Args p model) w
     = Some (w, Raise FileExistsError)
  /\ exit_status (Raise FileExistsError) = 1.
Proof.
  intros Hin Hout Hn.
  pose proof (MainRuns.path_exists_found w _ Hin) as E1.
  pose proof (MainRuns.mkdir_blocked w _ n Hout Hn) as E2.
  split; [|split; [|split; [|reflexivity]]].
  - unfold FwMp4.main. cbn [FwMp4.input].
    rewrite (MainRuns.bind_step _ _ _ _ _ E1). cbn [negb].
    now rewrite (MainRuns.bind_raise _ _ _ _ _ E2).
  - unfold FwMp4Opt.main. cbn [FwMp4Opt.input].
    rewrite (MainRuns.bind_step _ _ _ _ _ E1). cbn [negb].
    now rewrite (MainRuns.bind_raise _ _ _ _ _ E2).
  - unfold TranscribeMp4.main. cbn [TranscribeMp4.input].
    rewrite (MainRuns.bind_step _ _ _ _ _ E1). cbn [negb].
    now rewrite (MainRuns.bind_raise _ _ _ _ _ E2).
Qed.

Lemma output_directory_in_the_way_witness :
  FwMp4.main Sample.no_gpu Sample.fw_args
    (World {[ "talk.mp4" := Other; "talk_transcribed" := Other ]} [])
  = Some (World {[ "talk.mp4" := Other; "talk_transcribed" := Other ]} [],
          Raise FileExistsError).
Proof.
  assert (H1 : is_Some (fs (World {[ "talk.mp4" := Other; "talk_transcribed" := Other ]} [])
                          !! path_str Sample.talk))
    by (exists Other; vm_compute; reflexivity).
  assert (H2 : fs (World {[ "talk.mp4" := Other; "talk_transcribed" := Other ]} [])
                 !! output_dir_of Sample.talk = Some Other)
    by (vm_compute; reflexivity).
  assert (H3 : Other <> Dir) by discriminate.
  exact (proj1 (output_directory_in_the_way Sample.no_gpu 0 Sample.talk
                  "large-v3" "cpu" "int8" 55 70 90 _ Other H1 H2 H3)).
Defined.

(** X18.  When the model cannot be loaded, or the call of
    [model.transcribe] raises, the scripts have already made their output
    directory.  With the input present and no file in the way, [main]
    ends with the exception of the library, and the only change on disk
    is the directory [<stem>_transcribed] (for [transcript_fw_mp4_opt.py]
    also the log file in it): no output file has been created. *)
Theorem library_failure_leaves_the_directory
    (env : environment) (fuel : nat) (p : pypath)
    (model device compute_type : string)
    (temp_limit load_limit pause_time : Z) (w : world) (e : exn) :
  is_Some (fs w !! path_str p) ->
  fs w !! output_dir_of p = None \/ fs w !! output_dir_of p = Some Dir ->
  model_loads env = Raise e
  \/ (model_loads env = Ok tt /\ transcription env = Raise e) ->
  (exists w',
     FwMp4.main env (FwMp4.Args p model device compute_type) w = Some (w', Raise e)
     /\ fs w' = <[output_dir_of p := Dir]> (fs w))
  /\ (exists w',
        FwMp4Opt.main fuel env
          (FwMp4Opt.Args p model device compute_type temp_limit load_limit pause_time) w
        = Some (w', Raise e)
        /\ fs w' = <[joinpath (output_dir_of p) (stem p +:+ ".log") := Other]>
                     (<[output_dir_of p := Dir]> (fs w)))
  /\ (exists w',
        TranscribeMp4.main env (TranscribeMp4.Args p model) w = Some (w', Raise e)
        /\ fs w' = <[output_dir_of p := Dir]> (fs w)).
Proof.
  intros Hin Hout Hfail.
  pose proof (MainRuns.path_exists_found w _ Hin) as E1.
  destruct (MainRuns.mkdir_made w _ Hout) as [E2 F2].
  split; [|split].
  - unfold FwMp4.main. cbn [FwMp4.input FwMp4.model FwMp4.device FwMp4.compute_type].
    rewrite (MainRuns.bind_step _ _ _ _ _ E1). cbn [negb].
    rewrite (MainRuns.bind_step _ _ _ _ _ E2).
    erewrite MainRuns.bind_step by apply MainRuns.emit_run.
    destruct Hfail as [Hl|[Hl Ht]].
    + erewrite MainRuns.bind_raise
        by (rewrite MainRuns.load_model_run, Hl; reflexivity).
      eexists. split; [reflexivity|exact F2].
    + erewrite MainRuns.bind_step
        by (rewrite MainRuns.load_model_run, Hl; reflexivity).
      erewrite MainRuns.bind_step by apply MainRuns.emit_run.
      erewrite MainRuns.bind_raise
        by (rewrite MainRuns.transcribe_run, Ht; reflexivity).
      eexists. split; [reflexivity|exact F2].
  - unfold FwMp4Opt.main.
    cbn [FwMp4Opt.input FwMp4Opt.model FwMp4Opt.device FwMp4Opt.compute_type].
    rewrite (MainRuns.bind_step _ _ _ _ _ E1). cbn [negb].
    rewrite (MainRuns.bind_step _ _ _ _ _ E2).
    erewrite MainRuns.bind_step by reflexivity.
    erewrite MainRuns.bind_step by apply MainRuns.emit_run.
    destruct Hfail as [Hl|[Hl Ht]].
    + erewrite MainRuns.bind_raise
        by (rewrite MainRuns.load_model_run, Hl; reflexivity).
      eexists. split; [reflexivity|]. cbn [fs]. now rewrite F2.
    + erewrite MainRuns.bind_step
        by (rewrite MainRuns.load_model_run, Hl; reflexivity).
      erewrite MainRuns.bind_step by apply MainRuns.emit_run.
      erewrite MainRuns.bind_raise
        by (rewrite MainRuns.transcribe_run, Ht; reflexivity).
      eexists. split; [reflexivity|]. cbn [fs]. now rewrite F2.
  - unfold TranscribeMp4.main. cbn [TranscribeMp4.input TranscribeMp4.model].
    rewrite (MainRuns.bind_step _ _ _ _ _ E1). cbn [negb].
    rewrite (MainRuns.bind_step _ _ _ _ _ E2).
    erewrite MainRuns.bind_step by apply MainRuns.emit_run.
    destruct Hfail as [Hl|[Hl Ht]].
    + erewrite MainRuns.bind_raise
        by (rewrite MainRuns.load_model_run, Hl; reflexivity).
      eexists. split; [reflexivity|exact F2].
    + erewrite MainRuns.bind_step
        by (rewrite MainRuns.load_model_run, Hl; reflexivity).
      erewrite MainRuns.bind_step by apply MainRuns.emit_run.
      erewrite MainRuns.bind_raise
        by (rewrite MainRuns.transcribe_run, Ht; reflexivity).
      eexists. split; [reflexivity|exact F2].
Qed.

Lemma library_failure_leaves_the_directory_witness :
  exists w',
    FwMp4Opt.main 0 Sample.no_gpu (Sample.opt_args "cuda") Sample.with_talk
    = Some (w', Raise RuntimeError)
    /\ fs w' = {[ "talk.mp4" := Other; "talk_transcribed" := Dir;
                  "talk_transcribed/talk.log" := Other ]}.
Proof.
  assert (H1 : is_Some (fs Sample.with_talk !! path_str Sample.talk))
    by (exists Other; vm_compute; reflexivity).
  assert (H2 : fs Sample.with_talk !! output_dir_of Sample.talk = None
               \/ fs Sample.with_talk !! output_dir_of Sample.talk = Some Dir)
    by (left; vm_compute; reflexivity).
  assert (H3 : model_loads Sample.no_gpu = Raise RuntimeError
               \/ (model_loads Sample.no_gpu = Ok tt
                   /\ transcription Sample.no_gpu = Raise RuntimeError))
    by (left; reflexivity).
  destruct (proj1 (proj2 (library_failure_leaves_the_directory Sample.no_gpu 0
              Sample.talk "large-v3" "cuda" "int8" 55 70 90 Sample.with_talk
              RuntimeError H1 H2 H3))) as (w' & R & F).
  exists w'. split; [exact R|]. rewrite F. vm_compute. reflexivity.
Defined.

(** X19.  A run of [transcript_fw_mp4.py] that meets no obstacle ends
    with status 0 and leaves the directory and four files.  When the
    input exists, nothing but a directory has the name of the output
    directory, the model loads, the transcription returns segments that
    all render, and the platform encoding has bytes for the text, [main]
    returns normally; on disk it has made [<stem>_transcribed] and, in
    it, [<stem>.txt], [<stem>.tsv], [<stem>.srt] and [<stem>.vtt] with the
    text of the four writers, and changed nothing else. *)
Theorem batch_main_writes_four_files
    (env : environment) (args : FwMp4.arguments) (w : world)
    (tr : transcript) (rows2 rows3 rows4 : list string) :
  let p := FwMp4.input args in
  let out := output_dir_of p in
  let enc := default_encoding env in
  is_Some (fs w !! path_str p) ->
  fs w !! out = None \/ fs w !! out = Some Dir ->
  model_loads env = Ok tt ->
  transcription env = Ok tr ->
  Render.collect Render.tsv_line (segments tr) = Ok rows2 ->
  Render.collect_enumerate 1 Render.srt_line (segments tr) = Ok rows3 ->
  Render.collect Render.vtt_line (segments tr) = Ok rows4 ->
  Codec.encodable enc (Render.join (map Render.txt_chunk (segments tr))) = true ->
  Codec.encodable enc (tsv_header +:+ Render.join rows2) = true ->
  Codec.encodable enc (Render.join rows3) = true ->
  Codec.encodable enc (vtt_header +:+ Render.join rows4) = true ->
  exists w',
    FwMp4.main env args w = Some (w', Ok tt)
    /\ exit_status (Ok tt) = 0
    /\ fs w' =
       four_files enc
         (joinpath out (stem p +:+ ".txt")) (joinpath out (stem p +:+ ".tsv"))
         (joinpath out (stem p +:+ ".srt")) (joinpath out (stem p +:+ ".vtt"))
         (<[out := Dir]> (fs w))
         (Render.join (map Render.txt_chunk (segments tr)))
         (tsv_header +:+ Render.join rows2)
         (Render.join rows3) (vtt_header +:+ Render.join rows4).
Proof.
  intros p out enc Hin Hout Hl Ht H2 H3 H4 E1 E2 E3 E4.
  pose proof (MainRuns.path_exists_found w _ Hin) as P1.
  destruct (MainRuns.mkdir_made w _ Hout) as [P2 F2].
  unfold FwMp4.main. fold p. fold out.
  rewrite (MainRuns.bind_step _ _ _ _ _ P1). cbn [negb].
  rewrite (MainRuns.bind_step _ _ _ _ _ P2).
  erewrite MainRuns.bind_step by apply MainRuns.emit_run.
  erewrite MainRuns.bind_step
    by (rewrite MainRuns.load_model_run, Hl; reflexivity).
  erewrite MainRuns.bind_step by apply MainRuns.emit_run.
  erewrite MainRuns.bind_step
    by (rewrite MainRuns.transcribe_run, Ht; reflexivity).
  match goal with
  | |- exists w', pbind (FwMp4.save_all _ _ _ _) _ ?w0 = _ /\ _ =>
      destruct (BatchFacts.save_all_run enc (segments tr) out (stem p) w0
                  rows2 rows3 rows4 H2 H3 H4 E1 E2 E3 E4) as (w1 & R & F)
  end.
  fold enc. rewrite (MainRuns.bind_step _ _ _ _ _ R).
  eexists. split; [reflexivity|]. split; [reflexivity|].
  cbn [fs]. rewrite F. cbn [fs]. now rewrite F2.
Qed.

Lemma batch_main_writes_four_files_witness :
  exists w',
    FwMp4.main (Sample.latin1_platform Sample.cafe) Sample.fw_args Sample.with_talk
    = Some (w', Ok tt)
    /\ fs w' !! "talk_transcribed" = Some Dir
    /\ fs w' !! "talk_transcribed/talk.txt"
       = Some (TextFile Latin1 ("caf" +:+ Sample.e_acute +:+ " ")).
Proof.
  assert (H1 : is_Some (fs Sample.with_talk !! path_str Sample.talk))
    by (exists Other; vm_compute; reflexivity).
  assert (H2 : fs Sample.with_talk !! output_dir_of Sample.talk = None
               \/ fs Sample.with_talk !! output_dir_of Sample.talk = Some Dir)
    by (left; vm_compute; reflexivity).
  assert (C2 : Render.collect Render.tsv_line Sample.cafe
               = Ok ["0" +:+ tab +:+ "1000" +:+ tab +:+ "caf" +:+ Sample.e_acute +:+ nl])
    by (vm_compute; reflexivity).
  assert (C3 : Render.collect_enumerate 1 Render.srt_line Sample.cafe
               = Ok [srt_cue 1 "00:00:00,000" "00:00:01,000" ("caf" +:+ Sample.e_acute)])
    by (vm_compute; reflexivity).
  assert (C4 : Render.collect Render.vtt_line Sample.cafe
               = Ok [vtt_cue "00:00.000" "00:01.000" ("caf" +:+ Sample.e_acute)])
    by (vm_compute; reflexivity).
  destruct (batch_main_writes_four_files (Sample.latin1_platform Sample.cafe)
              Sample.fw_args Sample.with_talk (Transcript Sample.cafe "")
              _ _ _ H1 H2 eq_refl eq_refl C2 C3 C4 eq_refl eq_refl eq_refl eq_refl)
    as (w' & R & _ & F).
  exists w'. split; [exact R|]. rewrite F. split; vm_compute; reflexivity.
Defined.

(** X20.  A run of [transcript_fw_mp4_opt.py] that meets no obstacle ends
    with status 0 and leaves the directory, the log file and four UTF-8
    files.  When the input exists, nothing but a directory has the name
    of the output directory, the model loads, the transcription returns
    segments that all render and, on cuda, every call of the guard
    returns normally, [main] returns normally whatever the platform
    encoding; on disk it has made [<stem>_transcribed] and, in it,
    [<stem>.log] and the four output files, whose text is the text the
    batch writers produce. *)
Theorem incremental_main_writes_four_files
    (fuel : nat) (env : environment) (args : FwMp4Opt.arguments) (w : world)
    (tr : transcript) (rows2 rows3 rows4 : list string) :
  let p := FwMp4Opt.input args in
  let out := output_dir_of p in
  is_Some (fs w !! path_str p) ->
  fs w !! out = None \/ fs w !! out = Some Dir ->
  model_loads env = Ok tt ->
  transcription env = Ok tr ->
  (FwMp4Opt.device args = "cuda" ->
   forall (k : nat) w0, (k < length (segments tr))%nat ->
     exists wg,
       FwMp4Opt.check_gpu_and_pause fuel (gpu env k) (FwMp4Opt.temp_limit args)
         (FwMp4Opt.load_limit args) (FwMp4Opt.pause_time args) w0
       = Some (wg, Ok tt)) ->
  Render.collect Render.tsv_line (segments tr) = Ok rows2 ->
  Render.collect_enumerate 1 Render.srt_line (segments tr) = Ok rows3 ->
  Render.collect Render.vtt_line (segments tr) = Ok rows4 ->
  exists w',
    FwMp4Opt.main fuel env args w = Some (w', Ok tt)
    /\ exit_status (Ok tt) = 0
    /\ fs w' =
       four_files UTF8
         (joinpath out (stem p +:+ ".txt")) (joinpath out (stem p +:+ ".tsv"))
         (joinpath out (stem p +:+ ".srt")) (joinpath out (stem p +:+ ".vtt"))
         (<[joinpath out (stem p +:+ ".log") := Other]> (<[out := Dir]> (fs w)))
         (Render.join (map Render.txt_chunk (segments tr)))
         (tsv_header +:+ Render.join rows2)
         (Render.join rows3) (vtt_header +:+ Render.join rows4).
Proof.
  intros p out Hin Hout Hl Ht Hguard H2 H3 H4.
  pose proof (MainRuns.path_exists_found w _ Hin) as P1.
  destruct (MainRuns.mkdir_made w _ Hout) as [P2 F2].
  unfold FwMp4Opt.main. fold p. fold out.
  rewrite (MainRuns.bind_step _ _ _ _ _ P1). cbn [negb].
  rewrite (MainRuns.bind_step _ _ _ _ _ P2).
  erewrite MainRuns.bind_step by reflexivity.
  erewrite MainRuns.bind_step by apply MainRuns.emit_run.
  erewrite MainRuns.bind_step
    by (rewrite MainRuns.load_model_run, Hl; reflexivity).
  erewrite MainRuns.bind_step by apply MainRuns.emit_run.
  erewrite MainRuns.bind_step
    by (rewrite MainRuns.transcribe_run, Ht; reflexivity).
  erewrite MainRuns.bind_step by apply MainRuns.emit_run.
  match goal with
  | |- exists w', pbind (FwMp4Opt.write_incrementally _ _ _ _ _ _) _ ?w0 = _ /\ _ =>
      destruct (IncrementalRuns.write_incrementally_run fuel env args (segments tr)
                  out (stem p) w0 rows2 rows3 rows4 Hguard H2 H3 H4) as (w1 & R & F)
  end.
  rewrite (MainRuns.bind_step _ _ _ _ _ R).
  eexists. split; [reflexivity|]. split; [reflexivity|].
  cbn [fs]. rewrite F. cbn [fs]. now rewrite F2.
Qed.

Lemma incremental_main_writes_four_files_witness :
  exists w',
    FwMp4Opt.main 0 (Sample.latin1_platform Sample.cafe) (Sample.opt_args "cpu")
      Sample.with_talk = Some (w', Ok tt)
    /\ fs w' !! "talk_transcribed/talk.log" = Some Other
    /\ fs w' !! "talk_transcribed/talk.txt"
       = Some (TextFile UTF8 ("caf" +:+ Sample.e_acute +:+ " ")).
Proof.
  assert (H1 : is_Some (fs Sample.with_talk !! path_str Sample.talk))
    by (exists Other; vm_compute; reflexivity).
  assert (H2 : fs Sample.with_talk !! output_dir_of Sample.talk = None
               \/ fs Sample.with_talk !! output_dir_of Sample.talk = Some Dir)
    by (left; vm_compute; reflexivity).
  assert (G : FwMp4Opt.device (Sample.opt_args "cpu") = "cuda" ->
    forall (k : nat) w0, (k < length Sample.cafe)%nat ->
      exists wg,
        FwMp4Opt.check_gpu_and_pause 0 (gpu (Sample.latin1_platform Sample.cafe) k)
          (FwMp4Opt.temp_limit (Sample.opt_args "cpu"))
          (FwMp4Opt.load_limit (Sample.opt_args "cpu"))
          (FwMp4Opt.pause_time (Sample.opt_args "cpu")) w0 = Some (wg, Ok tt))
    by discriminate.
  assert (C2 : Render.collect Render.tsv_line Sample.cafe
               = Ok ["0" +:+ tab +:+ "1000" +:+ tab +:+ "caf" +:+ Sample.e_acute +:+ nl])
    by (vm_compute; reflexivity).
  assert (C3 : Render.collect_enumerate 1 Render.srt_line Sample.cafe
               = Ok [srt_cue 1 "00:00:00,000" "00:00:01,000" ("caf" +:+ Sample.e_acute)])
    by (vm_compute; reflexivity).
  assert (C4 : Render.collect Render.vtt_line Sample.cafe
               = Ok [vtt_cue "00:00.000" "00:01.000" ("caf" +:+ Sample.e_acute)])
    by (vm_compute; reflexivity).
  destruct (incremental_main_writes_four_files 0 (Sample.latin1_platform Sample.cafe)
              (Sample.opt_args "cpu") Sample.with_talk (Transcript Sample.cafe "")
              _ _ _ H1 H2 eq_refl eq_refl G C2 C3 C4)
    as (w' & R & _ & F).
  exists w'. split; [exact R|]. rewrite F. split; vm_compute; reflexivity.
Defined.

Module PathNames.
Import OsPath TextFacts.

Lemma rfind_from_app c a b : forall i last,
  rfind_from c (a +:+ b) i last
  = rfind_from c b (i + Z.of_nat (String.length a)) (rfind_from c a i last).
Proof.
  induction a as [|d a IH]; intros i last.
  - rewrite append_nil_l. cbn. now rewrite Z.add_0_r.
  - rewrite append_cons. cbn [rfind_from String.length]. rewrite IH.
    f_equal. lia.
Qed.

Lemma rfind_from_absent c s : forall i last,
  contains c s = false -> rfind_from c s i last = last.
Proof.
  induction s as [|d s IH]; intros i last H; [reflexivity|].
  cbn [contains] in H. apply orb_false_elim in H as [Hd Hs].
  cbn [rfind_from]. rewrite Hd. now apply IH.
Qed.

Lemma rfind_from_bound c s : forall i last,
  last < i -> rfind_from c s i last < i + Z.of_nat (String.length s).
Proof.
  induction s as [|d s IH]; intros i last H.
  - cbn. lia.
  - cbn [rfind_from String.length].
    specialize (IH (i + 1) (if Ascii.eqb c d then i else last)).
    destruct (Ascii.eqb c d); lia.
Qed.

Lemma rfind_from_least c s : forall i last,
  last <= rfind_from c s i last \/ i <= rfind_from c s i last.
Proof.
  induction s as [|d s IH]; intros i last; [left; cbn; lia|].
  cbn [rfind_from].
  destruct (IH (i + 1) (if Ascii.eqb c d then i else last)) as [H|H];
    destruct (Ascii.eqb c d); lia.
Qed.

Lemma other_between_app c a b : forall i lo hi,
  other_between c (a +:+ b) i lo hi
  = other_between c a i lo hi
    || other_between c b (i + Z.of_nat (String.length a)) lo hi.
Proof.
  induction a as [|d a IH]; intros i lo hi.
  - rewrite append_nil_l. cbn. now rewrite Z.add_0_r.
  - rewrite append_cons. cbn [other_between String.length]. rewrite IH.
    rewrite <- orb_assoc. do 3 f_equal. lia.
Qed.

Lemma substring_prefix a b :
  String.substring 0 (String.length a) (a +:+ b) = a.
Proof.
  induction a as [|d a IH].
  - rewrite append_nil_l. destruct b; reflexivity.
  - rewrite append_cons. cbn. now rewrite IH.
Qed.

(** [splitext] cuts a path at its last dot when the dot comes after a
    character of the file name that is not a dot. *)
Lemma splitext_root_extension dir c name ext :
  Ascii.eqb "." c = false ->
  contains "/" (String c name) = false ->
  contains "." ext = false -> contains "/" ext = false ->
  splitext_root (dir +:+ String c name +:+ "." +:+ ext) = dir +:+ String c name.
Proof.
  intros Hc Hname Hext1 Hext2.
  set (root := dir +:+ String c name).
  assert (Hlen : String.length root
                 = (String.length dir + S (String.length name))%nat).
  { unfold root. rewrite FrameFacts.length_app_string. reflexivity. }
  replace (dir +:+ String c name +:+ "." +:+ ext) with (root +:+ String "." ext)
    by (unfold root; now rewrite append_assoc).
  unfold splitext_root, rfind.
  rewrite !rfind_from_app. cbn [rfind_from].
  rewrite Ascii.eqb_refl. change (Ascii.eqb "/" ".") with false.
  rewrite (rfind_from_absent "." ext) by exact Hext1.
  rewrite (rfind_from_absent "/" ext) by exact Hext2.
  rewrite !Z.add_0_l.
  set (sep := rfind_from "/" root 0 (-1)).
  assert (Hsep : sep < Z.of_nat (String.length dir)).
  { unfold sep, root. rewrite rfind_from_app.
    rewrite (rfind_from_absent "/" (String c name)) by exact Hname.
    pose proof (rfind_from_bound "/" dir 0 (-1)). lia. }
  assert (Hsep0 : -1 <= sep).
  { unfold sep. destruct (rfind_from_least "/" root 0 (-1)); lia. }
  destruct (Z.ltb_spec sep (Z.of_nat (String.length root))) as [_|Hge]; [|lia].
  cbn [andb].
  assert (Hother : other_between "." (root +:+ String "." ext) 0 (sep + 1)
                     (Z.of_nat (String.length root)) = true).
  { unfold root at 1. rewrite append_assoc, other_between_app.
    rewrite append_cons. cbn [other_between]. rewrite Hc. cbn [negb].
    rewrite Z.add_0_l.
    destruct (Z.leb_spec (sep + 1) (Z.of_nat (String.length dir))); [|lia].
    destruct (Z.ltb_spec (Z.of_nat (String.length dir))
                (Z.of_nat (String.length root))); [|lia].
    cbn [andb orb]. now rewrite orb_true_r. }
  rewrite Hother. rewrite Nat2Z.id. apply substring_prefix.
Qed.

Lemma splitext_root_no_dot p :
  contains "." p = false -> splitext_root p = p.
Proof.
  intros H. unfold splitext_root, rfind.
  rewrite (rfind_from_absent "." p) by exact H.
  destruct (rfind_from_least "/" p 0 (-1)) as [Hl|Hl];
    destruct (Z.ltb_spec (rfind_from "/" p 0 (-1)) (-1)); try lia; reflexivity.
Qed.

End PathNames.

(** X25.  A run of [transcribe.py] that meets no obstacle writes its four
    files next to the input.  When the model loads, the input exists, the
    transcription returns segments that all render and the platform
    encoding has bytes for the text, the script returns normally and the
    only change on disk is the four files [base.txt], [base.tsv],
    [base.srt] and [base.vtt], where [base] is the input path without its
    extension: the TXT file holds [result["text"]] as it is, the other
    three the header and rows, the cues, and the header and cues of the
    segments.  No directory is made. *)
Theorem transcribe_py_writes_next_to_the_input
    (env : environment) (argv : list string) (w : world)
    (tr : transcript) (rows2 rows3 rows4 : list string) :
  let input_file := Transcribe.input_file_of argv in
  let base := OsPath.splitext_root input_file in
  let enc := default_encoding env in
  model_loads env = Ok tt ->
  is_Some (fs w !! input_file) ->
  transcription env = Ok tr ->
  Render.collect Render.tsv_line (segments tr) = Ok rows2 ->
  Render.collect_enumerate 1 Render.srt_line (segments tr) = Ok rows3 ->
  Render.collect Render.vtt_line (segments tr) = Ok rows4 ->
  Codec.encodable enc (whole_text tr) = true ->
  Codec.encodable enc (tsv_header +:+ Render.join rows2) = true ->
  Codec.encodable enc (Render.join rows3) = true ->
  Codec.encodable enc (vtt_header +:+ Render.join rows4) = true ->
  exists w',
    Transcribe.script env argv w = Some (w', Ok tt)
    /\ fs w' =
       four_files enc (base +:+ ".txt") (base +:+ ".tsv") (base +:+ ".srt")
         (base +:+ ".vtt") (fs w)
         (whole_text tr) (tsv_header +:+ Render.join rows2)
         (Render.join rows3) (vtt_header +:+ Render.join rows4).
Proof.
  intros input_file base enc Hl Hin Ht H2 H3 H4 E1 E2 E3 E4.
  rewrite TextFacts.encodable_app in E2, E4.
  apply andb_prop in E2 as [_ E2]. apply andb_prop in E4 as [_ E4].
  unfold Transcribe.script. fold input_file. fold base. fold enc.
  erewrite MainRuns.bind_step
    by (rewrite MainRuns.load_model_run, Hl; reflexivity).
  erewrite MainRuns.bind_step
    by (apply MainRuns.path_exists_found; exact Hin).
  cbn [negb].
  erewrite MainRuns.bind_step by apply MainRuns.emit_run.
  erewrite MainRuns.bind_step
    by (rewrite MainRuns.transcribe_run, Ht; reflexivity).
  erewrite MainRuns.bind_step
    by (apply BatchEdges.transcribe_save_txt_run; exact E1).
  unfold Transcribe.save_tsv, Transcribe.save_srt, Transcribe.save_vtt.
  erewrite MainRuns.bind_step
    by (eapply TsvFacts.save_tsv_run;
        [exact H2|now apply BatchFacts.join_encodable]).
  erewrite MainRuns.bind_step
    by (eapply BatchFacts.save_srt_run;
        [exact H3|now apply BatchFacts.join_encodable]).
  erewrite MainRuns.bind_step
    by (eapply BatchFacts.save_vtt_run;
        [exact H4|now apply BatchFacts.join_encodable]).
  eexists. split; [reflexivity|]. reflexivity.
Qed.

Lemma transcribe_py_writes_witness :
  exists w',
    Transcribe.script (Sample.latin1_platform Sample.hello)
      ["transcribe.py"; "talk.mp4"] Sample.with_talk = Some (w', Ok tt)
    /\ fs w' !! "talk.srt"
       = Some (TextFile Latin1 (srt_cue 1 "00:00:00,000" "00:00:01,000" "hello")).
Proof.
  assert (H1 : is_Some (fs Sample.with_talk
                          !! Transcribe.input_file_of ["transcribe.py"; "talk.mp4"]))
    by (exists Other; vm_compute; reflexivity).
  assert (C2 : Render.collect Render.tsv_line Sample.hello
               = Ok ["0" +:+ tab +:+ "1000" +:+ tab +:+ "hello" +:+ nl])
    by (vm_compute; reflexivity).
  assert (C3 : Render.collect_enumerate 1 Render.srt_line Sample.hello
               = Ok [srt_cue 1 "00:00:00,000" "00:00:01,000" "hello"])
    by (vm_compute; reflexivity).
  assert (C4 : Render.collect Render.vtt_line Sample.hello
               = Ok [vtt_cue "00:00.000" "00:01.000" "hello"])
    by (vm_compute; reflexivity).
  destruct (transcribe_py_writes_next_to_the_input
              (Sample.latin1_platform Sample.hello) ["transcribe.py"; "talk.mp4"]
              Sample.with_talk (Transcript Sample.hello "") _ _ _
              eq_refl H1 eq_refl C2 C3 C4 eq_refl eq_refl eq_refl eq_refl)
    as (w' & R & F).
  exists w'. split; [exact R|]. rewrite F. vm_compute. reflexivity.
Defined.

(** X26.  How [transcribe.py] names its outputs.  For an input
    [dir + name + "." + ext], where [name] does not start with a dot and
    has no slash and [ext] has neither a dot nor a slash, the base name
    the four extensions are appended to is [dir + name]: the last
    extension is replaced.  For an input without any dot the base name is
    the input itself, so the extensions are appended to it. *)
Theorem transcribe_py_output_base
    (dir name ext p : string) (c : ascii) :
  (Ascii.eqb "." c = false ->
   contains "/" (String c name) = false ->
   contains "." ext = false -> contains "/" ext = false ->
   OsPath.splitext_root (dir +:+ String c name +:+ "." +:+ ext)
   = dir +:+ String c name)
  /\ (contains "." p = false -> OsPath.splitext_root p = p).
Proof.
  split.
  - apply PathNames.splitext_root_extension.
  - apply PathNames.splitext_root_no_dot.
Qed.

Lemma transcribe_py_output_base_witness :
  OsPath.splitext_root ("media/" +:+ String "t" "alk.final" +:+ "." +:+ "mp4")
  = "media/" +:+ String "t" "alk.final"
  /\ OsPath.splitext_root "recording" = "recording".
Proof.
  split.
  - exact (proj1 (transcribe_py_output_base "media/" "alk.final" "mp4" "" "t")
             eq_refl eq_refl eq_refl eq_refl).
  - exact (proj2 (transcribe_py_output_base "" "" "" "recording" "t") eq_refl).
Defined.

(** X27.  A run of [transcribe_mp4.py] that meets no obstacle ends with
    status 0 and leaves the directory and four files.  When the input
    exists, nothing but a directory has the name of the output directory,
    the model loads, the transcription returns segments that all render
    and the platform encoding has bytes for the text, [main] returns
    normally; on disk it has made [<stem>_transcribed] and in it the four
    files, the TXT file with [result["text"]] as it is. *)
Theorem transcribe_mp4_main_writes_four_files
    (env : environment) (args : TranscribeMp4.arguments) (w : world)
    (tr : transcript) (rows2 rows3 rows4 : list string) :
  let p := TranscribeMp4.input args in
  let out := output_dir_of p in
  let enc := default_encoding env in
  is_Some (fs w !! path_str p) ->
  fs w !! out = None \/ fs w !! out = Some Dir ->
  model_loads env = Ok tt ->
  transcription env = Ok tr ->
  Render.collect Render.tsv_line (segments tr) = Ok rows2 ->
  Render.collect_enumerate 1 Render.srt_line (segments tr) = Ok rows3 ->
  Render.collect Render.vtt_line (segments tr) = Ok rows4 ->
  Codec.encodable enc (whole_text tr) = true ->
  Codec.encodable enc (tsv_header +:+ Render.join rows2) = true ->
  Codec.encodable enc (Render.join rows3) = true ->
  Codec.encodable enc (vtt_header +:+ Render.join rows4) = true ->
  exists w',
    TranscribeMp4.main env args w = Some (w', Ok tt)
    /\ exit_status (Ok tt) = 0
    /\ fs w' =
       four_files enc
         (joinpath out (stem p +:+ ".txt")) (joinpath out (stem p +:+ ".tsv"))
         (joinpath out (stem p +:+ ".srt")) (joinpath out (stem p +:+ ".vtt"))
         (<[out := Dir]> (fs w))
         (whole_text tr) (tsv_header +:+ Render.join rows2)
         (Render.join rows3) (vtt_header +:+ Render.join rows4).
Proof.
  intros p out enc Hin Hout Hl Ht H2 H3 H4 E1 E2 E3 E4.
  rewrite TextFacts.encodable_app in E2, E4.
  apply andb_prop in E2 as [_ E2]. apply andb_prop in E4 as [_ E4].
  pose proof (MainRuns.path_exists_found w _ Hin) as P1.
  destruct (MainRuns.mkdir_made w _ Hout) as [P2 F2].
  unfold TranscribeMp4.main. fold p. fold out. fold enc.
  rewrite (MainRuns.bind_step _ _ _ _ _ P1). cbn [negb].
  rewrite (MainRuns.bind_step _ _ _ _ _ P2).
  erewrite MainRuns.bind_step by apply MainRuns.emit_run.
  erewrite MainRuns.bind_step
    by (rewrite MainRuns.load_model_run, Hl; reflexivity).
  erewrite MainRuns.bind_step by apply MainRuns.emit_run.
  erewrite MainRuns.bind_step
    by (rewrite MainRuns.transcribe_run, Ht; reflexivity).
  erewrite MainRuns.bind_step
    by (apply BatchEdges.transcribe_save_txt_run; exact E1).
  unfold Transcribe.save_tsv, Transcribe.save_srt, Transcribe.save_vtt.
  erewrite MainRuns.bind_step
    by (eapply TsvFacts.save_tsv_run;
        [exact H2|now apply BatchFacts.join_encodable]).
  erewrite MainRuns.bind_step
    by (eapply BatchFacts.save_srt_run;
        [exact H3|now apply BatchFacts.join_encodable]).
  erewrite MainRuns.bind_step
    by (eapply BatchFacts.save_vtt_run;
        [exact H4|now apply BatchFacts.join_encodable]).
  eexists. split; [reflexivity|]. split; [reflexivity|].
  cbn [fs]. rewrite F2. reflexivity.
Qed.

Lemma transcribe_mp4_main_writes_witness :
  exists w',
    TranscribeMp4.main (Sample.latin1_platform Sample.hello) Sample.mp4_args
      Sample.with_talk = Some (w', Ok tt)
    /\ fs w' !! "talk_transcribed/talk.txt" = Some (TextFile Latin1 "").
Proof.
  assert (H1 : is_Some (fs Sample.with_talk !! path_str Sample.talk))
    by (exists Other; vm_compute; reflexivity).
  assert (H2 : fs Sample.with_talk !! output_dir_of Sample.talk = None
               \/ fs Sample.with_talk !! output_dir_of Sample.talk = Some Dir)
    by (left; vm_compute; reflexivity).
  assert (C2 : Render.collect Render.tsv_line Sample.hello
               = Ok ["0" +:+ tab +:+ "1000" +:+ tab +:+ "hello" +:+ nl])
    by (vm_compute; reflexivity).
  assert (C3 : Render.collect_enumerate 1 Render.srt_line Sample.hello
               = Ok [srt_cue 1 "00:00:00,000" "00:00:01,000" "hello"])
    by (vm_compute; reflexivity).
  assert (C4 : Render.collect Render.vtt_line Sample.hello
               = Ok [vtt_cue "00:00.000" "00:01.000" "hello"])
    by (vm_compute; reflexivity).
  destruct (transcribe_mp4_main_writes_four_files
              (Sample.latin1_platform Sample.hello) Sample.mp4_args
              Sample.with_talk (Transcript Sample.hello "") _ _ _
              H1 H2 eq_refl eq_refl C2 C3 C4 eq_refl eq_refl eq_refl eq_refl)
    as (w' & R & _ & F).
  exists w'. split; [exact R|]. rewrite F. vm_compute. reflexivity.
Defined.

Module MonitorFacts.
Import FloatFacts Float64More GpuMonitor.

(** A value with at most 53 significant bits is its own rounding. *)
Lemma round_pos_exact u k q :
  0 <= u < 2 ^ 53 -> 0 <= k -> 0 < q ->
  round_pos (u * 2 ^ k * q) q = u * 2 ^ k.
Proof.
  intros Hu Hk Hq. unfold round_pos. rewrite Z.div_mul by lia.
  set (x := u * 2 ^ k). set (e := ulp_exp x).
  assert (He : 0 <= e <= k).
  { unfold e, ulp_exp, x. split; [lia|].
    destruct (Z.eq_dec u 0) as [->|Hnz];
      [rewrite Z.mul_0_l; change (Z.log2 0) with 0; lia|].
    rewrite Z.log2_mul_pow2 by lia.
    assert (Z.log2 u < 53) by (apply Z.log2_lt_pow2; lia). lia. }
  assert (Hx : x = u * 2 ^ (k - e) * 2 ^ e).
  { unfold x. rewrite <- Z.mul_assoc, <- Z.pow_add_r by lia.
    do 2 f_equal. lia. }
  assert (Hg : 0 < 2 ^ e) by (apply Z.pow_pos_nonneg; lia).
  rewrite Hx at 1.
  replace (u * 2 ^ (k - e) * 2 ^ e * q) with (u * 2 ^ (k - e) * (q * 2 ^ e)) by ring.
  rewrite rne_exact by nia. symmetry. exact Hx.
Qed.

Lemma int_truediv_mb u :
  0 <= u < 2 ^ 53 -> int_truediv u (1024 ^ 2) = Ok (u * 2 ^ 1054).
Proof.
  intros Hu. unfold int_truediv. change (1024 ^ 2) with 1048576.
  change (1048576 =? 0) with false. cbv beta iota.
  change (Z.sgn 1048576) with 1. change (Z.abs 1048576) with 1048576.
  rewrite Z.mul_1_l, round_nonneg by (pose proof one_pos; nia).
  assert (E : u * one = u * 2 ^ 1054 * 1048576).
  { rewrite one_pow. change 1048576 with (2 ^ 20).
    rewrite <- Z.mul_assoc, <- Z.pow_add_r by lia. reflexivity. }
  rewrite E, round_pos_exact by lia.
  assert (H : Z.abs (u * 2 ^ 1054) < huge).
  { rewrite Z.abs_eq by nia. rewrite huge_one, one_pow.
    rewrite <- Z.pow_add_r by lia.
    assert (2 ^ 53 * 2 ^ 1054 <= 2 ^ (1024 + 1074)).
    { rewrite <- Z.pow_add_r by lia. apply Z.pow_le_mono_r; lia. }
    assert (0 < 2 ^ 1054) by (apply Z.pow_pos_nonneg; lia). nia. }
  destruct (Z.leb_spec huge (Z.abs (u * 2 ^ 1054))); [lia|reflexivity].
Qed.

Lemma memory_text_ok info :
  0 <= used info < 2 ^ 53 -> 0 < total info < 2 ^ 53 ->
  memory_text info = Ok (memory_line info).
Proof.
  intros Hu Ht. unfold memory_line.
  assert (E : exists s, memory_text info = Ok s).
  { unfold memory_text.
    rewrite (int_truediv_mb (used info)) by lia. cbn [bind].
    rewrite (int_truediv_mb (total info)) by lia. cbn [bind].
    unfold float_truediv.
    assert (Hnz : total info * 2 ^ 1054 <> 0).
    { assert (0 < 2 ^ 1054) by (apply Z.pow_pos_nonneg; lia). nia. }
    destruct (Z.eqb_spec (total info * 2 ^ 1054) 0); [contradiction|].
    cbn [bind]. rewrite (of_int_small 100) by lia. cbn [bind].
    eexists. reflexivity. }
  destruct E as [s E]. now rewrite E.
Qed.

Lemma memory_text_zero_total u :
  0 <= u < 2 ^ 53 ->
  memory_text (MemoryInfo u 0) = Raise ZeroDivisionError.
Proof.
  intros Hu. unfold memory_text. cbn [used total].
  rewrite (int_truediv_mb u) by lia. cbn [bind].
  rewrite (int_truediv_mb 0) by lia. cbn [bind].
  unfold float_truediv. rewrite Z.mul_0_l. reflexivity.
Qed.

Lemma memory_text_raises info e :
  memory_text info = Raise e -> e = ZeroDivisionError \/ e = OverflowError.
Proof.
  unfold memory_text, int_truediv. change (1024 ^ 2 =? 0) with false.
  cbv beta iota.
  destruct (huge <=? _); cbn [bind]; [intros [= <-]; auto|].
  destruct (huge <=? _); cbn [bind]; [intros [= <-]; auto|].
  unfold float_truediv. destruct (_ =? 0); cbn [bind]; [intros [= <-]; auto|].
  rewrite (of_int_small 100) by lia. cbn [bind]. discriminate.
Qed.

End MonitorFacts.

Module MonitorRuns.
Import Float64More GpuMonitor MonitorFacts.

Section Adds.
Context (Q : output -> Prop).

Lemma adds_pure {A} (a : A) : adds Q (pure a).
Proof. intros log. exists []. now rewrite app_nil_r. Qed.

Lemma adds_say line : Q (Printed line) -> adds Q (say line).
Proof. intros H log. exists [Printed line]. split; [reflexivity|now constructor]. Qed.

Lemma adds_query {A} c (a : answer A) : Q (Called c) -> adds Q (query c a).
Proof. intros H log. exists [Called c]. split; [reflexivity|now constructor]. Qed.

Lemma adds_of_result {A} (r : result A) : adds Q (of_result r).
Proof. intros log. exists []. now rewrite app_nil_r. Qed.

Lemma adds_then {A B} (m : act A) (k : A -> act B) :
  adds Q m -> (forall a, adds Q (k a)) -> adds Q (then_ m k).
Proof.
  intros Hm Hk log. destruct (Hm log) as (tr1 & E1 & F1). unfold then_.
  destruct (m log) as [log1 [a|msg|e]]; cbn [fst] in E1; subst log1;
    [|now exists tr1|now exists tr1].
  destruct (Hk a (log ++ tr1)) as (tr2 & E2 & F2).
  exists (tr1 ++ tr2). rewrite E2, app_assoc. split; [reflexivity|].
  now apply Forall_app.
Qed.

Lemma adds_except {A} (m : act A) (h : string -> act A) :
  adds Q m -> (forall e, adds Q (h e)) -> adds Q (except_nvml m h).
Proof.
  intros Hm Hh log. destruct (Hm log) as (tr1 & E1 & F1). unfold except_nvml.
  destruct (m log) as [log1 [a|msg|e]]; cbn [fst] in E1; subst log1;
    [now exists tr1| |now exists tr1].
  destruct (Hh msg (log ++ tr1)) as (tr2 & E2 & F2).
  exists (tr1 ++ tr2). rewrite E2, app_assoc. split; [reflexivity|].
  now apply Forall_app.
Qed.

Lemma adds_for_range {A} (body : A -> act ()) l :
  (forall x, adds Q (body x)) -> adds Q (for_range l body).
Proof.
  intros Hb. induction l as [|x l IH]; cbn [for_range].
  - apply adds_pure.
  - apply adds_then; [apply Hb|intros _; exact IH].
Qed.

Hypothesis prints : forall line, Q (Printed line).
Hypothesis calls : forall c, c <> Shutdown -> Q (Called c).

Lemma adds_report_device d i : adds Q (report_device d i).
Proof using prints calls.
  unfold report_device.
  repeat first
    [ apply adds_then; [|intros ?]
    | apply adds_except; [|intros ?]
    | apply adds_pure | apply adds_of_result
    | apply adds_say, prints
    | apply adds_query, calls; discriminate ].
Qed.

End Adds.

Lemma arith_pure {A} (a : A) : arithmetic_only (pure a).
Proof. intros log e H. discriminate. Qed.

Lemma arith_say line : arithmetic_only (say line).
Proof. intros log e H. discriminate. Qed.

Lemma arith_query {A} c (a : answer A) : arithmetic_only (query c a).
Proof. intros log e H. cbn in H. destruct a; discriminate. Qed.

Lemma arith_then {A B} (m : act A) (k : A -> act B) :
  arithmetic_only m -> (forall a, arithmetic_only (k a)) ->
  arithmetic_only (then_ m k).
Proof.
  intros Hm Hk log e H. unfold then_ in H. specialize (Hm log).
  destruct (m log) as [log1 [a|msg|e1]]; cbn [snd] in *.
  - exact (Hk a log1 e H).
  - discriminate.
  - injection H as <-. now apply Hm.
Qed.

Lemma arith_except {A} (m : act A) (h : string -> act A) :
  arithmetic_only m -> (forall e, arithmetic_only (h e)) ->
  arithmetic_only (except_nvml m h).
Proof.
  intros Hm Hh log e H. unfold except_nvml in H. specialize (Hm log).
  destruct (m log) as [log1 [a|msg|e1]]; cbn [snd] in *.
  - discriminate.
  - exact (Hh msg log1 e H).
  - injection H as <-. now apply Hm.
Qed.

Lemma arith_for_range {A} (body : A -> act ()) l :
  (forall x, arithmetic_only (body x)) -> arithmetic_only (for_range l body).
Proof.
  intros Hb. induction l as [|x l IH]; cbn [for_range].
  - apply arith_pure.
  - apply arith_then; [apply Hb|intros _; exact IH].
Qed.

Lemma arith_memory info : arithmetic_only (of_result (memory_text info)).
Proof.
  intros log e H. cbn in H. destruct (memory_text info) eqn:E; [discriminate|].
  injection H as ->. exact (memory_text_raises _ _ E).
Qed.

Lemma arith_report_device d i : arithmetic_only (report_device d i).
Proof.
  unfold report_device.
  repeat first
    [ apply arith_then; [|intros ?]
    | apply arith_except; [|intros ?]
    | apply arith_pure | apply arith_memory
    | apply arith_say | apply arith_query ].
Qed.

Lemma printed_app a b : printed (a ++ b) = printed a ++ printed b.
Proof. apply flat_map_app. Qed.

Lemma for_range_app {A} (body : A -> act ()) l1 l2 log :
  for_range (l1 ++ l2) body log
  = then_ (for_range l1 body) (fun _ => for_range l2 body) log.
Proof.
  revert log. induction l1 as [|x l1 IH]; intros log; [reflexivity|].
  cbn [app for_range]. unfold then_.
  destruct (body x log) as [log1 [[]|msg|e]]; [|reflexivity|reflexivity].
  rewrite IH. reflexivity.
Qed.

Lemma range_bounds n i : In i (range n) -> 0 <= i < n.
Proof.
  unfold range. rewrite in_map_iff. intros (k & <- & Hk).
  apply in_seq in Hk. lia.
Qed.

Lemma range_split n k :
  0 <= k < n -> exists rest, range n = range k ++ k :: rest.
Proof.
  intros Hk. unfold range.
  replace (Z.to_nat n) with (Z.to_nat k + S (Z.to_nat n - S (Z.to_nat k)))%nat by lia.
  rewrite seq_app, map_app. cbn [seq map Nat.add].
  rewrite Z2Nat.id by lia. eexists. reflexivity.
Qed.

(** The report of a card whose handle is there. *)
Lemma report_device_run d i log :
  reportable d ->
  exists tr, report_device d i log = (log ++ tr, Value tt)
             /\ printed tr = device_lines d i.
Proof.
  intros [Hh Hm]. unfold report_device, device_lines. rewrite Hh.
  destruct (dev_name d) as [name|e1], (dev_temperature d) as [t|e2],
           (dev_memory d) as [info|e3] eqn:Em, (dev_utilization d) as [u|e4];
    try (destruct (Hm info eq_refl) as [Hu Ht]);
    unfold then_, except_nvml, query, pure, say, of_result;
    try rewrite (memory_text_ok info Hu Ht);
    cbv beta iota; repeat rewrite <- app_assoc; cbn [app];
    (eexists; split; [reflexivity|reflexivity]).
Qed.

Lemma report_loop_run drv l : forall log,
  (forall i, In i l -> reportable (drv_device drv i)) ->
  exists tr,
    for_range l (fun i => report_device (drv_device drv i) i) log
    = (log ++ tr, Value tt)
    /\ printed tr = flat_map (fun i => device_lines (drv_device drv i) i) l.
Proof.
  induction l as [|x l IH]; intros log H.
  - exists []. now rewrite app_nil_r.
  - destruct (report_device_run (drv_device drv x) x log (H x (or_introl eq_refl)))
      as (tr1 & E1 & P1).
    destruct (IH (log ++ tr1) (fun i Hi => H i (or_intror Hi))) as (tr2 & E2 & P2).
    exists (tr1 ++ tr2). cbn [for_range flat_map]. unfold then_.
    rewrite E1, E2, app_assoc, printed_app, P1, P2. split; reflexivity.
Qed.

(** The loop over the cards ends at the first card whose pass raises. *)
Lemma report_loop_stops drv n k log tr (r : outcome ()) :
  0 <= k < n ->
  (forall i, 0 <= i < k -> reportable (drv_device drv i)) ->
  (forall log1, report_device (drv_device drv k) k log1 = (log1 ++ tr, r)) ->
  (forall a, r <> Value a) ->
  exists tr0,
    for_range (range n) (fun i => report_device (drv_device drv i) i) log
    = (log ++ tr0 ++ tr, r)
    /\ printed tr0 = flat_map (fun i => device_lines (drv_device drv i) i) (range k).
Proof.
  intros Hk Hgood Hbad Hr. destruct (range_split n k Hk) as [rest ->].
  rewrite for_range_app. unfold then_.
  destruct (report_loop_run drv (range k) log
              (fun i Hi => Hgood i (range_bounds k i Hi))) as (tr0 & E0 & P0).
  rewrite E0. cbn [for_range]. unfold then_. rewrite Hbad.
  exists tr0. split; [|exact P0].
  rewrite <- app_assoc. destruct r as [a| |]; [now contradiction (Hr a)| |];
    reflexivity.
Qed.

(** [print_gpu_stats] once NVML has started and counted the cards. *)
Lemma stats_unfold drv n log :
  drv_init drv = Answer tt -> drv_count drv = Answer n ->
  print_gpu_stats drv log
  = match for_range (range n) (fun i => report_device (drv_device drv i) i)
            (log ++ [Called Init; Called DeviceGetCount;
                     Printed ("Found " +:+ PyInt.str n +:+ " GPU(s)");
                     Printed dashes]) with
    | (log', NvmlError message) =>
        (log' ++ [Printed ("Error: " +:+ message); Called Shutdown], Value tt)
    | (log', r) => (log' ++ [Called Shutdown], r)
    end.
Proof.
  intros Hi Hc. unfold print_gpu_stats, finally_quietly, except_nvml.
  rewrite Hi, Hc. unfold then_ at 1, query at 1. unfold then_ at 1, query at 1.
  unfold then_ at 1, say at 1. unfold then_ at 1, say at 1.
  repeat rewrite <- app_assoc. cbn [app].
  destruct (for_range _ _ _) as [log' [a|msg|e]]; cbn [fst query say];
    rewrite <- ?app_assoc; reflexivity.
Qed.

End MonitorRuns.

(** X21.  [print_gpu_stats] closes its NVML session whatever NVML
    answers: it calls [nvmlInit] first and [nvmlShutdown] last, exactly
    once each time it runs.  No [NVMLError] leaves it; it returns
    normally unless the computation of the memory line raises
    [ZeroDivisionError] or [OverflowError], which no handler of the
    function catches. *)
Theorem print_gpu_stats_always_shuts_down
    (drv : GpuMonitor.driver) (log : list GpuMonitor.output) :
  exists mid r,
    GpuMonitor.print_gpu_stats drv log
    = (log ++ GpuMonitor.Called GpuMonitor.Init :: mid
           ++ [GpuMonitor.Called GpuMonitor.Shutdown], r)
    /\ Forall (fun o => GpuMonitor.is_shutdown o = false) mid
    /\ (r = GpuMonitor.Value tt
        \/ r = GpuMonitor.Error ZeroDivisionError
        \/ r = GpuMonitor.Error OverflowError).
Proof.
  set (Q := fun o => GpuMonitor.is_shutdown o = false).
  assert (Qp : forall line, Q (GpuMonitor.Printed line)) by reflexivity.
  assert (Qc : forall c, c <> GpuMonitor.Shutdown -> Q (GpuMonitor.Called c)).
  { intros [] Hc; try reflexivity. now contradiction Hc. }
  unfold GpuMonitor.print_gpu_stats, GpuMonitor.finally_quietly.
  unfold GpuMonitor.except_nvml.
  unfold GpuMonitor.then_ at 1, GpuMonitor.query at 1.
  destruct (GpuMonitor.drv_init drv) as [[]|msg].
  - match goal with
    | |- context [GpuMonitor.then_ ?m ?k ?l] =>
        assert (Ha : GpuMonitor.adds Q (GpuMonitor.then_ m k));
        [|assert (Hb : GpuMonitor.arithmetic_only (GpuMonitor.then_ m k));
          [|destruct (Ha l) as (tr & E & F); specialize (Hb l);
            destruct (GpuMonitor.then_ m k l) as [log1 r1]]]
    end.
    + apply MonitorRuns.adds_then; [now apply MonitorRuns.adds_query|intros n].
      apply MonitorRuns.adds_then; [now apply MonitorRuns.adds_say|intros _].
      apply MonitorRuns.adds_then; [now apply MonitorRuns.adds_say|intros _].
      apply MonitorRuns.adds_for_range. intros i.
      now apply MonitorRuns.adds_report_device.
    + apply MonitorRuns.arith_then; [apply MonitorRuns.arith_query|intros n].
      apply MonitorRuns.arith_then; [apply MonitorRuns.arith_say|intros _].
      apply MonitorRuns.arith_then; [apply MonitorRuns.arith_say|intros _].
      apply MonitorRuns.arith_for_range. intros i.
      apply MonitorRuns.arith_report_device.
    + cbn [fst snd] in E, Hb. subst log1. destruct r1 as [[]|msg|e].
      * exists tr, (GpuMonitor.Value tt). cbn [fst GpuMonitor.query].
        rewrite <- !app_assoc. split; [reflexivity|]. split; [exact F|now left].
      * exists (tr ++ [GpuMonitor.Printed ("Error: " +:+ msg)]), (GpuMonitor.Value tt).
        cbn [fst GpuMonitor.query GpuMonitor.say].
        rewrite <- !app_assoc. split; [reflexivity|]. split; [|now left].
        apply Forall_app. split; [exact F|]. now constructor.
      * exists tr, (GpuMonitor.Error e). cbn [fst GpuMonitor.query].
        rewrite <- !app_assoc. split; [reflexivity|]. split; [exact F|].
        right. destruct (Hb e eq_refl) as [->| ->]; auto.
  - exists [GpuMonitor.Printed ("Error: " +:+ msg)], (GpuMonitor.Value tt).
    cbn [fst GpuMonitor.query GpuMonitor.say].
    rewrite <- !app_assoc. split; [reflexivity|]. split; [|now left].
    now constructor.
Qed.

(** X22.  A query that fails costs the report one value, not the card
    and not the run.  When NVML starts, counts [n] cards and gives a
    handle for each, and the memory sizes a card reports are below [2^53]
    bytes with a total that is not zero, [print_gpu_stats] returns
    normally and prints the count, a rule, and then for every card, in
    order, exactly six lines: name, temperature, memory, GPU load, memory
    load and a rule, where a query that raised [NVMLError] shows as
    [N/A (message)] (the name as [Unknown (message)]). *)
Theorem print_gpu_stats_reports_every_device
    (drv : GpuMonitor.driver) (n : Z) :
  GpuMonitor.drv_init drv = GpuMonitor.Answer tt ->
  GpuMonitor.drv_count drv = GpuMonitor.Answer n ->
  (forall i, 0 <= i < n -> GpuMonitor.reportable (GpuMonitor.drv_device drv i)) ->
  exists log,
    GpuMonitor.print_gpu_stats drv [] = (log, GpuMonitor.Value tt)
    /\ GpuMonitor.printed log
       = ["Found " +:+ PyInt.str n +:+ " GPU(s)"; GpuMonitor.dashes]
         ++ flat_map (fun i => GpuMonitor.device_lines (GpuMonitor.drv_device drv i) i)
              (GpuMonitor.range n)
    /\ length (GpuMonitor.printed log) = (2 + 6 * Z.to_nat n)%nat.
Proof.
  intros Hi Hc Hgood. rewrite (MonitorRuns.stats_unfold drv n [] Hi Hc).
  match goal with
  | |- context [GpuMonitor.for_range _ _ ?l] =>
      destruct (MonitorRuns.report_loop_run drv (GpuMonitor.range n) l
                  (fun i Hin => Hgood i (MonitorRuns.range_bounds n i Hin)))
        as (tr & E & P)
  end.
  rewrite E. eexists. split; [reflexivity|].
  assert (Hp : GpuMonitor.printed
                 ((([] ++ [GpuMonitor.Called GpuMonitor.Init;
                           GpuMonitor.Called GpuMonitor.DeviceGetCount;
                           GpuMonitor.Printed ("Found " +:+ PyInt.str n +:+ " GPU(s)");
                           GpuMonitor.Printed GpuMonitor.dashes]) ++ tr)
                   ++ [GpuMonitor.Called GpuMonitor.Shutdown])
               = ["Found " +:+ PyInt.str n +:+ " GPU(s)"; GpuMonitor.dashes]
                 ++ flat_map
                      (fun i => GpuMonitor.device_lines (GpuMonitor.drv_device drv i) i)
                      (GpuMonitor.range n)).
  { rewrite !MonitorRuns.printed_app, P. cbn [app GpuMonitor.printed flat_map].
    now rewrite app_nil_r. }
  split; [exact Hp|]. rewrite Hp. cbn [app length].
  assert (L : forall m s,
    length (flat_map
              (fun i => GpuMonitor.device_lines (GpuMonitor.drv_device drv i) i)
              (map Z.of_nat (seq s m))) = (6 * m)%nat).
  { induction m as [|m IH]; intros s; [reflexivity|].
    cbn [seq map flat_map]. rewrite length_app, IH.
    cbn [GpuMonitor.device_lines length]. lia. }
  unfold GpuMonitor.range. rewrite L. lia.
Qed.

Lemma print_gpu_stats_reports_witness :
  exists log,
    GpuMonitor.print_gpu_stats
      (GpuMonitor.Driver (GpuMonitor.Answer tt) (GpuMonitor.Answer 2)
         (fun i => if i =? 0 then GpuMonitor.sample_device
                   else GpuMonitor.silent_device)
         (GpuMonitor.Answer tt)) []
    = (log, GpuMonitor.Value tt)
    /\ length (GpuMonitor.printed log) = 14%nat.
Proof.
  assert (H : forall i, 0 <= i < 2 ->
    GpuMonitor.reportable
      (if i =? 0 then GpuMonitor.sample_device else GpuMonitor.silent_device)).
  { intros i _. destruct (i =? 0); split; try reflexivity.
    - intros info [= <-]. cbn. lia.
    - intros info [=]. }
  destruct (print_gpu_stats_reports_every_device
              (GpuMonitor.Driver (GpuMonitor.Answer tt) (GpuMonitor.Answer 2)
                 (fun i => if i =? 0 then GpuMonitor.sample_device
                           else GpuMonitor.silent_device)
                 (GpuMonitor.Answer tt)) 2 eq_refl eq_refl H) as (log & R & _ & L).
  exists log. split; [exact R|exact L].
Defined.

(** X23.  A card that reports a total memory of zero bytes breaks the
    report.  When the cards before it are reported and card [k] answers
    with its handle and with a memory of [used] bytes out of 0,
    [mem_used/mem_total] raises [ZeroDivisionError], which none of the
    [except pynvml.NVMLError] clauses catches: nothing of card [k] and of
    the cards after it is printed, [nvmlShutdown] is still called, and
    the exception leaves [print_gpu_stats]. *)
Theorem print_gpu_stats_zero_total_memory
    (drv : GpuMonitor.driver) (n k u : Z) :
  GpuMonitor.drv_init drv = GpuMonitor.Answer tt ->
  GpuMonitor.drv_count drv = GpuMonitor.Answer n ->
  0 <= k < n ->
  (forall i, 0 <= i < k -> GpuMonitor.reportable (GpuMonitor.drv_device drv i)) ->
  GpuMonitor.dev_handle (GpuMonitor.drv_device drv k) = GpuMonitor.Answer tt ->
  GpuMonitor.dev_memory (GpuMonitor.drv_device drv k)
  = GpuMonitor.Answer (GpuMonitor.MemoryInfo u 0) ->
  0 <= u < 2 ^ 53 ->
  exists log,
    GpuMonitor.print_gpu_stats drv []
    = (log ++ [GpuMonitor.Called GpuMonitor.Shutdown],
       GpuMonitor.Error ZeroDivisionError)
    /\ GpuMonitor.printed log
       = ["Found " +:+ PyInt.str n +:+ " GPU(s)"; GpuMonitor.dashes]
         ++ flat_map (fun i => GpuMonitor.device_lines (GpuMonitor.drv_device drv i) i)
              (GpuMonitor.range k).
Proof.
  intros Hi Hc Hk Hgood Hh Hm Hu.
  rewrite (MonitorRuns.stats_unfold drv n [] Hi Hc).
  assert (Hbad : exists tr, GpuMonitor.printed tr = [] /\ forall log1,
    GpuMonitor.report_device (GpuMonitor.drv_device drv k) k log1
    = (log1 ++ tr, GpuMonitor.Error ZeroDivisionError)).
  { unfold GpuMonitor.report_device. rewrite Hh, Hm.
    destruct (GpuMonitor.dev_name _) as [name|e1],
             (GpuMonitor.dev_temperature _) as [t|e2];
      (eexists; split; [|intros log1;
        unfold GpuMonitor.then_, GpuMonitor.except_nvml, GpuMonitor.query,
          GpuMonitor.pure, GpuMonitor.say, GpuMonitor.of_result;
        rewrite (MonitorFacts.memory_text_zero_total u Hu);
        cbv beta iota; repeat rewrite <- app_assoc; cbn [app]; reflexivity]);
      reflexivity. }
  destruct Hbad as (tr & Ptr & Hbad).
  match goal with
  | |- context [GpuMonitor.for_range _ _ ?l] =>
      destruct (MonitorRuns.report_loop_stops drv n k l tr _ Hk Hgood Hbad
                  ltac:(discriminate)) as (tr0 & E & P)
  end.
  rewrite E. eexists. split; [reflexivity|].
  rewrite !MonitorRuns.printed_app, P, Ptr.
  cbn [app GpuMonitor.printed flat_map]. now rewrite app_nil_r.
Qed.

Lemma print_gpu_stats_zero_total_witness :
  exists log,
    GpuMonitor.print_gpu_stats
      (GpuMonitor.Driver (GpuMonitor.Answer tt) (GpuMonitor.Answer 1)
         (fun _ => GpuMonitor.Device (GpuMonitor.Answer tt) (GpuMonitor.Answer "vGPU")
                     (GpuMonitor.Answer 40)
                     (GpuMonitor.Answer (GpuMonitor.MemoryInfo 0 0))
                     (GpuMonitor.Answer (GpuMonitor.Utilization 0 0)))
         (GpuMonitor.Answer tt)) []
    = (log ++ [GpuMonitor.Called GpuMonitor.Shutdown],
       GpuMonitor.Error ZeroDivisionError)
    /\ GpuMonitor.printed log = ["Found 1 GPU(s)"; GpuMonitor.dashes].
Proof.
  assert (Hk : 0 <= 0 < 1) by lia.
  assert (Hu : 0 <= 0 < 2 ^ 53) by (split; [lia|reflexivity]).
  exact (print_gpu_stats_zero_total_memory
           (GpuMonitor.Driver (GpuMonitor.Answer tt) (GpuMonitor.Answer 1)
              (fun _ => GpuMonitor.Device (GpuMonitor.Answer tt)
                          (GpuMonitor.Answer "vGPU") (GpuMonitor.Answer 40)
                          (GpuMonitor.Answer (GpuMonitor.MemoryInfo 0 0))
                          (GpuMonitor.Answer (GpuMonitor.Utilization 0 0)))
              (GpuMonitor.Answer tt)) 1 0 0 eq_refl eq_refl Hk
           ltac:(intros i Hi; lia) eq_refl eq_refl Hu).
Defined.

(** X24.  An [NVMLError] outside the four per-query [try] blocks ends the
    report with one line and is not raised.  When [nvmlInit] or
    [nvmlDeviceGetCount] fails, [print_gpu_stats] prints only
    [Error: message]; when the handle of card [k] cannot be had, it
    prints the cards before [k] and then [Error: message].  In each case
    [nvmlShutdown] is called and the function returns normally. *)
Theorem print_gpu_stats_reports_an_nvml_error
    (drv : GpuMonitor.driver) (message : string) :
  (GpuMonitor.drv_init drv = GpuMonitor.Fails message ->
   GpuMonitor.print_gpu_stats drv []
   = ([GpuMonitor.Called GpuMonitor.Init;
       GpuMonitor.Printed ("Error: " +:+ message);
       GpuMonitor.Called GpuMonitor.Shutdown], GpuMonitor.Value tt))
  /\ (GpuMonitor.drv_init drv = GpuMonitor.Answer tt ->
      GpuMonitor.drv_count drv = GpuMonitor.Fails message ->
      GpuMonitor.print_gpu_stats drv []
      = ([GpuMonitor.Called GpuMonitor.Init;
          GpuMonitor.Called GpuMonitor.DeviceGetCount;
          GpuMonitor.Printed ("Error: " +:+ message);
          GpuMonitor.Called GpuMonitor.Shutdown], GpuMonitor.Value tt))
  /\ (forall n k,
        GpuMonitor.drv_init drv = GpuMonitor.Answer tt ->
        GpuMonitor.drv_count drv = GpuMonitor.Answer n ->
        0 <= k < n ->
        (forall i, 0 <= i < k ->
           GpuMonitor.reportable (GpuMonitor.drv_device drv i)) ->
        GpuMonitor.dev_handle (GpuMonitor.drv_device drv k)
        = GpuMonitor.Fails message ->
        exists log,
          GpuMonitor.print_gpu_stats drv []
          = (log ++ [GpuMonitor.Called GpuMonitor.Shutdown], GpuMonitor.Value tt)
          /\ GpuMonitor.printed log
             = ["Found " +:+ PyInt.str n +:+ " GPU(s)"; GpuMonitor.dashes]
               ++ flat_map
                    (fun i => GpuMonitor.device_lines (GpuMonitor.drv_device drv i) i)
                    (GpuMonitor.range k)
               ++ ["Error: " +:+ message]).
Proof.
  split; [|split].
  - intros Hi. unfold GpuMonitor.print_gpu_stats, GpuMonitor.finally_quietly,
      GpuMonitor.except_nvml, GpuMonitor.then_ at 1, GpuMonitor.query.
    rewrite Hi. reflexivity.
  - intros Hi Hc. unfold GpuMonitor.print_gpu_stats, GpuMonitor.finally_quietly,
      GpuMonitor.except_nvml, GpuMonitor.then_ at 1, GpuMonitor.query.
    rewrite Hi. unfold GpuMonitor.then_ at 1. rewrite Hc. reflexivity.
  - intros n k Hi Hc Hk Hgood Hh.
    rewrite (MonitorRuns.stats_unfold drv n [] Hi Hc).
    assert (Hbad : forall log1,
      GpuMonitor.report_device (GpuMonitor.drv_device drv k) k log1
      = (log1 ++ [GpuMonitor.Called (GpuMonitor.DeviceGetHandleByIndex k)],
         GpuMonitor.NvmlError message)).
    { intros log1. unfold GpuMonitor.report_device, GpuMonitor.then_ at 1,
        GpuMonitor.query at 1. now rewrite Hh. }
    match goal with
    | |- context [GpuMonitor.for_range _ _ ?l] =>
        destruct (MonitorRuns.report_loop_stops drv n k l _ _ Hk Hgood Hbad
                    ltac:(discriminate)) as (tr0 & E & P)
    end.
    rewrite E.
    exists (([] ++ [GpuMonitor.Called GpuMonitor.Init;
                    GpuMonitor.Called GpuMonitor.DeviceGetCount;
                    GpuMonitor.Printed ("Found " +:+ PyInt.str n +:+ " GPU(s)");
                    GpuMonitor.Printed GpuMonitor.dashes])
            ++ tr0 ++ [GpuMonitor.Called (GpuMonitor.DeviceGetHandleByIndex k)]
            ++ [GpuMonitor.Printed ("Error: " +:+ message)]).
    split; [rewrite <- !app_assoc; reflexivity|].
    rewrite !MonitorRuns.printed_app, P. reflexivity.
Qed.

Lemma print_gpu_stats_reports_an_nvml_error_witness :
  GpuMonitor.print_gpu_stats
    (GpuMonitor.Driver (GpuMonitor.Fails "Driver Not Loaded") (GpuMonitor.Answer 1)
       (fun _ => GpuMonitor.sample_device) (GpuMonitor.Fails "Uninitialized")) []
  = ([GpuMonitor.Called GpuMonitor.Init;
      GpuMonitor.Printed "Error: Driver Not Loaded";
      GpuMonitor.Called GpuMonitor.Shutdown], GpuMonitor.Value tt).
Proof.
  exact (proj1 (print_gpu_stats_reports_an_nvml_error
                  (GpuMonitor.Driver (GpuMonitor.Fails "Driver Not Loaded")
                     (GpuMonitor.Answer 1) (fun _ => GpuMonitor.sample_device)
                     (GpuMonitor.Fails "Uninitialized"))
                  "Driver Not Loaded") eq_refl).
Defined.
